(** * Feature generation for tunnelled-flow classification

    A shallow embedding of [src/features/feature_creation.py] and
    [src/features/features.py]: the windower [split], the streak counter
    [longest_dir_streak], the rolling aggregate [roll], the per-window
    extractor [engineer_features] and the pipeline [create_features];
    and of the table that [etl] of [src/data/etl.py] writes for them.

    Conventions.
    - Python and numpy integers are [Z]; a sum of an [int64] column wraps
      around as numpy's does ([wrap64]).
    - [float64] values are [spec_float] at precision 53 and [emax] 1024,
      the binary64 format; [/] on two integers is the IEEE division of the
      two converted operands.
    - A raised exception is the [Raise] branch of [result]; statements run
      in source order inside the [result] monad, so the first failing
      statement decides the exception.
    - pandas, numpy and scipy routines whose arithmetic is not written in
      this repository (means, resampling, Welch's estimate, peak search)
      are fields of the interface [NumLib]; those of the spectral step
      return a [result], since they can raise and stand outside the
      [try].
    - The [size] column is an [int64] column, as [read_csv] loads it
      from a file with no missing cell.  With a missing cell the column
      is float64 and its sums are float sums; for sizes that are not
      negative they are the sums here as long as these stay below
      [2^53]. *)

From Stdlib Require Import ZArith List Bool Lia Permutation String Ascii.
From Stdlib Require Import SpecFloat.
Import ListNotations.

Open Scope Z_scope.

(** ** Exceptions *)

Inductive exn : Type :=
| IndexError
| ZeroDivisionError
| ValueError.

Inductive result (A : Type) : Type :=
| Ok (a : A)
| Raise (e : exn).

Arguments Ok {A} a.
Arguments Raise {A} e.

Definition bind {A B : Type} (r : result A) (k : A -> result B) : result B :=
  match r with
  | Ok a => k a
  | Raise e => Raise e
  end.

Notation "x <- r ;; k" := (bind r (fun x => k))
  (at level 61, r at next level, right associativity).

Definition raises {A : Type} (r : result A) : Prop :=
  exists e, r = Raise e.

(** ** Data model *)

(** One row of a preprocessed flow file.  [dt_time] is the elapsed time
    since the first packet and [time] the capture time, both in
    milliseconds; [size] and [dir] are [None] where the file has no value
    (pandas' NaN).  [time] is always there: [split] reads and bins it
    before any row is dropped. *)
Record Packet : Type := mkPacket {
  dt_time : Z;
  time : Z;
  size : option Z;
  dir : option Z
}.

Definition DataFrame : Type := list Packet.

(** A preprocessed file: the name [glob] returns and the table
    [pd.read_csv] loads from it. *)
Record CsvFile : Type := mkCsvFile {
  filename : string;
  table : DataFrame
}.

(** ** numpy and pandas primitives used by [split] *)

(** Ceiling of [a / b] for [b <> 0]. *)
Definition cdiv (a b : Z) : Z := - ((- a) / b).

(** The [n] values [start + i * step]. *)
Definition arange_list (start step : Z) (n : nat) : list Z :=
  map (fun i => start + Z.of_nat i * step) (seq 0 n).

(** [np.arange(start, stop, step)] on integers: [ceil((stop - start) / step)]
    values [start + i * step], none when that count is not positive.  With
    a zero step the quotient of the two numpy scalars is no finite number
    and [arange] refuses the length with [ValueError] ("Maximum allowed
    size exceeded"). *)
Definition np_arange (start stop step : Z) : result (list Z) :=
  if step =? 0 then Raise ValueError
  else Ok (arange_list start step (Z.to_nat (cdiv (stop - start) step))).

(** A bin of [pd.cut] with its default [right=True]: the interval
    [(left, right]]. *)
Record Interval : Type := mkInterval {
  left : Z;
  right : Z
}.

Definition contains (iv : Interval) (t : Z) : bool :=
  (left iv <? t) && (t <=? right iv).

(** [IntervalIndex.from_breaks]: consecutive edges. *)
Fixpoint from_breaks (bins : list Z) : list Interval :=
  match bins with
  | a :: (b :: _) as rest => mkInterval a b :: from_breaks rest
  | _ => []
  end.

Fixpoint increasing (bins : list Z) : bool :=
  match bins with
  | a :: (b :: _) as rest => (a <? b) && increasing rest
  | _ => true
  end.

(** [bins.searchsorted(x, side='left')] on increasing edges: the number
    of edges strictly below [x]. *)
Definition searchsorted_left (bins : list Z) (x : Z) : nat :=
  List.length (filter (fun b => b <? x) bins).

(** The bin code [pd.cut] gives a value: [ids - 1], and missing when
    [ids] is [0] or [len(bins)]. *)
Definition cut_code (bins : list Z) (x : Z) : option nat :=
  let ids := searchsorted_left bins x in
  if (ids =? 0)%nat || (ids =? List.length bins)%nat then None
  else Some (ids - 1)%nat.

(** [pd.cut(x, bins)]: the categories and the code of every value.  Edges
    that do not increase raise; fewer than two edges leave no category.
    ([np.arange] never repeats an edge, so pandas' separate rule for
    duplicate edges is folded into this check.) *)
Definition pd_cut (x : list Z) (bins : list Z)
  : result (list Interval * list (option nat)) :=
  if increasing bins then Ok (from_breaks bins, map (cut_code bins) x)
  else Raise ValueError.

Definition code_is (i : nat) (c : option nat) : bool :=
  match c with
  | Some j => (i =? j)%nat
  | None => false
  end.

(** The rows of [df] whose code is [i], in their order in [df]. *)
Fixpoint rows_of_code (i : nat) (df : DataFrame) (codes : list (option nat))
  : DataFrame :=
  match df, codes with
  | p :: df', c :: codes' =>
      if code_is i c then p :: rows_of_code i df' codes'
      else rows_of_code i df' codes'
  | _, _ => []
  end.

(** [df.groupby('binned')] on the categorical column: one group per
    category, in category order, empty categories included (pandas'
    [observed=False]); rows without a code belong to no group. *)
Definition groupby_binned (df : DataFrame) (cats : list Interval)
  (codes : list (option nat)) : list (Interval * DataFrame) :=
  map (fun ic => (snd ic, rows_of_code (fst ic) df codes))
      (combine (seq 0 (List.length cats)) cats).

(** ** String search for the label *)

Fixpoint is_prefix (s t : string) : bool :=
  match s with
  | EmptyString => true
  | String a s' =>
      match t with
      | EmptyString => false
      | String b t' => Ascii.eqb a b && is_prefix s' t'
      end
  end.

(** Python's [s in t] on strings. *)
Fixpoint str_in (s t : string) : bool :=
  is_prefix s t ||
  match t with
  | EmptyString => false
  | String _ t' => str_in s t'
  end.

(** ** [split] *)

(** [df['time'].values[0]] and [df['time'].values[-1]]. *)
Definition values_first (df : DataFrame) : result Z :=
  match df with
  | [] => Raise IndexError
  | p :: _ => Ok (time p)
  end.

Definition values_last (df : DataFrame) : result Z :=
  match df with
  | [] => Raise IndexError
  | p :: df' => Ok (time (last df' p))
  end.

Definition streaming_label (name : string) : Z :=
  if negb (str_in "novideo" name) then 1 else 0.

Definition split (file : CsvFile) (chunk_size : Z)
  : result (list (Z * DataFrame)) :=
  let streaming := streaming_label (filename file) in
  let df := table file in
  t0 <- values_first df ;;
  tN <- values_last df ;;
  let start := t0 - 1 in
  let end_ := tN + chunk_size in
  bins <- np_arange start end_ chunk_size ;;
  binned <- pd_cut (map time df) bins ;;
  Ok (map (fun g => (streaming, snd g))
          (groupby_binned df (fst binned) (snd binned))).

(** ** [longest_dir_streak] *)

(** The loop body, with the two counters as accumulators. *)
Fixpoint streak_loop (vals : list Z) (d longest current : Z) : Z :=
  match vals with
  | [] => Z.max longest current
  | num :: rest =>
      if num =? d then streak_loop rest d longest (current + 1)
      else streak_loop rest d (Z.max longest current) 0
  end.

Definition longest_dir_streak (vals : list Z) (d : Z) : Z :=
  streak_loop vals d 0 0.

(** ** float64 *)

Definition float64 : Type := spec_float.

Definition f64_zero : float64 := S754_zero false.
Definition f64_nan : float64 := S754_nan.

Definition is_nan (x : float64) : bool :=
  match x with
  | S754_nan => true
  | _ => false
  end.

(** Conversion of an integer to the nearest float64 (ties to even). *)
Definition f64_of_Z (z : Z) : float64 := binary_normalize 53 1024 z 0 false.

Definition f64_div (x y : float64) : float64 := SFdiv 53 1024 x y.
Definition f64_add (x y : float64) : float64 := SFadd 53 1024 x y.
Definition f64_ltb (x y : float64) : bool := SFltb x y.

(** [a / b] on two numpy [int64] scalars: both are cast to float64 and
    divided; a zero divisor gives an infinity or NaN, not an exception. *)
Definition np_true_divide (a b : Z) : float64 :=
  f64_div (f64_of_Z a) (f64_of_Z b).

(** [a / b] on two Python [int] objects: a zero divisor raises.  The
    operands here are row counts, which float64 holds exactly. *)
Definition py_truediv (a b : Z) : result float64 :=
  if b =? 0 then Raise ZeroDivisionError
  else Ok (f64_div (f64_of_Z a) (f64_of_Z b)).

(** Two's-complement wrap-around of an [int64] accumulator. *)
Definition wrap64 (z : Z) : Z := (z + 2 ^ 63) mod 2 ^ 64 - 2 ^ 63.

(** [Series.sum()] of an [int64] column, as the [size] column of a file
    with no missing cell is. *)
Definition int64_sum (l : list Z) : Z := wrap64 (fold_right Z.add 0 l).

(** [np.sqrt] of an array. *)
Definition np_sqrt (a : list float64) : list float64 := map (SFsqrt 53 1024) a.

(** The larger of two floats as [np.maximum] takes it: a NaN wins. *)
Definition f64_max (a b : float64) : float64 :=
  if is_nan a then a
  else if is_nan b then b
  else if f64_ltb a b then b else a.

(** [ndarray.max()]: a zero-size array has no maximum and raises. *)
Definition ndarray_max (a : list float64) : result float64 :=
  match a with
  | [] => Raise ValueError
  | x :: rest => Ok (fold_left f64_max rest x)
  end.

(** ** Library interface *)

(** The pandas and scipy routines [engineer_features] calls, with the two
    facts about them the extractor relies on.  The four routines of the
    spectral step can raise (a resampling rate pandas does not know, a
    zero sampling frequency in [welch], ...), and nothing in
    [engineer_features] catches what they raise. *)
Record NumLib : Type := mkNumLib {
  (** [Series.mean()] of an integer column; NaN on an empty one. *)
  series_mean : list Z -> float64;
  (** [Series.mean()] of a float column, NaN entries skipped. *)
  series_nanmean : list float64 -> float64;
  (** the ['mean'] aggregate of one rolling window *)
  rolling_mean : list float64 -> float64;
  (** [.dt.total_seconds() * 1000] of an index difference given in
      milliseconds *)
  total_ms : Z -> float64;
  (** [df.resample(rate).sum()['size']] of the rows [(dt_time, size)] *)
  resample_sum : string -> list (Z * Z) -> result (list Z);
  (** the spectral density [Pxx_den] of [scipy.signal.welch(x, fs)] *)
  welch : list Z -> float64 -> result (list float64);
  (** the peak indices of [scipy.signal.find_peaks] *)
  find_peaks : list float64 -> result (list nat);
  (** the prominences of [scipy.signal.peak_prominences], one per peak *)
  peak_prominences : list float64 -> list nat -> result (list float64);
  total_ms_not_nan : forall d, is_nan (total_ms d) = false;
  peak_prominences_length :
    forall x peaks prominences,
      peak_prominences x peaks = Ok prominences ->
      List.length prominences = List.length peaks
}.

(** ** [roll] *)

(** A time-indexed float column: the index in milliseconds and the value. *)
Definition Series : Type := list (Z * float64).

(** The observations a fixed window of [n] rows ending at row [i] holds;
    [None] while fewer than [n] rows are available ([min_periods] is the
    window size). *)
Definition count_window (n i : nat) (col : Series) : option (list float64) :=
  if (i + 1 <? n)%nat then None
  else Some (map snd (firstn n (skipn (i + 1 - n) col))).

Definition aggregate (agg : list float64 -> float64)
  (w : option (list float64)) : float64 :=
  match w with
  | None => f64_nan
  | Some [] => f64_nan
  | Some obs => agg obs
  end.

(** [df[column].rolling(seconds).agg(stats)]: [seconds] is handed to
    [rolling] as an integer, which pandas reads as a number of rows; a
    negative one raises.  [window_width] is computed in the source and
    not used.  [stats] is the aggregate of the one name in the list. *)
Definition roll (col : Series) (seconds : Z)
  (stats : list float64 -> float64) : result (list float64) :=
  if seconds <? 0 then Raise ValueError
  else
    let n := Z.to_nat seconds in
    Ok (map (fun i => aggregate stats (count_window n i col))
            (seq 0 (List.length col))).

(** ** [engineer_features] *)

(** A row with every field present, as the rows are after [dropna]. *)
Record Row : Type := mkRow {
  row_dt_time : Z;
  row_time : Z;
  row_size : Z;
  row_dir : Z
}.

(** [df.dropna(how='any')] on the columns [time], [size], [dir]. *)
Fixpoint dropna (df : DataFrame) : list Row :=
  match df with
  | [] => []
  | p :: df' =>
      match size p, dir p with
      | Some s, Some d => mkRow (dt_time p) (time p) s d :: dropna df'
      | _, _ => dropna df'
      end
  end.

(** [df[df['dir'] == d]] *)
Definition of_dir (d : Z) (df : list Row) : list Row :=
  filter (fun r => row_dir r =? d) df.

Definition len {A : Type} (l : list A) : Z := Z.of_nat (List.length l).

Definition sent_bytes (df : list Row) : Z := int64_sum (map row_size (of_dir 1 df)).
Definition received_bytes (df : list Row) : Z := int64_sum (map row_size (of_dir 2 df)).
Definition sent_packets (df : list Row) : Z := len (of_dir 1 df).
Definition received_packets (df : list Row) : Z := len (of_dir 2 df).

(** The test of the [if] that skips a chunk. *)
Definition skip_check (df : list Row) : bool :=
  (received_bytes df =? 0) || (received_packets df =? 0).

(** [df[(df['dir'] == d) & (df['size'] > 1200)]] and its [< 200] twin. *)
Definition large (d : Z) (df : list Row) : list Row :=
  filter (fun r => (row_dir r =? d) && (1200 <? row_size r)) df.

Definition small (d : Z) (df : list Row) : list Row :=
  filter (fun r => (row_dir r =? d) && (row_size r <? 200)) df.

(** [df.index.to_series().diff().dt.total_seconds() * 1000]: NaN on the
    first row, then the difference to the row before. *)
Fixpoint index_diff (L : NumLib) (prev : Z) (df : list Row) : list float64 :=
  match df with
  | [] => []
  | r :: df' => total_ms L (row_dt_time r - prev) :: index_diff L (row_dt_time r) df'
  end.

Definition ip_delay (L : NumLib) (df : list Row) : list float64 :=
  match df with
  | [] => []
  | r :: df' => f64_nan :: index_diff L (row_dt_time r) df'
  end.

(** The second [df.dropna(how='any')], with the [ip_delay] column added. *)
Fixpoint dropna_delay (df : list Row) (delay : list float64)
  : list (Row * float64) :=
  match df, delay with
  | r :: df', x :: delay' =>
      if is_nan x then dropna_delay df' delay'
      else (r, x) :: dropna_delay df' delay'
  | _, _ => []
  end.

(** The spectral step, statement by statement: resampling, Welch's
    estimate, peak search and prominences, none of them inside the
    [try], so what one of them raises leaves [engineer_features]. *)
Definition sqrt_Pxx_den (L : NumLib) (resample_rate : string)
  (frequency : float64) (df : list Row) : result (list float64) :=
  df_rs <- resample_sum L resample_rate
             (map (fun r => (row_dt_time r, row_size r)) df) ;;
  Pxx_den <- welch L df_rs frequency ;;
  Ok (np_sqrt Pxx_den).

Definition prominences_of (L : NumLib) (resample_rate : string)
  (frequency : float64) (df : list Row) : result (list float64) :=
  x <- sqrt_Pxx_den L resample_rate frequency df ;;
  peaks <- find_peaks L x ;;
  peak_prominences L x peaks.

(** [try: df_max_prom = prominences.max()] with [except: df_max_prom = 0]:
    the only statement the [try] holds. *)
Definition max_or_zero (prominences : list float64) : float64 :=
  match ndarray_max prominences with
  | Ok m => m
  | Raise _ => f64_zero
  end.

Definition df_max_prom (L : NumLib) (resample_rate : string)
  (frequency : float64) (df : list Row) : result float64 :=
  prominences <- prominences_of L resample_rate frequency df ;;
  Ok (max_or_zero prominences).

(** The feature vector, one field per name of [cols]. *)
Record Features : Type := mkFeatures {
  bytes_sr_ratio : float64;
  count_sr_ratio : float64;
  smoothed_mean_delay_10s : float64;
  smoothed_mean_delay_60s : float64;
  received_mean_size : float64;
  sent_mean_size : float64;
  sent_large_prop : float64;
  sent_small_prop : float64;
  received_large_prop : float64;
  received_small_prop : float64;
  sent_longest_streak : Z;
  received_longest_streak : Z;
  max_frequency_prominence : float64;
  streaming : Z
}.

(** [roll(df, 'ip_delay', int(w / 1000))['mean'].mean()] *)
Definition rolling_delays (L : NumLib) (col : Series) (w : Z) : result float64 :=
  means <- roll col (Z.quot w 1000) (rolling_mean L) ;;
  Ok (series_nanmean L means).

Definition engineer_features (L : NumLib) (df : DataFrame) (label : Z)
  (rolling_window_1 rolling_window_2 : Z) (resample_rate : string)
  (frequency : float64) : result (option Features) :=
  let df := dropna df in
  if skip_check df then Ok None
  else
    let received_mean_size := series_mean L (map row_size (of_dir 2 df)) in
    let sent_mean_size := series_mean L (map row_size (of_dir 1 df)) in
    let bytes_ratio := np_true_divide (sent_bytes df) (received_bytes df) in
    count_ratio <- py_truediv (sent_packets df) (received_packets df) ;;
    sent_large_prop <- py_truediv (len (large 1 df)) (len (of_dir 1 df)) ;;
    sent_small_prop <- py_truediv (len (small 1 df)) (len (of_dir 1 df)) ;;
    received_large_prop <- py_truediv (len (large 2 df)) (len (of_dir 2 df)) ;;
    received_small_prop <- py_truediv (len (small 2 df)) (len (of_dir 2 df)) ;;
    let df := dropna_delay df (ip_delay L df) in
    max_prom <- df_max_prom L resample_rate frequency (map fst df) ;;
    let col := map (fun rx => (row_dt_time (fst rx), snd rx)) df in
    rolling_delays_10 <- rolling_delays L col rolling_window_1 ;;
    rolling_delays_60 <- rolling_delays L col rolling_window_2 ;;
    let streak_sent := longest_dir_streak (map (fun rx => row_dir (fst rx)) df) 1 in
    let streak_received := longest_dir_streak (map (fun rx => row_dir (fst rx)) df) 2 in
    Ok (Some (mkFeatures bytes_ratio count_ratio rolling_delays_10
                rolling_delays_60 received_mean_size sent_mean_size
                sent_large_prop sent_small_prop received_large_prop
                received_small_prop streak_sent streak_received max_prom
                label)).

(** ** [create_features] *)

Fixpoint mapM {A B : Type} (f : A -> result B) (l : list A) : result (list B) :=
  match l with
  | [] => Ok []
  | a :: l' =>
      b <- f a ;;
      bs <- mapM f l' ;;
      Ok (b :: bs)
  end.

(** The row [np.vstack] makes of one feature list: every entry a float64. *)
Definition feature_row (f : Features) : list float64 :=
  [ bytes_sr_ratio f; count_sr_ratio f; smoothed_mean_delay_10s f;
    smoothed_mean_delay_60s f; received_mean_size f; sent_mean_size f;
    sent_large_prop f; sent_small_prop f; received_large_prop f;
    received_small_prop f; f64_of_Z (sent_longest_streak f);
    f64_of_Z (received_longest_streak f); max_frequency_prominence f;
    f64_of_Z (streaming f) ].

(** [filter(lambda x: x is not None, results)] *)
Fixpoint not_none {A : Type} (results : list (option A)) : list A :=
  match results with
  | [] => []
  | Some a :: rest => a :: not_none rest
  | None :: rest => not_none rest
  end.

(** [np.vstack]: needs at least one row. *)
Definition np_vstack (rows : list (list float64)) : result (list (list float64)) :=
  match rows with
  | [] => Raise ValueError
  | _ => Ok rows
  end.

(** [DataFrame.dropna()] on the matrix: rows with a NaN leave. *)
Definition dropna_rows (m : list (list float64)) : list (list float64) :=
  filter (fun row => negb (existsb is_nan row)) m.

(** The fan-out over the task list and the fan-in to the matrix:
    [pool.map] returns the results in task order and re-raises a task's
    exception. *)
Definition fan_out_in (L : NumLib) (merged : list (Z * DataFrame))
  (rolling_window_1 rolling_window_2 : Z) (resample_rate : string)
  (frequency : float64) : result (list (list float64)) :=
  results <- mapM (fun m => engineer_features L (snd m) (fst m) rolling_window_1
                              rolling_window_2 resample_rate frequency) merged ;;
  features <- np_vstack (map feature_row (not_none results)) ;;
  Ok (dropna_rows features).

(** [preprocessed_dfs] is the list [glob.glob] returns, in its order; the
    result is the matrix written to [out_file]. *)
Definition create_features (L : NumLib) (preprocessed_dfs : list CsvFile)
  (chunk_size rolling_window_1 rolling_window_2 : Z) (resample_rate : string)
  (frequency : float64) : result (list (list float64)) :=
  split_df_groups <- mapM (fun f => split f chunk_size) preprocessed_dfs ;;
  let merged := List.concat split_df_groups in
  fan_out_in L merged rolling_window_1 rolling_window_2 resample_rate frequency.

(** ** Reading aids for the statements *)

(** The [i]-th bin edge and bin of a flow that starts at [t0]. *)
Definition bin_edge (t0 chunk_size : Z) (i : nat) : Z :=
  t0 - 1 + Z.of_nat i * chunk_size.

Definition bin (t0 chunk_size : Z) (i : nat) : Interval :=
  mkInterval (bin_edge t0 chunk_size i) (bin_edge t0 chunk_size (S i)).

(** The number of bins of a flow spanning [t0 .. tN]. *)
Definition n_bins (t0 tN chunk_size : Z) : nat :=
  Z.to_nat (cdiv (tN - t0 + 1) chunk_size).

(** The packets of [df] whose time lies in bin [i]. *)
Definition window (df : DataFrame) (t0 chunk_size : Z) (i : nat) : DataFrame :=
  filter (fun q => contains (bin t0 chunk_size i) (time q)) df.

Fixpoint nondecreasing (l : list Z) : bool :=
  match l with
  | a :: (b :: _) as rest => (a <=? b) && nondecreasing rest
  | _ => true
  end.

(** A flow as the preprocessing step leaves it: sorted by [time]. *)
Definition time_sorted (df : DataFrame) : Prop :=
  nondecreasing (map time df) = true.

(** No two neighbours equal. *)
Fixpoint alternating (l : list Z) : Prop :=
  match l with
  | a :: (b :: _) as rest => a <> b /\ alternating rest
  | _ => True
  end.

(** [vals] holds [k] consecutive entries equal to [d]. *)
Definition has_run (vals : list Z) (d : Z) (k : nat) : Prop :=
  exists l1 l2, vals = l1 ++ repeat d k ++ l2.

(** The reading of the bins as [[start, end)], for comparison with the
    bins [pd.cut] makes. *)
Definition contains_half_open (iv : Interval) (t : Z) : bool :=
  (left iv <=? t) && (t <? right iv).

Definition window_half_open (df : DataFrame) (t0 chunk_size : Z) (i : nat)
  : DataFrame :=
  filter (fun q => contains_half_open (bin t0 chunk_size i) (time q)) df.

(** The reading of [roll] as a window in time: the observations whose
    index lies in [(t - width, t]], [t] the index of row [i] and [width]
    the [seconds] in milliseconds. *)
Definition time_window (width : Z) (i : nat) (col : Series) : list float64 :=
  let t := fst (nth i col (0, f64_nan)) in
  map snd (filter (fun o => (t - width <? fst o) && (fst o <=? t))
                  (firstn (S i) col)).

Definition roll_by_time (col : Series) (seconds : Z)
  (stats : list float64 -> float64) : list float64 :=
  map (fun i => aggregate stats (Some (time_window (seconds * 1000) i col)))
      (seq 0 (List.length col)).

(** What a rounding location says of the fraction [num / den] that was
    cut off: nothing, less than a half, a half, more than a half. *)
Definition loc_ok (l : location) (num den : Z) : Prop :=
  match l with
  | loc_Exact => num = 0
  | loc_Inexact Lt => 0 < 2 * num < den
  | loc_Inexact Eq => 2 * num = den
  | loc_Inexact Gt => den < 2 * num
  end.

(** ** A plain instance of the library interface *)

(** Straightforward stand-ins on which the model runs: left-to-right
    means, one resampling bucket per row, the bucket sums as spectrum,
    interior strict local maxima as peaks and the peak height as
    prominence.  As scipy's, [welch] divides by the sampling frequency
    and raises [ZeroDivisionError] on a zero one. *)
Definition f64_sum (l : list float64) : float64 := fold_left f64_add l f64_zero.

Definition plain_mean (l : list float64) : float64 :=
  match l with
  | [] => f64_nan
  | _ => f64_div (f64_sum l) (f64_of_Z (len l))
  end.

Definition plain_nanmean (l : list float64) : float64 :=
  plain_mean (filter (fun x => negb (is_nan x)) l).

Definition not_nan_or_zero (x : float64) : float64 :=
  if is_nan x then f64_zero else x.

Definition not_nan_or_zero_ok (x : float64) : is_nan (not_nan_or_zero x) = false :=
  match x with
  | S754_nan => eq_refl
  | S754_zero _ | S754_infinity _ | S754_finite _ _ _ => eq_refl
  end.

Fixpoint plain_peaks_from (i : nat) (a : list float64) : list nat :=
  match a with
  | x :: ((y :: z :: _) as rest) =>
      if f64_ltb x y && f64_ltb z y then S i :: plain_peaks_from (S i) rest
      else plain_peaks_from (S i) rest
  | _ => []
  end.

Definition plain_prominences (x : list float64) (peaks : list nat) : list float64 :=
  map (fun i => nth i x f64_zero) peaks.

Definition plain_welch (x : list Z) (fs : float64) : result (list float64) :=
  match fs with
  | S754_zero _ => Raise ZeroDivisionError
  | _ => Ok (map f64_of_Z x)
  end.

Definition plain_prominences_length (x : list float64) (peaks : list nat)
  (prominences : list float64)
  (H : Ok (plain_prominences x peaks) = Ok prominences)
  : List.length prominences = List.length peaks :=
  match H in (_ = r)
        return match r with
               | Ok p => List.length p = List.length peaks
               | Raise _ => True
               end
  with
  | eq_refl => length_map (fun i => nth i x f64_zero) peaks
  end.

Definition plain_lib : NumLib :=
  mkNumLib
    (fun sizes => plain_mean (map f64_of_Z sizes))
    plain_nanmean
    plain_mean
    (fun d => not_nan_or_zero (f64_of_Z d))
    (fun _ rows => Ok (map snd rows))
    plain_welch
    (fun x => Ok (plain_peaks_from 0 x))
    (fun x peaks => Ok (plain_prominences x peaks))
    (fun d => not_nan_or_zero_ok (f64_of_Z d))
    plain_prominences_length.

(** ** Sample flows *)

(** A complete packet at time [t] (also its elapsed time). *)
Definition packet_at (t sz d : Z) : Packet := mkPacket t t (Some sz) (Some d).

Definition flow_0_9_10 : CsvFile :=
  mkCsvFile "preprocessed-flow.csv"
            [packet_at 0 100 1; packet_at 9 100 2; packet_at 10 100 1].

Definition flow_0_5 : CsvFile :=
  mkCsvFile "preprocessed-flow.csv" [packet_at 0 100 1; packet_at 5 100 2].

Definition empty_flow : CsvFile := mkCsvFile "preprocessed-flow.csv" [].

(** ** Sample windows *)

Definition window_sent_only : DataFrame :=
  [packet_at 0 100 1; packet_at 10 100 1].

Definition window_received_only : DataFrame :=
  [packet_at 0 100 2; packet_at 10 100 2].

(** One sent packet followed by two received ones. *)
Definition window_1_2_2 : DataFrame :=
  [packet_at 0 100 1; packet_at 10 100 2; packet_at 20 100 2].

(** The same received packets after a larger sent one. *)
Definition window_sent_150 : DataFrame :=
  [packet_at 0 150 1; packet_at 10 100 2; packet_at 20 100 2].

(** Sent sums of [2^53] and [2^53 + 1] over one received byte. *)
Definition window_sent_2p53 : DataFrame :=
  [packet_at 0 9007199254740992 1; packet_at 10 1 2].

Definition window_sent_2p53_1 : DataFrame :=
  [packet_at 0 9007199254740993 1; packet_at 10 1 2].

(** Run parameters for the samples. *)
Definition rate_500ms : string := "500ms".
Definition freq_2 : float64 := f64_of_Z 2.

(** Three delays at 100-second spacing. *)
Definition delays_100s : Series :=
  [(100000, f64_of_Z 1); (200000, f64_of_Z 2); (300000, f64_of_Z 3)].

(** ** Further reading aids *)

(** The bin edges as one interval: [(a, b]]. *)
Definition between (a b : Z) (q : Packet) : bool :=
  contains (mkInterval a b) (time q).

(** [<=] on float64: false when either side is NaN. *)
Definition f64_leb (x y : float64) : bool := SFleb x y.

(** ** [etl] *)

(** A row of the packet table
    [pd.DataFrame(df.sum(), columns=['time','size','dir']).astype(int)];
    the rows carry the labels [0, 1, ...] in the order of the list. *)
Record RawPacket : Type := mkRawPacket {
  raw_time : Z;
  raw_size : Z;
  raw_dir : Z
}.

(** From [df.sort_values('time')] to [df.set_index('dt_time')].
    [sort_values] is pandas' sort (quicksort by default, so rows with equal
    times come in no promised order); [df.time[0]] looks up the label [0],
    the first row of the table as it was before the sort, and finds none
    in an empty table ([None] stands for the [KeyError]). *)
Definition etl_table (sort_values : list RawPacket -> list RawPacket)
  (df : list RawPacket) : option DataFrame :=
  match df with
  | [] => None
  | first :: _ =>
      Some (map (fun r => mkPacket (raw_time r - raw_time first) (raw_time r)
                                   (Some (raw_size r)) (Some (raw_dir r)))
                (sort_values df))
  end.

(** ['preprocessed-' + filename], [filename] the base name of the raw
    file. *)
Definition preprocessed_name (basename : string) : string :=
  ("preprocessed-" ++ basename)%string.

(** A sort to run [etl_table] on. *)
Fixpoint insert_by_time (r : RawPacket) (l : list RawPacket) : list RawPacket :=
  match l with
  | [] => [r]
  | x :: l' =>
      if raw_time r <=? raw_time x then r :: l else x :: insert_by_time r l'
  end.

Definition insertion_sort (l : list RawPacket) : list RawPacket :=
  fold_right insert_by_time [] l.

(** A capture that starts 5 ms after its earliest packet. *)
Definition raw_5_0 : list RawPacket :=
  [mkRawPacket 5 100 2; mkRawPacket 0 100 1; mkRawPacket 7 100 1].

(** * Verified properties *)

(** ** The streak counter *)

Lemma streak_loop_lower (vals : list Z) (d : Z) :
  forall longest current,
    longest <= streak_loop vals d longest current /\
    current <= streak_loop vals d longest current.
Proof.
  induction vals as [|num rest IH]; intros longest current; simpl.
  - lia.
  - destruct (num =? d).
    + specialize (IH longest (current + 1)). lia.
    + specialize (IH (Z.max longest current) 0). lia.
Qed.

Lemma streak_loop_prefix (d : Z) (k : nat) (l2 : list Z) :
  forall longest current,
    current + Z.of_nat k <= streak_loop (repeat d k ++ l2) d longest current.
Proof.
  induction k as [|k IH]; intros longest current.
  - simpl repeat. simpl app. pose proof (streak_loop_lower l2 d longest current). lia.
  - simpl. rewrite Z.eqb_refl. specialize (IH longest (current + 1)). lia.
Qed.

Lemma streak_loop_upper (vals : list Z) (d : Z) :
  forall longest current k l1 l2,
    0 <= current ->
    vals = l1 ++ repeat d k ++ l2 ->
    Z.of_nat k <= streak_loop vals d longest current.
Proof.
  induction vals as [|num rest IH]; intros longest current k l1 l2 Hc Hv.
  - destruct l1; [|discriminate]. destruct k; [|discriminate].
    simpl. lia.
  - destruct l1 as [|x l1].
    + simpl in Hv. rewrite Hv.
      pose proof (streak_loop_prefix d k l2 longest current). lia.
    + simpl in Hv. injection Hv as _ Hrest. simpl.
      destruct (num =? d).
      * apply (IH longest (current + 1) k l1 l2); [lia | exact Hrest].
      * apply (IH (Z.max longest current) 0 k l1 l2); [lia | exact Hrest].
Qed.

Lemma streak_loop_attained (vals : list Z) (d : Z) :
  forall longest current,
    0 <= current ->
    let r := streak_loop vals d longest current in
    r = longest \/
    (exists j l2, vals = repeat d j ++ l2 /\ r = current + Z.of_nat j) \/
    (exists k, has_run vals d k /\ r = Z.of_nat k).
Proof.
  induction vals as [|num rest IH]; intros longest current Hc; simpl.
  - destruct (Z.max_spec longest current) as [[_ ->]|[_ ->]].
    + right. left. exists 0%nat, []. split; [reflexivity | simpl; lia].
    + left. reflexivity.
  - destruct (num =? d) eqn:E.
    + apply Z.eqb_eq in E. subst num.
      assert (Hc' : 0 <= current + 1) by lia.
      destruct (IH longest (current + 1) Hc')
        as [H|[(j & l2 & Hv & H)|(k & (l1 & l2 & Hv) & H)]].
      * left. exact H.
      * right. left. exists (S j), l2. split; [simpl; now rewrite Hv | lia].
      * right. right. exists k. split; [|exact H].
        exists (d :: l1), l2. simpl. now rewrite Hv.
    + destruct (IH (Z.max longest current) 0 (Z.le_refl 0))
        as [H|[(j & l2 & Hv & H)|(k & (l1 & l2 & Hv) & H)]].
      * rewrite H.
        destruct (Z.max_spec longest current) as [[_ Hm]|[_ Hm]]; rewrite Hm.
        -- right. left. exists 0%nat, (num :: rest). split; [reflexivity | simpl; lia].
        -- left. reflexivity.
      * right. right. exists j. split; [|lia].
        exists [num], l2. simpl. now rewrite Hv.
      * right. right. exists k. split; [|exact H].
        exists (num :: l1), l2. simpl. now rewrite Hv.
Qed.

Lemma longest_dir_streak_nonneg (vals : list Z) (d : Z) :
  0 <= longest_dir_streak vals d.
Proof.
  unfold longest_dir_streak. pose proof (streak_loop_lower vals d 0 0). lia.
Qed.

Lemma longest_dir_streak_has_run (vals : list Z) (d : Z) :
  has_run vals d (Z.to_nat (longest_dir_streak vals d)).
Proof.
  unfold longest_dir_streak.
  destruct (streak_loop_attained vals d 0 0 (Z.le_refl 0))
    as [H|[(j & l2 & Hv & H)|(k & Hr & H)]]; rewrite H.
  - exists [], vals. reflexivity.
  - exists [], l2. simpl. rewrite Nat2Z.id. exact Hv.
  - rewrite Nat2Z.id. exact Hr.
Qed.

Lemma longest_dir_streak_bounds_runs (vals : list Z) (d : Z) (k : nat) :
  has_run vals d k -> Z.of_nat k <= longest_dir_streak vals d.
Proof.
  intros (l1 & l2 & Hv). unfold longest_dir_streak.
  apply (streak_loop_upper vals d 0 0 k l1 l2); [lia | exact Hv].
Qed.

Lemma alternating_app_r (l1 l2 : list Z) :
  alternating (l1 ++ l2) -> alternating l2.
Proof.
  induction l1 as [|a l1 IH]; intros H; [exact H|].
  apply IH. simpl in H. destruct (l1 ++ l2); [exact I | tauto].
Qed.

Lemma alternating_no_pair (vals : list Z) (d : Z) (k : nat) :
  alternating vals -> has_run vals d k -> (k <= 1)%nat.
Proof.
  intros Ha (l1 & l2 & Hv). subst vals.
  apply alternating_app_r in Ha.
  destruct k as [|[|k]]; [lia | lia |].
  simpl in Ha. tauto.
Qed.

Lemma in_has_run (vals : list Z) (d : Z) : In d vals -> has_run vals d 1.
Proof.
  intros H. apply in_split in H. destruct H as (l1 & l2 & ->).
  exists l1, l2. reflexivity.
Qed.

(** C6: [longest_dir_streak vals d] is the length of the longest run of
    consecutive entries equal to [d]: [vals] holds a run of that length
    and no longer one.  A constant sequence of [n] entries [d] gives [n],
    a sequence with no two equal neighbours in which [d] occurs gives [1],
    and the empty sequence gives [0]. *)
Theorem longest_dir_streak_longest_run :
  forall (vals : list Z) (d : Z),
    (0 <= longest_dir_streak vals d /\
     has_run vals d (Z.to_nat (longest_dir_streak vals d)) /\
     (forall k, has_run vals d k -> Z.of_nat k <= longest_dir_streak vals d)) /\
    (forall n : nat, longest_dir_streak (repeat d n) d = Z.of_nat n) /\
    (alternating vals -> In d vals -> longest_dir_streak vals d = 1) /\
    longest_dir_streak [] d = 0.
Proof.
  intros vals d. repeat split.
  - apply longest_dir_streak_nonneg.
  - apply longest_dir_streak_has_run.
  - apply longest_dir_streak_bounds_runs.
  - intros n.
    assert (Hlo : Z.of_nat n <= longest_dir_streak (repeat d n) d).
    { apply longest_dir_streak_bounds_runs. exists [], []. simpl.
      now rewrite app_nil_r. }
    pose proof (longest_dir_streak_has_run (repeat d n) d) as (l1 & l2 & Hv).
    pose proof (longest_dir_streak_nonneg (repeat d n) d) as Hn.
    apply (f_equal (@List.length Z)) in Hv.
    rewrite !length_app, !repeat_length in Hv. lia.
  - intros Ha Hin.
    pose proof (longest_dir_streak_bounds_runs vals d 1 (in_has_run vals d Hin)).
    pose proof (alternating_no_pair vals d _ Ha (longest_dir_streak_has_run vals d)).
    pose proof (longest_dir_streak_nonneg vals d). lia.
Qed.

Lemma longest_dir_streak_alternating_witness :
  alternating [1; 2; 1; 2] /\ In 2 [1; 2; 1; 2] /\
  longest_dir_streak [1; 2; 1; 2] 2 = 1.
Proof.
  assert (Ha : alternating [1; 2; 1; 2]) by (simpl; repeat split; lia).
  assert (Hin : In 2 [1; 2; 1; 2]) by (simpl; tauto).
  split; [exact Ha | split; [exact Hin |]].
  exact (proj1 (proj2 (proj2 (longest_dir_streak_longest_run [1; 2; 1; 2] 2))) Ha Hin).
Defined.

(** ** The windower *)

Lemma arange_list_S (start step : Z) (n : nat) :
  arange_list start step (S n) = start :: arange_list (start + step) step n.
Proof.
  unfold arange_list. simpl. f_equal; [lia|].
  rewrite <- seq_shift, map_map. apply map_ext. intros i. lia.
Qed.

Lemma arange_list_snoc (start step : Z) (n : nat) :
  arange_list start step (S n) =
  arange_list start step n ++ [start + Z.of_nat n * step].
Proof.
  unfold arange_list. rewrite seq_S, map_app. reflexivity.
Qed.

Lemma arange_list_length (start step : Z) (n : nat) :
  List.length (arange_list start step n) = n.
Proof.
  unfold arange_list. now rewrite length_map, length_seq.
Qed.

Lemma arange_list_increasing (step : Z) (n : nat) :
  0 < step -> forall start, increasing (arange_list start step n) = true.
Proof.
  intros Hs. induction n as [|n IH]; intros start; [reflexivity|].
  rewrite arange_list_S. specialize (IH (start + step)).
  destruct n as [|n]; [reflexivity|].
  rewrite arange_list_S in *. simpl in *. rewrite IH.
  replace (start <? start + step) with true; [reflexivity|].
  symmetry. apply Z.ltb_lt. lia.
Qed.

Lemma from_breaks_arange (step : Z) (n : nat) :
  forall start,
    from_breaks (arange_list start step (S n)) =
    map (fun i => mkInterval (start + Z.of_nat i * step)
                             (start + Z.of_nat (S i) * step)) (seq 0 n).
Proof.
  induction n as [|n IH]; intros start; [reflexivity|].
  rewrite arange_list_S. specialize (IH (start + step)).
  destruct (arange_list (start + step) step (S n)) as [|b rest] eqn:E.
  - rewrite arange_list_S in E. discriminate.
  - assert (b = start + step) as -> by (rewrite arange_list_S in E; congruence).
    change (from_breaks (start :: start + step :: rest))
      with (mkInterval start (start + step) :: from_breaks (start + step :: rest)).
    rewrite IH. change (seq 0 (S n)) with (0%nat :: seq 1 n). rewrite map_cons.
    f_equal; [f_equal; lia|].
    rewrite <- seq_shift, map_map. apply map_ext. intros i. f_equal; lia.
Qed.

(** Where [searchsorted] lands among the edges of an arithmetic
    progression: [m] edges lie below [x] as soon as edge [m - 1] does and
    edge [m] does not. *)
Lemma searchsorted_arange (start step x : Z) :
  0 < step ->
  forall (n m : nat),
    (m <= n)%nat ->
    (m = 0%nat \/ start + (Z.of_nat m - 1) * step < x) ->
    (m = n \/ x <= start + Z.of_nat m * step) ->
    searchsorted_left (arange_list start step n) x = m.
Proof.
  intros Hs. unfold searchsorted_left.
  induction n as [|n IH]; intros m Hmn Hlo Hhi.
  - simpl. lia.
  - rewrite arange_list_snoc, filter_app, length_app. simpl filter.
    destruct (Nat.eq_dec m (S n)) as [->|Hne].
    + rewrite (IH n); [| lia | |left; reflexivity].
      * replace (start + Z.of_nat n * step <? x) with true; [simpl; lia|].
        symmetry. apply Z.ltb_lt. destruct Hlo as [Hlo|Hlo]; [discriminate|]. lia.
      * destruct n as [|n]; [left; reflexivity|right].
        destruct Hlo as [Hlo|Hlo]; [discriminate|]. nia.
    + destruct Hhi as [Hhi|Hhi]; [contradiction|].
      rewrite (IH m); [| lia | exact Hlo |].
      * replace (start + Z.of_nat n * step <? x) with false; [simpl; lia|].
        symmetry. apply Z.ltb_ge. nia.
      * destruct (Nat.eq_dec m n); [left; assumption | right; exact Hhi].
Qed.

Lemma searchsorted_position (start step x : Z) (n : nat) :
  0 < step ->
  exists m : nat,
    (m <= n)%nat /\
    (m = 0%nat \/ start + (Z.of_nat m - 1) * step < x) /\
    (m = n \/ x <= start + Z.of_nat m * step).
Proof.
  intros Hs. induction n as [|n (m & Hmn & Hlo & Hhi)].
  - exists 0%nat. repeat split; auto.
  - destruct (Nat.eq_dec m n) as [->|Hne].
    + destruct (Z_lt_le_dec (start + Z.of_nat n * step) x) as [Hlt|Hge].
      * exists (S n). repeat split; [lia | right; lia | left; reflexivity].
      * exists n. repeat split; [lia | exact Hlo | right; exact Hge].
    + exists m. repeat split; [lia | exact Hlo |].
      destruct Hhi as [Hhi|Hhi]; [contradiction | right; exact Hhi].
Qed.

Lemma cut_code_arange (start step x : Z) (n j : nat) :
  0 < step ->
  cut_code (arange_list start step n) x = Some j <->
  (j + 1 < n)%nat /\
  start + Z.of_nat j * step < x <= start + Z.of_nat (S j) * step.
Proof.
  intros Hs. unfold cut_code. rewrite arange_list_length.
  destruct (searchsorted_position start step x n Hs) as (m & Hmn & Hlo & Hhi).
  rewrite (searchsorted_arange start step x Hs n m Hmn Hlo Hhi).
  split.
  - destruct (Nat.eqb_spec m 0); [discriminate|].
    destruct (Nat.eqb_spec m n); [discriminate|]. cbn [orb].
    intros [= <-]. split; [lia|].
    destruct Hlo as [Hlo|Hlo]; [contradiction|].
    destruct Hhi as [Hhi|Hhi]; [contradiction|].
    replace (Z.of_nat (m - 1)) with (Z.of_nat m - 1) by lia.
    replace (Z.of_nat (S (m - 1))) with (Z.of_nat m) by lia. lia.
  - intros (Hj & Hjlo & Hjhi).
    assert (m = S j) as ->.
    { destruct (Nat.lt_trichotomy m (S j)) as [Hlt|[Heq|Hgt]]; [|exact Heq|].
      - destruct Hhi as [Hhi|Hhi]; [lia|]. nia.
      - destruct Hlo as [Hlo|Hlo]; [lia|]. nia. }
    destruct (Nat.eqb_spec (S j) 0); [lia|].
    destruct (Nat.eqb_spec (S j) n); [lia|]. cbn [orb]. f_equal. lia.
Qed.

(** The bins of one flow: edges [t0 - 1 + i * c] for a positive chunk
    size [c]. *)
Section Bins.

Variables t0 c : Z.
Hypothesis Hc : 0 < c.

Lemma contains_bin (t : Z) (i : nat) :
  contains (bin t0 c i) t = true <->
  bin_edge t0 c i < t <= bin_edge t0 c (S i).
Proof.
  unfold contains, bin. simpl. rewrite andb_true_iff, Z.ltb_lt, Z.leb_le.
  reflexivity.
Qed.

Lemma bin_edge_mono (i j : nat) :
  (i <= j)%nat -> bin_edge t0 c i <= bin_edge t0 c j.
Proof.
  intros Hij. unfold bin_edge.
  assert (Z.of_nat i * c <= Z.of_nat j * c)
    by (apply Z.mul_le_mono_nonneg_r; lia).
  lia.
Qed.

Lemma bins_disjoint (t : Z) (i j : nat) :
  contains (bin t0 c i) t = true -> contains (bin t0 c j) t = true -> i = j.
Proof.
  intros Hi Hj. apply contains_bin in Hi, Hj.
  destruct (Nat.lt_trichotomy i j) as [Hlt|[Heq|Hgt]]; [|exact Heq|].
  - pose proof (bin_edge_mono (S i) j ltac:(lia)). lia.
  - pose proof (bin_edge_mono (S j) i ltac:(lia)). lia.
Qed.

Lemma bins_cover (t : Z) (k : nat) :
  (exists i, (i < k)%nat /\ contains (bin t0 c i) t = true) <->
  t0 - 1 < t <= bin_edge t0 c k.
Proof.
  split.
  - intros (i & Hik & Hi). apply contains_bin in Hi.
    pose proof (bin_edge_mono 0 i ltac:(lia)) as H0.
    pose proof (bin_edge_mono (S i) k ltac:(lia)) as H1.
    unfold bin_edge in H0 at 1. lia.
  - intros [Hlo Hhi].
    destruct (searchsorted_position (t0 - 1) c t k Hc) as (m & Hmk & Hm0 & Hm1).
    assert (Hm : m <> 0%nat).
    { intros ->. destruct Hm1 as [<-|Hm1]; unfold bin_edge in *; simpl in *; lia. }
    exists (m - 1)%nat. split; [lia|]. apply contains_bin. unfold bin_edge in *.
    destruct Hm0 as [Hm0|Hm0]; [contradiction|].
    replace (Z.of_nat (m - 1)) with (Z.of_nat m - 1) by lia.
    replace (Z.of_nat (S (m - 1))) with (Z.of_nat m) by lia.
    split; [exact Hm0|]. destruct Hm1 as [->|Hm1]; [exact Hhi | exact Hm1].
Qed.

End Bins.

Lemma cdiv_shift (a c : Z) : c <> 0 -> cdiv (a + c) c = cdiv a c + 1.
Proof.
  intros Hc. unfold cdiv.
  replace (- (a + c)) with (- a + (-1) * c) by lia.
  rewrite Z.div_add by exact Hc. lia.
Qed.

Lemma cdiv_bounds (a c : Z) :
  0 < c -> a <= cdiv a c * c < a + c.
Proof.
  intros Hc. unfold cdiv.
  pose proof (Z.div_mod (- a) c ltac:(lia)).
  pose proof (Z.mod_pos_bound (- a) c Hc). nia.
Qed.

Lemma n_bins_positive (t0 tN c : Z) :
  0 < c -> t0 <= tN -> (1 <= n_bins t0 tN c)%nat.
Proof.
  intros Hc Ht. unfold n_bins.
  pose proof (cdiv_bounds (tN - t0 + 1) c Hc). nia.
Qed.

Lemma last_edge_bounds (t0 tN c : Z) :
  0 < c -> t0 <= tN ->
  tN <= bin_edge t0 c (n_bins t0 tN c) < tN + c.
Proof.
  intros Hc Ht. unfold bin_edge, n_bins.
  pose proof (cdiv_bounds (tN - t0 + 1) c Hc).
  rewrite Z2Nat.id by nia. lia.
Qed.

Lemma arange_count (t0 tN c : Z) :
  0 < c -> t0 <= tN ->
  Z.to_nat (cdiv (tN + c - (t0 - 1)) c) = S (n_bins t0 tN c).
Proof.
  intros Hc Ht. unfold n_bins.
  replace (tN + c - (t0 - 1)) with (tN - t0 + 1 + c) by lia.
  rewrite cdiv_shift by lia.
  pose proof (cdiv_bounds (tN - t0 + 1) c Hc).
  rewrite Z2Nat.inj_add by nia. simpl. lia.
Qed.

Lemma rows_of_code_filter (f : Z -> option nat) (i : nat) (df : DataFrame) :
  rows_of_code i df (map f (map time df)) =
  filter (fun q => code_is i (f (time q))) df.
Proof.
  induction df as [|q df IH]; [reflexivity|].
  simpl. rewrite IH. reflexivity.
Qed.

Lemma code_is_bin (t0 c t : Z) (n i : nat) :
  0 < c -> (i + 1 < n)%nat ->
  code_is i (cut_code (arange_list (t0 - 1) c n) t) = contains (bin t0 c i) t.
Proof.
  intros Hc Hi.
  destruct (cut_code (arange_list (t0 - 1) c n) t) as [j|] eqn:E; simpl.
  - apply cut_code_arange in E; [|exact Hc]. destruct E as [Hj E].
    assert (Hj' : contains (bin t0 c j) t = true) by (apply contains_bin; exact E).
    destruct (Nat.eqb_spec i j) as [->|Hne]; [now rewrite Hj'|].
    destruct (contains (bin t0 c i) t) eqn:E'; [|reflexivity].
    exfalso. apply Hne. exact (bins_disjoint t0 c Hc t i j E' Hj').
  - destruct (contains (bin t0 c i) t) eqn:E'; [|reflexivity].
    apply contains_bin in E'.
    assert (H : cut_code (arange_list (t0 - 1) c n) t = Some i)
      by (apply cut_code_arange; [exact Hc | split; [exact Hi | exact E']]).
    congruence.
Qed.

Lemma combine_map_self {A B : Type} (f : A -> B) (l : list A) :
  combine l (map f l) = map (fun x => (x, f x)) l.
Proof.
  induction l as [|a l IH]; [reflexivity|]. simpl. now rewrite IH.
Qed.

(** What [split] returns on a non-empty flow: one window per bin, the
    bins numbered from the first edge. *)
Lemma split_windows (file : CsvFile) (c : Z) (p : Packet) (df' : DataFrame) :
  0 < c ->
  table file = p :: df' ->
  split file c =
  Ok (map (fun i => (streaming_label (filename file),
                     window (table file) (time p) c i))
          (seq 0 (Nat.pred (Z.to_nat (cdiv (time (last df' p) + c - (time p - 1)) c))))).
Proof.
  intros Hc Ht. unfold split. rewrite Ht. simpl values_first. simpl values_last.
  unfold bind at 1 2. unfold np_arange.
  destruct (Z.eqb_spec c 0) as [->|_]; [lia|].
  set (n := Z.to_nat _). unfold bind at 1. unfold pd_cut.
  rewrite arange_list_increasing by exact Hc. unfold bind. cbn [fst snd].
  f_equal. unfold groupby_binned. rewrite map_map. cbn [fst snd].
  destruct n as [|n].
  - reflexivity.
  - rewrite from_breaks_arange, length_map, length_seq. simpl Nat.pred.
    rewrite combine_map_self, map_map. apply map_ext_in.
    intros i Hi. apply in_seq in Hi. cbn [fst snd]. f_equal.
    rewrite rows_of_code_filter. unfold window. apply filter_ext.
    intros q. apply code_is_bin; [exact Hc | lia].
Qed.

Lemma last_default_irrelevant {A : Type} (l : list A) (c a b : A) :
  last (c :: l) a = last (c :: l) b.
Proof.
  revert c. induction l as [|x l IH]; intros c; [reflexivity|].
  change (last (x :: l) a = last (x :: l) b). apply IH.
Qed.

Lemma time_sorted_bounds (df' : DataFrame) :
  forall p,
    time_sorted (p :: df') ->
    forall q, In q (p :: df') -> time p <= time q <= time (last df' p).
Proof.
  unfold time_sorted.
  induction df' as [|b df' IH]; intros p Hs q Hq.
  - destruct Hq as [<-|[]]. simpl. lia.
  - simpl in Hs. apply andb_true_iff in Hs. destruct Hs as [Hab Hs].
    apply Z.leb_le in Hab.
    assert (Hl : last (b :: df') p = last df' b).
    { destruct df' as [|x df']; [reflexivity|].
      change (last (x :: df') p = last (x :: df') b).
      apply last_default_irrelevant. }
    rewrite Hl.
    pose proof (IH b Hs b (or_introl eq_refl)) as Hb.
    destruct Hq as [<-|Hq]; [lia|].
    pose proof (IH b Hs q Hq). lia.
Qed.

(** Rows selected by predicates of which every row satisfies exactly one
    are the rows themselves, regrouped. *)
Lemma partition_by_index {A : Type} (f : nat -> A -> bool) (k : nat) (l : list A) :
  (forall a, In a l ->
     exists i, (i < k)%nat /\ f i a = true /\ forall j, f j a = true -> j = i) ->
  Permutation l (List.concat (map (fun i => filter (f i) l) (seq 0 k))).
Proof.
  induction l as [|a l IH]; intros H.
  - simpl. induction (seq 0 k) as [|x s IHs]; [constructor | exact IHs].
  - destruct (H a (or_introl eq_refl)) as (i & Hik & Hfi & Huniq).
    specialize (IH (fun b Hb => H b (or_intror Hb))).
    assert (Hseq : seq 0 k = seq 0 i ++ i :: seq (S i) (k - S i)).
    { replace k with (i + S (k - S i))%nat at 1 by lia.
      rewrite seq_app. reflexivity. }
    assert (Hother : forall j, j <> i -> filter (f j) (a :: l) = filter (f j) l).
    { intros j Hj. simpl. destruct (f j a) eqn:E; [|reflexivity].
      exfalso. apply Hj. apply Huniq. exact E. }
    rewrite Hseq in IH |- *. rewrite map_app, concat_app in IH |- *.
    rewrite map_cons, concat_cons in IH |- *.
    rewrite (map_ext_in (fun j => filter (f j) (a :: l)) (fun j => filter (f j) l) (seq 0 i)).
    2:{ intros j Hj. apply in_seq in Hj. apply Hother. lia. }
    rewrite (map_ext_in (fun j => filter (f j) (a :: l)) (fun j => filter (f j) l) (seq (S i) (k - S i))).
    2:{ intros j Hj. apply in_seq in Hj. apply Hother. lia. }
    cbn [filter]. rewrite Hfi. cbn [app].
    apply Permutation_cons_app. exact IH.
Qed.

(** C1 (as amended): on a non-empty, time-sorted flow with a positive
    chunk size, [split] returns one window per bin; the bins are the
    intervals [(edge i, edge (i+1)]] with [edge i = t0 - 1 + i * chunk_size];
    there is at least one; together they cover exactly
    [(t0 - 1, edge k]], where the last edge lies in [[tN, tN + chunk_size)];
    no two overlap; the windows regroup the packets of the flow, each
    packet in exactly one; and a packet on an edge is in the window that
    ends there, not in the one that starts there. *)
Theorem split_partitions_flow :
  forall (file : CsvFile) (chunk_size : Z) (p : Packet) (df' : DataFrame),
    table file = p :: df' ->
    time_sorted (table file) ->
    0 < chunk_size ->
    let t0 := time p in
    let tN := time (last df' p) in
    let k := n_bins t0 tN chunk_size in
    split file chunk_size =
      Ok (map (fun i => (streaming_label (filename file),
                         window (table file) t0 chunk_size i)) (seq 0 k)) /\
    (1 <= k)%nat /\
    (forall t, (exists i, (i < k)%nat /\ contains (bin t0 chunk_size i) t = true) <->
               t0 - 1 < t <= bin_edge t0 chunk_size k) /\
    tN <= bin_edge t0 chunk_size k < tN + chunk_size /\
    (forall t i j, contains (bin t0 chunk_size i) t = true ->
                   contains (bin t0 chunk_size j) t = true -> i = j) /\
    Permutation (table file)
      (List.concat (map (window (table file) t0 chunk_size) (seq 0 k))) /\
    (forall q, In q (table file) ->
       exists i, (i < k)%nat /\ In q (window (table file) t0 chunk_size i) /\
                 forall j, In q (window (table file) t0 chunk_size j) -> j = i) /\
    (forall q i, In q (table file) -> time q = bin_edge t0 chunk_size (S i) ->
       In q (window (table file) t0 chunk_size i) /\
       ~ In q (window (table file) t0 chunk_size (S i))).
Proof.
  intros file c p df' Ht Hs Hc t0 tN k.
  assert (Hspan : t0 <= tN).
  { rewrite Ht in Hs.
    pose proof (time_sorted_bounds df' p Hs p (in_eq _ _)). subst t0 tN. lia. }
  assert (Hbounds : forall q, In q (table file) -> t0 <= time q <= tN).
  { rewrite Ht in *. exact (time_sorted_bounds df' p Hs). }
  pose proof (last_edge_bounds t0 tN c Hc Hspan) as Hlast. fold k in Hlast.
  assert (Hfind : forall q, In q (table file) ->
            exists i, (i < k)%nat /\ contains (bin t0 c i) (time q) = true).
  { intros q Hq. apply (bins_cover t0 c Hc).
    pose proof (Hbounds q Hq). lia. }
  split.
  { rewrite (split_windows file c p df' Hc Ht).
    fold t0 tN. rewrite (arange_count t0 tN c Hc Hspan). reflexivity. }
  split. { apply n_bins_positive; assumption. }
  split. { intros t. apply (bins_cover t0 c Hc). }
  split. { exact Hlast. }
  split. { intros t i j. apply (bins_disjoint t0 c Hc). }
  split.
  { apply (partition_by_index (fun i q => contains (bin t0 c i) (time q))).
    intros q Hq. destruct (Hfind q Hq) as (i & Hik & Hi).
    exists i. split; [exact Hik | split; [exact Hi|]].
    intros j Hj. exact (bins_disjoint t0 c Hc _ j i Hj Hi). }
  split.
  { intros q Hq. destruct (Hfind q Hq) as (i & Hik & Hi).
    exists i. split; [exact Hik | split; [apply filter_In; split; assumption|]].
    intros j Hj. apply filter_In in Hj.
    exact (bins_disjoint t0 c Hc _ j i (proj2 Hj) Hi). }
  intros q i Hq Hedge. split.
  - apply filter_In. split; [assumption|]. apply contains_bin.
    rewrite Hedge. unfold bin_edge. nia.
  - intros Hin. apply filter_In in Hin. destruct Hin as [_ Hin].
    apply contains_bin in Hin. lia.
Qed.

Lemma split_partitions_flow_witness :
  time_sorted (table flow_0_9_10) /\ 0 < 10 /\
  Permutation (table flow_0_9_10)
    (List.concat (map (window (table flow_0_9_10) 0 10) (seq 0 (n_bins 0 10 10)))).
Proof.
  assert (Hs : time_sorted (table flow_0_9_10)) by reflexivity.
  assert (Hc : 0 < 10) by reflexivity.
  split; [exact Hs | split; [exact Hc|]].
  exact (proj1 (proj2 (proj2 (proj2 (proj2 (proj2
    (split_partitions_flow flow_0_9_10 10 _ _ eq_refl Hs Hc))))))).
Defined.

(** C1, the statement as written fails.  On the flow with packets at 0,
    9 and 10 and chunk size 10 the packet at 9 lies on the second bin
    edge; the interval [[9, 19)] that starts there contains it, yet
    [split] returns it in the first window and not in the second.  On the
    flow with packets at 0 and 5 [split] returns one window, whose bin
    ends at 9, so the time 12 of [[-1, 15)] lies in no window's interval,
    whichever end is taken as closed. *)
Lemma split_half_open_counterexample :
  (split flow_0_9_10 10 =
     Ok [(1, [packet_at 0 100 1; packet_at 9 100 2]); (1, [packet_at 10 100 1])] /\
   time (packet_at 9 100 2) = bin_edge 0 10 1 /\
   contains_half_open (bin 0 10 1) (time (packet_at 9 100 2)) = true /\
   ~ In (packet_at 9 100 2) [packet_at 10 100 1] /\
   window (table flow_0_9_10) 0 10 1 <> window_half_open (table flow_0_9_10) 0 10 1) /\
  (split flow_0_5 10 = Ok [(1, [packet_at 0 100 1; packet_at 5 100 2])] /\
   0 - 1 <= 12 < 5 + 10 /\
   contains (bin 0 10 0) 12 = false /\
   contains_half_open (bin 0 10 0) 12 = false).
Proof.
  split.
  - split; [reflexivity|]. split; [reflexivity|]. split; [reflexivity|].
    split; [|discriminate].
    intros [H|[]]. discriminate H.
  - split; [reflexivity|]. split; [lia|]. split; reflexivity.
Qed.

(** C7 (as amended): on a non-empty, time-sorted flow and a positive
    chunk size [split] raises nothing and returns at least one window; on
    an empty flow the read of the first timestamp raises [IndexError]. *)
Theorem split_raises_on_empty_only :
  forall (file : CsvFile) (chunk_size : Z),
    0 < chunk_size ->
    (table file <> [] -> time_sorted (table file) ->
     exists ws, split file chunk_size = Ok ws /\ ws <> []) /\
    (table file = [] -> split file chunk_size = Raise IndexError).
Proof.
  intros file c Hc. split.
  - intros Hne Hs. destruct (table file) as [|p df'] eqn:Ht; [contradiction|].
    assert (Hspan : time p <= time (last df' p)).
    { pose proof (time_sorted_bounds df' p Hs p (in_eq _ _)). lia. }
    eexists. split.
    + rewrite (split_windows file c p df' Hc Ht).
      rewrite (arange_count _ _ c Hc Hspan). reflexivity.
    + pose proof (n_bins_positive _ _ c Hc Hspan) as Hk.
      destruct (n_bins (time p) (time (last df' p)) c); [lia | discriminate].
  - intros He. unfold split. rewrite He. reflexivity.
Qed.

Lemma split_raises_on_empty_only_witness :
  0 < 10 /\ table flow_0_5 <> [] /\ time_sorted (table flow_0_5) /\
  exists ws, split flow_0_5 10 = Ok ws /\ ws <> [].
Proof.
  assert (Hc : 0 < 10) by reflexivity.
  assert (Hne : table flow_0_5 <> []) by discriminate.
  assert (Hs : time_sorted (table flow_0_5)) by reflexivity.
  split; [exact Hc | split; [exact Hne | split; [exact Hs|]]].
  exact (proj1 (split_raises_on_empty_only flow_0_5 10 Hc) Hne Hs).
Defined.

(** C7, the statement as written fails: the empty flow does not yield an
    empty sequence of windows, it raises. *)
Lemma split_empty_flow_counterexample :
  split empty_flow 10 = Raise IndexError /\ split empty_flow 10 <> Ok [].
Proof.
  split; [reflexivity | discriminate].
Qed.

(** ** The rolling aggregate *)

(** [roll] never looks at the index: two columns with the same values
    give the same aggregates, whatever their timestamps. *)
Lemma roll_ignores_index (col col' : Series) (seconds : Z)
  (stats : list float64 -> float64) :
  map snd col = map snd col' ->
  roll col seconds stats = roll col' seconds stats.
Proof.
  intros H. unfold roll. destruct (seconds <? 0); [reflexivity|].
  assert (Hlen : List.length col = List.length col').
  { rewrite <- (length_map snd col), <- (length_map snd col'). now rewrite H. }
  rewrite Hlen. f_equal. apply map_ext. intros i. unfold count_window.
  destruct (i + 1 <? Z.to_nat seconds)%nat; [reflexivity|].
  now rewrite <- !firstn_map, <- !skipn_map, H.
Qed.

(** C2, the code at the failing input: three delays 1, 2, 3 observed 100
    seconds apart, rolled with [seconds = 2].  [roll] averages the last
    two rows (nothing, 1.5, 2.5); a trailing window of two seconds holds
    only the observation itself (1, 2, 3). *)
Theorem roll_counts_rows_not_seconds :
  roll delays_100s 2 plain_mean =
    Ok [f64_nan; f64_div (f64_of_Z 3) (f64_of_Z 2); f64_div (f64_of_Z 5) (f64_of_Z 2)] /\
  roll_by_time delays_100s 2 plain_mean = [f64_of_Z 1; f64_of_Z 2; f64_of_Z 3] /\
  roll delays_100s 2 plain_mean <> Ok (roll_by_time delays_100s 2 plain_mean).
Proof.
  repeat split; try (vm_compute; reflexivity).
  vm_compute. discriminate.
Qed.

(** ** The extractor *)

Lemma bind_Ok {A B : Type} (r : result A) (k : A -> result B) (b : B) :
  bind r k = Ok b -> exists a, r = Ok a /\ k a = Ok b.
Proof.
  destruct r as [a|e]; simpl; [|discriminate]. intros H. exists a. auto.
Qed.

(** The spectral step returns exactly when its four routines return,
    one after the other. *)
Lemma prominences_of_Ok (L : NumLib) (rate : string) (freq : float64)
  (w : list Row) (prominences : list float64) :
  prominences_of L rate freq w = Ok prominences ->
  exists df_rs Pxx_den peaks,
    resample_sum L rate (map (fun r => (row_dt_time r, row_size r)) w) = Ok df_rs /\
    welch L df_rs freq = Ok Pxx_den /\
    find_peaks L (np_sqrt Pxx_den) = Ok peaks /\
    peak_prominences L (np_sqrt Pxx_den) peaks = Ok prominences.
Proof.
  unfold prominences_of, sqrt_Pxx_den. intros H.
  apply bind_Ok in H. destruct H as (x & Hx & H).
  apply bind_Ok in Hx. destruct Hx as (df_rs & Hrs & Hx).
  apply bind_Ok in Hx. destruct Hx as (Pxx & Hw & [= <-]).
  apply bind_Ok in H. destruct H as (peaks & Hpk & Hpr).
  exists df_rs, Pxx, peaks. auto.
Qed.

Lemma df_max_prom_Ok (L : NumLib) (rate : string) (freq : float64)
  (w : list Row) (v : float64) :
  df_max_prom L rate freq w = Ok v ->
  exists prominences,
    prominences_of L rate freq w = Ok prominences /\ v = max_or_zero prominences.
Proof.
  unfold df_max_prom. intros H.
  apply bind_Ok in H. destruct H as (p & Hp & [= <-]). exists p. auto.
Qed.

(** One run of the extractor: a library and the run parameters are
    fixed, the window varies. *)
Section Extractor.

Variable L : NumLib.
Variables label rolling_window_1 rolling_window_2 : Z.
Variable resample_rate : string.
Variable frequency : float64.

Local Abbreviation run df :=
  (engineer_features L df label rolling_window_1 rolling_window_2
                     resample_rate frequency).

Lemma dropna_delay_index_diff (df : list Row) :
  forall prev,
    dropna_delay df (index_diff L prev df) = combine df (index_diff L prev df).
Proof.
  induction df as [|r df IH]; intros prev; [reflexivity|].
  simpl. rewrite (total_ms_not_nan L), IH. reflexivity.
Qed.

(** The second [dropna] removes the first row and no other. *)
Lemma dropna_delay_tl (df : list Row) :
  map fst (dropna_delay df (ip_delay L df)) = tl df.
Proof.
  destruct df as [|r df]; [reflexivity|].
  simpl. rewrite dropna_delay_index_diff.
  generalize (row_dt_time r) as prev.
  induction df as [|q df IH]; intros prev; [reflexivity|].
  simpl. now rewrite IH.
Qed.

Lemma py_truediv_ok (a b : Z) :
  b <> 0 -> py_truediv a b = Ok (f64_div (f64_of_Z a) (f64_of_Z b)).
Proof.
  intros Hb. unfold py_truediv. destruct (Z.eqb_spec b 0); [contradiction|reflexivity].
Qed.

Lemma skip_check_false (df : list Row) :
  skip_check df = false -> received_bytes df <> 0 /\ received_packets df <> 0.
Proof.
  unfold skip_check. intros H. apply orb_false_iff in H. destruct H as [Hb Hp].
  apply Z.eqb_neq in Hb, Hp. split; assumption.
Qed.

Lemma rolling_delays_raises (col : Series) (w : Z) (e : exn) :
  rolling_delays L col w = Raise e -> e = ValueError /\ Z.quot w 1000 < 0.
Proof.
  unfold rolling_delays, roll.
  destruct (Z.ltb_spec (Z.quot w 1000) 0); simpl; [|discriminate].
  intros [= <-]. split; [reflexivity | assumption].
Qed.

(** The rows the later statements of [engineer_features] work on, and
    the delay column over them. *)
Lemma engineer_features_unfold (df : DataFrame) :
  let w := dropna df in
  let rest := dropna_delay w (ip_delay L w) in
  let col := map (fun rx => (row_dt_time (fst rx), snd rx)) rest in
  skip_check w = false ->
  sent_packets w <> 0 ->
  run df =
    (max_prom <- df_max_prom L resample_rate frequency (tl w) ;;
     rolling_delays_10 <- rolling_delays L col rolling_window_1 ;;
     rolling_delays_60 <- rolling_delays L col rolling_window_2 ;;
     Ok (Some (mkFeatures
       (np_true_divide (sent_bytes w) (received_bytes w))
       (f64_div (f64_of_Z (sent_packets w)) (f64_of_Z (received_packets w)))
       rolling_delays_10 rolling_delays_60
       (series_mean L (map row_size (of_dir 2 w)))
       (series_mean L (map row_size (of_dir 1 w)))
       (f64_div (f64_of_Z (len (large 1 w))) (f64_of_Z (sent_packets w)))
       (f64_div (f64_of_Z (len (small 1 w))) (f64_of_Z (sent_packets w)))
       (f64_div (f64_of_Z (len (large 2 w))) (f64_of_Z (received_packets w)))
       (f64_div (f64_of_Z (len (small 2 w))) (f64_of_Z (received_packets w)))
       (longest_dir_streak (map row_dir (tl w)) 1)
       (longest_dir_streak (map row_dir (tl w)) 2)
       max_prom
       label))).
Proof.
  intros w rest col Hskip Hsent.
  destruct (skip_check_false w Hskip) as [_ Hrecv].
  unfold engineer_features. fold w. rewrite Hskip.
  fold (sent_packets w) (received_packets w).
  rewrite !py_truediv_ok by assumption. unfold bind at 1 2 3 4 5.
  fold rest. fold col.
  replace (map (fun rx => row_dir (fst rx)) rest) with (map row_dir (map fst rest))
    by (rewrite map_map; reflexivity).
  unfold rest at 1 2 3. rewrite dropna_delay_tl. reflexivity.
Qed.

Lemma engineer_features_skip (df : DataFrame) :
  skip_check (dropna df) = true -> run df = Ok None.
Proof.
  intros H. unfold engineer_features. now rewrite H.
Qed.

Lemma engineer_features_zero_sent (df : DataFrame) :
  skip_check (dropna df) = false ->
  sent_packets (dropna df) = 0 ->
  run df = Raise ZeroDivisionError.
Proof.
  intros Hskip Hsent.
  destruct (skip_check_false _ Hskip) as [_ Hrecv].
  unfold engineer_features. rewrite Hskip.
  fold (sent_packets (dropna df)) (received_packets (dropna df)).
  rewrite (py_truediv_ok _ _ Hrecv). unfold bind at 1.
  rewrite Hsent. reflexivity.
Qed.

(** Every outcome of [engineer_features], by the test that decides it. *)
Lemma engineer_features_cases (df : DataFrame) :
  let w := dropna df in
  (skip_check w = true /\ run df = Ok None) \/
  (skip_check w = false /\ sent_packets w = 0 /\
   run df = Raise ZeroDivisionError) \/
  (skip_check w = false /\ sent_packets w <> 0 /\
   exists e, df_max_prom L resample_rate frequency (tl w) = Raise e /\
             run df = Raise e) \/
  (skip_check w = false /\ sent_packets w <> 0 /\
   (exists v, df_max_prom L resample_rate frequency (tl w) = Ok v) /\
   (Z.quot rolling_window_1 1000 < 0 \/ Z.quot rolling_window_2 1000 < 0) /\
   run df = Raise ValueError) \/
  (skip_check w = false /\ sent_packets w <> 0 /\
   exists f, run df = Ok (Some f) /\
     sent_longest_streak f = longest_dir_streak (map row_dir (tl w)) 1 /\
     received_longest_streak f = longest_dir_streak (map row_dir (tl w)) 2 /\
     df_max_prom L resample_rate frequency (tl w) =
       Ok (max_frequency_prominence f) /\
     bytes_sr_ratio f = np_true_divide (sent_bytes w) (received_bytes w) /\
     streaming f = label).
Proof.
  intros w.
  destruct (skip_check w) eqn:Hskip.
  - left. split; [reflexivity|]. now apply engineer_features_skip.
  - right. destruct (Z.eq_dec (sent_packets w) 0) as [Hsent|Hsent].
    + left. repeat split; try assumption. now apply engineer_features_zero_sent.
    + right. rewrite (engineer_features_unfold df Hskip Hsent).
      fold w.
      destruct (df_max_prom L resample_rate frequency (tl w)) as [v|e] eqn:Ev.
      2:{ left. repeat split; try assumption. exists e. split; reflexivity. }
      right. cbn [bind].
      destruct (rolling_delays L _ rolling_window_1) as [x1|e1] eqn:E1.
      * destruct (rolling_delays L _ rolling_window_2) as [x2|e2] eqn:E2.
        -- right. repeat split; try assumption.
           eexists. split; [reflexivity|]. simpl. repeat split; reflexivity.
        -- left. apply rolling_delays_raises in E2. destruct E2 as [-> H2].
           repeat split; try assumption; [now exists v | right; exact H2].
      * left. apply rolling_delays_raises in E1. destruct E1 as [-> H1].
        repeat split; try assumption; [now exists v | left; exact H1].
Qed.

End Extractor.

Lemma mapM_app {A B : Type} (f : A -> result B) (l1 l2 : list A) :
  mapM f (l1 ++ l2) =
  (b1 <- mapM f l1 ;; b2 <- mapM f l2 ;; Ok (b1 ++ b2)).
Proof.
  induction l1 as [|a l1 IH]; simpl.
  - destruct (mapM f l2); reflexivity.
  - destruct (f a) as [b|e]; simpl; [|reflexivity].
    rewrite IH. destruct (mapM f l1) as [b1|e1]; simpl; [|reflexivity].
    destruct (mapM f l2); reflexivity.
Qed.

Lemma not_none_app {A : Type} (l1 l2 : list (option A)) :
  not_none (l1 ++ l2) = not_none l1 ++ not_none l2.
Proof.
  induction l1 as [|[a|] l1 IH]; simpl; [reflexivity | now rewrite IH | exact IH].
Qed.

(** C3: a window whose rows, once the incomplete ones are dropped, carry
    no received byte or no received packet makes [engineer_features]
    return nothing, and the matrix assembled from a task list is the one
    assembled from the list without that window. *)
Theorem skipped_window_leaves_no_row :
  forall (L : NumLib) (df : DataFrame) (label rolling_window_1 rolling_window_2 : Z)
         (resample_rate : string) (frequency : float64),
    received_bytes (dropna df) = 0 \/ received_packets (dropna df) = 0 ->
    engineer_features L df label rolling_window_1 rolling_window_2
                      resample_rate frequency = Ok None /\
    forall before after : list (Z * DataFrame),
      fan_out_in L (before ++ (label, df) :: after) rolling_window_1
                 rolling_window_2 resample_rate frequency =
      fan_out_in L (before ++ after) rolling_window_1 rolling_window_2
                 resample_rate frequency.
Proof.
  intros L df label rw1 rw2 rate freq H.
  assert (Hskip : skip_check (dropna df) = true).
  { unfold skip_check. apply orb_true_iff.
    destruct H as [H|H]; [left | right]; now apply Z.eqb_eq. }
  pose proof (engineer_features_skip L label rw1 rw2 rate freq df Hskip) as Hnone.
  split; [exact Hnone|].
  intros before after. unfold fan_out_in.
  rewrite !mapM_app. cbn [mapM fst snd]. rewrite Hnone.
  destruct (mapM _ before) as [r1|e1]; [|reflexivity].
  cbn [bind].
  destruct (mapM _ after) as [r2|e2]; [|reflexivity].
  cbn [bind]. rewrite !not_none_app. reflexivity.
Qed.

Lemma skipped_window_leaves_no_row_witness :
  received_packets (dropna window_sent_only) = 0 /\
  engineer_features plain_lib window_sent_only 1 10000 60000 rate_500ms freq_2
    = Ok None.
Proof.
  assert (H : received_packets (dropna window_sent_only) = 0) by reflexivity.
  split; [exact H|].
  exact (proj1 (skipped_window_leaves_no_row plain_lib window_sent_only 1 10000
                  60000 rate_500ms freq_2 (or_intror H))).
Defined.

(** C4: a window that passes the skip check and holds no sent packet
    makes [engineer_features] raise [ZeroDivisionError] at the first
    proportion: it neither skips the window nor returns a feature
    vector. *)
Theorem zero_sent_packets_divides_by_zero :
  forall (L : NumLib) (df : DataFrame) (label rolling_window_1 rolling_window_2 : Z)
         (resample_rate : string) (frequency : float64),
    skip_check (dropna df) = false ->
    sent_packets (dropna df) = 0 ->
    py_truediv (len (large 1 (dropna df))) (len (of_dir 1 (dropna df)))
      = Raise ZeroDivisionError /\
    engineer_features L df label rolling_window_1 rolling_window_2
                      resample_rate frequency = Raise ZeroDivisionError /\
    engineer_features L df label rolling_window_1 rolling_window_2
                      resample_rate frequency <> Ok None /\
    forall f, engineer_features L df label rolling_window_1 rolling_window_2
                                resample_rate frequency <> Ok (Some f).
Proof.
  intros L df label rw1 rw2 rate freq Hskip Hsent.
  pose proof (engineer_features_zero_sent L label rw1 rw2 rate freq df Hskip Hsent) as H.
  split.
  - fold (sent_packets (dropna df)). rewrite Hsent. reflexivity.
  - rewrite H. split; [reflexivity|]. split; [discriminate|]. intros f. discriminate.
Qed.

Lemma zero_sent_packets_divides_by_zero_witness :
  skip_check (dropna window_received_only) = false /\
  sent_packets (dropna window_received_only) = 0 /\
  engineer_features plain_lib window_received_only 1 10000 60000 rate_500ms
                    freq_2 = Raise ZeroDivisionError.
Proof.
  assert (Hskip : skip_check (dropna window_received_only) = false) by reflexivity.
  assert (Hsent : sent_packets (dropna window_received_only) = 0) by reflexivity.
  split; [exact Hskip | split; [exact Hsent|]].
  exact (proj1 (proj2 (zero_sent_packets_divides_by_zero plain_lib
                  window_received_only 1 10000 60000 rate_500ms freq_2
                  Hskip Hsent))).
Defined.

(** C5 (as amended): the [try] holds [prominences.max()] and nothing
    else.  When the routines of the spectral step return and the peak
    search finds no peak, the prominence array is empty, [max()] fails
    on it and the step gives 0; whenever the routines return, the step
    raises nothing, and [max()] fails exactly on the empty array; the
    feature [max_frequency_prominence] of a returned vector is the value
    of the step.  What one of the routines raises is not caught: it
    leaves the spectral step and [engineer_features]. *)
Theorem no_peaks_gives_zero_prominence :
  forall (L : NumLib) (resample_rate : string) (frequency : float64),
    (forall (w : list Row) (x prominences : list float64),
       sqrt_Pxx_den L resample_rate frequency w = Ok x ->
       find_peaks L x = Ok [] ->
       peak_prominences L x [] = Ok prominences ->
       df_max_prom L resample_rate frequency w = Ok f64_zero) /\
    (forall (w : list Row) (prominences : list float64),
       prominences_of L resample_rate frequency w = Ok prominences ->
       (raises (ndarray_max prominences) <-> prominences = []) /\
       (raises (ndarray_max prominences) ->
        df_max_prom L resample_rate frequency w = Ok f64_zero) /\
       df_max_prom L resample_rate frequency w =
         Ok (match prominences with
             | [] => f64_zero
             | x :: rest => fold_left f64_max rest x
             end)) /\
    (forall df label rolling_window_1 rolling_window_2 f,
       engineer_features L df label rolling_window_1 rolling_window_2
                         resample_rate frequency = Ok (Some f) ->
       df_max_prom L resample_rate frequency (tl (dropna df)) =
         Ok (max_frequency_prominence f)) /\
    (forall df label rolling_window_1 rolling_window_2 e,
       skip_check (dropna df) = false ->
       sent_packets (dropna df) <> 0 ->
       prominences_of L resample_rate frequency (tl (dropna df)) = Raise e ->
       engineer_features L df label rolling_window_1 rolling_window_2
                         resample_rate frequency = Raise e).
Proof.
  intros L rate freq. split; [|split; [|split]].
  - intros w x p Hx Hpeaks Hp.
    unfold df_max_prom, prominences_of. rewrite Hx. cbn [bind].
    rewrite Hpeaks. cbn [bind]. rewrite Hp. cbn [bind].
    apply peak_prominences_length in Hp. apply length_zero_iff_nil in Hp.
    rewrite Hp. reflexivity.
  - intros w p Hp.
    assert (Hiff : raises (ndarray_max p) <-> p = []).
    { destruct p as [|x rest]; simpl.
      - split; [reflexivity | intros _; now exists ValueError].
      - split; [intros (e & He); discriminate | discriminate]. }
    unfold df_max_prom. rewrite Hp. cbn [bind].
    split; [exact Hiff|]. split.
    + intros Hr. apply Hiff in Hr. rewrite Hr. reflexivity.
    + destruct p; reflexivity.
  - intros df label rw1 rw2 f H.
    destruct (engineer_features_cases L label rw1 rw2 rate freq df)
      as [(_ & E)|[(_ & _ & E)|[(_ & _ & e & _ & E)|[(_ & _ & _ & _ & E)|
          (_ & _ & f' & E & _ & _ & Hm & _)]]]];
      rewrite E in H; try discriminate.
    injection H as <-. exact Hm.
  - intros df label rw1 rw2 e Hskip Hsent Hp.
    rewrite (engineer_features_unfold L label rw1 rw2 rate freq df Hskip Hsent).
    unfold df_max_prom. rewrite Hp. reflexivity.
Qed.

Lemma no_peaks_gives_zero_prominence_witness :
  find_peaks plain_lib [f64_of_Z 10; f64_of_Z 10] = Ok [] /\
  df_max_prom plain_lib rate_500ms freq_2 (tl (dropna window_1_2_2)) = Ok f64_zero.
Proof.
  assert (Hx : sqrt_Pxx_den plain_lib rate_500ms freq_2 (tl (dropna window_1_2_2)) =
               Ok [f64_of_Z 10; f64_of_Z 10]) by (vm_compute; reflexivity).
  assert (H : find_peaks plain_lib [f64_of_Z 10; f64_of_Z 10] = Ok [])
    by reflexivity.
  split; [exact H|].
  exact (proj1 (no_peaks_gives_zero_prominence plain_lib rate_500ms freq_2)
               (tl (dropna window_1_2_2)) _ [] Hx H eq_refl).
Defined.

(** C5, the statement as written fails: a failure of the spectral
    estimate is not recovered with 0.  At a sampling frequency of 0
    [welch] divides by zero; the call stands before the [try], and
    [engineer_features] ends in [ZeroDivisionError] on a window with sent
    and received packets. *)
Lemma spectral_failure_propagates_counterexample :
  skip_check (dropna window_1_2_2) = false /\
  sent_packets (dropna window_1_2_2) <> 0 /\
  prominences_of plain_lib rate_500ms f64_zero (tl (dropna window_1_2_2)) =
    Raise ZeroDivisionError /\
  engineer_features plain_lib window_1_2_2 1 10000 60000 rate_500ms f64_zero =
    Raise ZeroDivisionError.
Proof.
  split; [reflexivity|]. split; [discriminate|]. split; reflexivity.
Qed.

(** C10: for a window that passes the skip check, the two streak
    features and the spectral feature of the returned vector are computed
    over the rows without the first one: the streaks are those of the
    directions of these rows, and the spectral feature is the largest
    prominence (or 0 when there is none) that resampling, Welch's
    estimate, peak search and prominences give on these rows.  A vector is
    returned as soon as the window holds a sent packet, the spectral
    routines return on these rows and the rolling widths are not
    negative.  On the window with directions 1, 2, 2 the sent streak is
    0, one less than the streak 1 of the whole window. *)
Theorem first_packet_dropped_before_streaks :
  (forall (L : NumLib) (df : DataFrame) (label rolling_window_1 rolling_window_2 : Z)
          (resample_rate : string) (frequency : float64),
     let w := dropna df in
     skip_check w = false ->
     (2 <= List.length w)%nat ->
     (forall f,
        engineer_features L df label rolling_window_1 rolling_window_2
                          resample_rate frequency = Ok (Some f) ->
        sent_longest_streak f = longest_dir_streak (map row_dir (tl w)) 1 /\
        received_longest_streak f = longest_dir_streak (map row_dir (tl w)) 2 /\
        exists df_rs Pxx_den peaks prominences,
          resample_sum L resample_rate
            (map (fun r => (row_dt_time r, row_size r)) (tl w)) = Ok df_rs /\
          welch L df_rs frequency = Ok Pxx_den /\
          find_peaks L (np_sqrt Pxx_den) = Ok peaks /\
          peak_prominences L (np_sqrt Pxx_den) peaks = Ok prominences /\
          max_frequency_prominence f =
            match prominences with
            | [] => f64_zero
            | x :: rest => fold_left f64_max rest x
            end) /\
     (sent_packets w <> 0 -> 0 <= rolling_window_1 -> 0 <= rolling_window_2 ->
      forall prominences,
        prominences_of L resample_rate frequency (tl w) = Ok prominences ->
        exists f,
          engineer_features L df label rolling_window_1 rolling_window_2
                            resample_rate frequency = Ok (Some f))) /\
  (exists f,
     engineer_features plain_lib window_1_2_2 1 10000 60000 rate_500ms freq_2
       = Ok (Some f) /\
     sent_longest_streak f =
     longest_dir_streak (map row_dir (dropna window_1_2_2)) 1 - 1).
Proof.
  split.
  - intros L df label rw1 rw2 rate freq w Hskip _. split.
    + intros f H.
      destruct (engineer_features_cases L label rw1 rw2 rate freq df)
        as [(_ & E)|[(_ & _ & E)|[(_ & _ & e & _ & E)|[(_ & _ & _ & _ & E)|
            (_ & _ & f' & E & H1 & H2 & H3 & _)]]]];
        rewrite E in H; try discriminate.
      injection H as <-. fold w in H1, H2, H3.
      split; [exact H1|]. split; [exact H2|].
      destruct (df_max_prom_Ok _ _ _ _ _ H3) as (p & Hp & Hv).
      destruct (prominences_of_Ok _ _ _ _ _ Hp)
        as (df_rs & Pxx & peaks & Hrs & Hw & Hpk & Hpr).
      exists df_rs, Pxx, peaks, p. rewrite Hv.
      repeat (split; [assumption|]). destruct p; reflexivity.
    + intros Hsent Hw1 Hw2 p Hp.
      destruct (engineer_features_cases L label rw1 rw2 rate freq df)
        as [(E & _)|[(_ & E & _)|[(_ & _ & e & E & _)|[(_ & _ & _ & Hw & _)|
            (_ & _ & f' & E & _)]]]].
      * fold w in Hskip. unfold w in Hskip. congruence.
      * contradiction.
      * fold w in E. unfold df_max_prom in E. rewrite Hp in E. discriminate.
      * assert (0 <= Z.quot rw1 1000) by (apply Z.quot_pos; lia).
        assert (0 <= Z.quot rw2 1000) by (apply Z.quot_pos; lia). lia.
      * exists f'. exact E.
  - eexists. split; [vm_compute; reflexivity | reflexivity].
Qed.

Lemma first_packet_dropped_before_streaks_witness :
  skip_check (dropna window_1_2_2) = false /\
  (2 <= List.length (dropna window_1_2_2))%nat /\
  sent_packets (dropna window_1_2_2) <> 0 /\
  exists f,
    engineer_features plain_lib window_1_2_2 1 10000 60000 rate_500ms freq_2
      = Ok (Some f).
Proof.
  assert (Hskip : skip_check (dropna window_1_2_2) = false) by reflexivity.
  assert (Hlen : (2 <= List.length (dropna window_1_2_2))%nat) by (simpl; lia).
  assert (Hsent : sent_packets (dropna window_1_2_2) <> 0) by discriminate.
  split; [exact Hskip | split; [exact Hlen | split; [exact Hsent|]]].
  apply (proj2 (proj1 first_packet_dropped_before_streaks plain_lib window_1_2_2 1
                  10000 60000 rate_500ms freq_2 Hskip Hlen) Hsent
               ltac:(discriminate) ltac:(discriminate) []).
  vm_compute. reflexivity.
Defined.

(** ** The pipeline *)

(** Induction on a permutation, with the names the proofs below use. *)
Ltac perm_induction H :=
  induction H as [|x l l' HP IH|x y l|l l' l'' HP1 IH1 HP2 IH2].

Lemma mapM_cons_Ok {A B : Type} (f : A -> result B) (a : A) (l : list A)
  (bs : list B) :
  mapM f (a :: l) = Ok bs ->
  exists b bs', f a = Ok b /\ mapM f l = Ok bs' /\ bs = b :: bs'.
Proof.
  simpl. destruct (f a) as [b|e]; simpl; [|discriminate].
  destruct (mapM f l) as [bs'|e]; simpl; [|discriminate].
  intros [= <-]. exists b, bs'. auto.
Qed.

Lemma mapM_cons_intro {A B : Type} (f : A -> result B) (a : A) (l : list A)
  (b : B) (bs : list B) :
  f a = Ok b -> mapM f l = Ok bs -> mapM f (a :: l) = Ok (b :: bs).
Proof.
  intros Ha Hl. simpl. rewrite Ha, Hl. reflexivity.
Qed.

(** Tasks taken in another order succeed together, with the results in
    that other order. *)
Lemma mapM_Permutation {A B : Type} (f : A -> result B) (l1 l2 : list A) :
  Permutation l1 l2 ->
  forall bs1, mapM f l1 = Ok bs1 ->
  exists bs2, mapM f l2 = Ok bs2 /\ Permutation bs1 bs2.
Proof.
  intros HPerm; perm_induction HPerm; intros bs1 H.
  - exists bs1. split; [exact H | apply Permutation_refl].
  - apply mapM_cons_Ok in H. destruct H as (b & bs & Hx & Hl & ->).
    destruct (IH bs Hl) as (bs2 & Hl' & HP').
    exists (b :: bs2). split; [now apply mapM_cons_intro | now constructor].
  - apply mapM_cons_Ok in H. destruct H as (b & bs & Hy & H & ->).
    apply mapM_cons_Ok in H. destruct H as (b' & bs' & Hx & Hl & ->).
    exists (b' :: b :: bs'). split; [|apply perm_swap].
    apply mapM_cons_intro; [exact Hx|]. now apply mapM_cons_intro.
  - destruct (IH1 bs1 H) as (bs2 & H2 & HP12).
    destruct (IH2 bs2 H2) as (bs3 & H3 & HP23).
    exists bs3. split; [exact H3 | now transitivity bs2].
Qed.

Lemma concat_Permutation {A : Type} (l1 l2 : list (list A)) :
  Permutation l1 l2 -> Permutation (List.concat l1) (List.concat l2).
Proof.
  intros HPerm; perm_induction HPerm; simpl.
  - constructor.
  - now apply Permutation_app_head.
  - rewrite !app_assoc. apply Permutation_app_tail, Permutation_app_comm.
  - now transitivity (List.concat l').
Qed.

Lemma not_none_Permutation {A : Type} (l1 l2 : list (option A)) :
  Permutation l1 l2 -> Permutation (not_none l1) (not_none l2).
Proof.
  intros HPerm; perm_induction HPerm.
  - constructor.
  - destruct x; simpl; [now constructor | exact IH].
  - destruct x, y; simpl; try apply Permutation_refl. apply perm_swap.
  - now transitivity (not_none l').
Qed.

Lemma filter_Permutation {A : Type} (f : A -> bool) (l1 l2 : list A) :
  Permutation l1 l2 -> Permutation (filter f l1) (filter f l2).
Proof.
  intros HPerm; perm_induction HPerm.
  - constructor.
  - simpl. destruct (f x); [now constructor | exact IH].
  - simpl. destruct (f x), (f y); try apply Permutation_refl. apply perm_swap.
  - now transitivity (filter f l').
Qed.

Lemma np_vstack_Ok (rows m : list (list float64)) :
  np_vstack rows = Ok m -> rows <> [] /\ m = rows.
Proof.
  destruct rows; simpl; [discriminate|]. intros [= <-]. split; [discriminate|reflexivity].
Qed.

Lemma fan_out_in_Permutation (L : NumLib) (merged1 merged2 : list (Z * DataFrame))
  (rw1 rw2 : Z) (rate : string) (freq : float64) (m1 : list (list float64)) :
  Permutation merged1 merged2 ->
  fan_out_in L merged1 rw1 rw2 rate freq = Ok m1 ->
  exists m2, fan_out_in L merged2 rw1 rw2 rate freq = Ok m2 /\ Permutation m1 m2.
Proof.
  intros HP H. unfold fan_out_in in *.
  apply bind_Ok in H. destruct H as (results1 & Hres & H).
  apply bind_Ok in H. destruct H as (features1 & Hstack & [= <-]).
  apply np_vstack_Ok in Hstack. destruct Hstack as [Hne ->].
  destruct (mapM_Permutation _ _ _ HP _ Hres) as (results2 & Hres2 & HPres).
  rewrite Hres2. cbn [bind].
  assert (HProws : Permutation (map feature_row (not_none results1))
                               (map feature_row (not_none results2)))
    by (apply Permutation_map, not_none_Permutation, HPres).
  destruct (map feature_row (not_none results2)) as [|row rows] eqn:E.
  - apply Permutation_sym, Permutation_nil in HProws. contradiction.
  - cbn [np_vstack bind]. eexists. split; [reflexivity|].
    now apply filter_Permutation.
Qed.

Lemma create_features_Permutation (L : NumLib) (files1 files2 : list CsvFile)
  (c rw1 rw2 : Z) (rate : string) (freq : float64) (m1 : list (list float64)) :
  Permutation files1 files2 ->
  create_features L files1 c rw1 rw2 rate freq = Ok m1 ->
  exists m2, create_features L files2 c rw1 rw2 rate freq = Ok m2 /\
             Permutation m1 m2.
Proof.
  intros HP H. unfold create_features in *.
  apply bind_Ok in H. destruct H as (groups1 & Hg & H).
  destruct (mapM_Permutation _ _ _ HP _ Hg) as (groups2 & Hg2 & HPg).
  rewrite Hg2. cbn [bind].
  apply (fan_out_in_Permutation L (List.concat groups1) (List.concat groups2)
           rw1 rw2 rate freq m1); [|exact H].
  now apply concat_Permutation.
Qed.

(** C9: two runs of [create_features] on the same files and parameters,
    the files listed in any two orders, either both fail or both write a
    matrix, and the two matrices have the same rows up to their order. *)
Theorem create_features_deterministic_up_to_row_order :
  forall (L : NumLib) (files1 files2 : list CsvFile)
         (chunk_size rolling_window_1 rolling_window_2 : Z)
         (resample_rate : string) (frequency : float64),
    Permutation files1 files2 ->
    match create_features L files1 chunk_size rolling_window_1 rolling_window_2
                          resample_rate frequency,
          create_features L files2 chunk_size rolling_window_1 rolling_window_2
                          resample_rate frequency with
    | Ok m1, Ok m2 => Permutation m1 m2
    | Raise _, Raise _ => True
    | _, _ => False
    end.
Proof.
  intros L files1 files2 c rw1 rw2 rate freq HP.
  destruct (create_features L files1 c rw1 rw2 rate freq) as [m1|e1] eqn:E1.
  - destruct (create_features_Permutation L files1 files2 c rw1 rw2 rate freq m1 HP E1)
      as (m2 & -> & HPm). exact HPm.
  - destruct (create_features L files2 c rw1 rw2 rate freq) as [m2|e2] eqn:E2;
      [|exact I].
    destruct (create_features_Permutation L files2 files1 c rw1 rw2 rate freq m2
                (Permutation_sym HP) E2) as (m1 & E & _).
    congruence.
Qed.

Lemma create_features_deterministic_up_to_row_order_witness :
  Permutation [flow_0_5; flow_0_9_10] [flow_0_9_10; flow_0_5] /\
  match create_features plain_lib [flow_0_5; flow_0_9_10] 10 1000 1000 rate_500ms freq_2,
        create_features plain_lib [flow_0_9_10; flow_0_5] 10 1000 1000 rate_500ms freq_2
  with
  | Ok m1, Ok m2 => Permutation m1 m2
  | Raise _, Raise _ => True
  | _, _ => False
  end.
Proof.
  assert (HP : Permutation [flow_0_5; flow_0_9_10] [flow_0_9_10; flow_0_5])
    by apply perm_swap.
  split; [exact HP|].
  exact (create_features_deterministic_up_to_row_order plain_lib _ _ 10 1000 1000
           rate_500ms freq_2 HP).
Defined.

(** ** float64 division *)

Lemma digits2_pos_size (p : positive) : digits2_pos p = Pos.size p.
Proof. induction p; simpl; congruence. Qed.

Lemma digits2_bounds (p : positive) :
  2 ^ (Zpos (digits2_pos p) - 1) <= Zpos p < 2 ^ Zpos (digits2_pos p).
Proof.
  rewrite digits2_pos_size.
  pose proof (Pos.size_gt p) as Hgt. pose proof (Pos.size_le p) as Hle.
  apply Pos2Z.pos_lt_pos in Hgt. apply Pos2Z.pos_le_pos in Hle.
  rewrite Pos2Z.inj_pow in Hgt, Hle. change (Zpos p~0) with (2 * Zpos p) in Hle.
  split; [|exact Hgt].
  assert (E : 2 ^ Zpos (Pos.size p) = 2 * 2 ^ (Zpos (Pos.size p) - 1)).
  { rewrite <- Z.pow_succ_r by lia. f_equal. lia. }
  lia.
Qed.

Lemma digits2_unique (p : positive) (d : Z) :
  2 ^ (d - 1) <= Zpos p < 2 ^ d -> Zpos (digits2_pos p) = d.
Proof.
  intros [Hlo Hhi]. pose proof (digits2_bounds p) as [Hlo' Hhi'].
  set (d' := Zpos (digits2_pos p)) in *.
  assert (0 < d) by (destruct d; simpl in Hhi; lia).
  destruct (Z.lt_trichotomy d' d) as [Hlt|[Heq|Hgt]]; [|exact Heq|].
  - assert (2 ^ d' <= 2 ^ (d - 1)) by (apply Z.pow_le_mono_r; lia). lia.
  - assert (2 ^ d <= 2 ^ (d' - 1)) by (apply Z.pow_le_mono_r; lia). lia.
Qed.

Lemma new_location_ok (den num : Z) :
  0 <= num < den -> loc_ok (new_location den num) num den.
Proof.
  intros H. unfold new_location, new_location_even, new_location_odd.
  destruct (Z.even den) eqn:Ev; destruct (Z.eqb_spec num 0) as [->|Hn]; cbv iota;
    try reflexivity.
  - destruct (Z.compare_spec (2 * num) den); cbn [loc_ok]; lia.
  - assert (Hodd : Z.odd den = true) by (rewrite <- Z.negb_even, Ev; reflexivity).
    apply Z.odd_spec in Hodd. destruct Hodd as [k Hk].
    destruct (Z.compare_spec (2 * num + 1) den); cbn [loc_ok]; lia.
Qed.

Lemma loc_of_shr_record_of_loc (m : Z) (l : location) :
  loc_of_shr_record (shr_record_of_loc m l) = l.
Proof. destruct l as [|[]]; reflexivity. Qed.

Lemma Zdigits2_53 (mx : Z) : 2 ^ 52 <= mx < 2 ^ 53 -> Zdigits2 mx = 53.
Proof.
  intros H. destruct mx as [|p|p]; try lia. simpl. apply digits2_unique. exact H.
Qed.

Lemma Zdigits2_54 (mx : Z) : 2 ^ 53 <= mx < 2 ^ 54 -> Zdigits2 mx = 54.
Proof.
  intros H. destruct mx as [|p|p]; try lia. simpl. apply digits2_unique. exact H.
Qed.

Lemma shr_fexp_53 (mx ex : Z) (l : location) :
  2 ^ 52 <= mx < 2 ^ 53 -> -1074 <= ex ->
  shr_fexp 53 1024 mx ex l = (shr_record_of_loc mx l, ex).
Proof.
  intros Hm He. unfold shr_fexp. rewrite (Zdigits2_53 mx Hm).
  unfold fexp, emin.
  replace (Z.max (53 + ex - 53) (3 - 1024 - 53) - ex) with 0 by lia.
  reflexivity.
Qed.

Lemma shr_fexp_54 (mx ex : Z) (l : location) :
  2 ^ 53 <= mx < 2 ^ 54 -> -1075 <= ex ->
  shr_fexp 53 1024 mx ex l = (shr_1 (shr_record_of_loc mx l), ex + 1).
Proof.
  intros Hm He. unfold shr_fexp. rewrite (Zdigits2_54 mx Hm).
  unfold fexp, emin.
  replace (Z.max (54 + ex - 53) (3 - 1024 - 53) - ex) with 1 by lia.
  reflexivity.
Qed.

(** Rounding a 53-digit mantissa that carries no fraction changes
    nothing. *)
Lemma binary_round_aux_exact (mx : positive) (ex : Z) :
  2 ^ 52 <= Zpos mx < 2 ^ 53 -> -1074 <= ex <= 971 ->
  binary_round_aux 53 1024 false (Zpos mx) ex loc_Exact = S754_finite false mx ex.
Proof.
  intros Hm He. unfold binary_round_aux.
  rewrite (shr_fexp_53 _ _ _ Hm) by lia. cbn [shr_record_of_loc shr_m loc_of_shr_record round_nearest_even].
  rewrite (shr_fexp_53 _ _ _ Hm) by lia. cbn [shr_record_of_loc shr_m].
  destruct (Z.leb_spec ex (1024 - 53)); [reflexivity | lia].
Qed.

(** The last step of [binary_round_aux]: a rounded mantissa of 53
    digits stays, one that reached [2^53] is renormalised. *)
Lemma renormalise (m0 ex : Z) :
  2 ^ 52 <= m0 <= 2 ^ 53 -> -1074 <= ex <= 970 ->
  exists (M : positive) (c : Z),
    (let '(mrs, e) := shr_fexp 53 1024 m0 ex loc_Exact in
     match shr_m mrs with
     | Z0 => S754_zero false
     | Zpos m => if e <=? 1024 - 53 then S754_finite false m e else S754_infinity false
     | Zneg _ => S754_nan
     end) = S754_finite false M (ex + c) /\
    2 ^ 52 <= Zpos M < 2 ^ 53 /\ 0 <= c <= 1 /\ Zpos M * 2 ^ c = m0.
Proof.
  intros Hm He.
  destruct (Z.eq_dec m0 (2 ^ 53)) as [->|Hne].
  - exists (2 ^ 52)%positive, 1.
    rewrite shr_fexp_54 by (simpl; lia).
    cbn. destruct (Z.leb_spec (ex + 1) 971); [|lia].
    repeat split; try reflexivity; try lia; discriminate.
  - assert (Hm' : 2 ^ 52 <= m0 < 2 ^ 53) by lia.
    destruct m0 as [|p|p]; try lia.
    exists p, 0. rewrite (shr_fexp_53 _ _ _ Hm') by lia.
    cbn [shr_record_of_loc shr_m].
    destruct (Z.leb_spec ex (1024 - 53)); [|lia].
    rewrite Z.add_0_r. repeat split; try lia.
Qed.

Lemma shr_m_of_loc (m : Z) (l : location) : shr_m (shr_record_of_loc m l) = m.
Proof. destruct l as [|[]]; reflexivity. Qed.

Lemma round_nearest_even_error (mx num den : Z) (lx : location) :
  0 <= num < den -> loc_ok lx num den ->
  mx <= round_nearest_even mx lx <= mx + 1 /\
  2 * Z.abs (round_nearest_even mx lx * den - (mx * den + num)) <= den.
Proof.
  intros Hn Hl. destruct lx as [|[]]; cbn [loc_ok round_nearest_even] in *;
    try destruct (Z.even mx); split; lia.
Qed.

Lemma binary_round_aux_53 (mx ex num den : Z) (lx : location) :
  2 ^ 52 <= mx < 2 ^ 53 -> -1074 <= ex <= 970 ->
  0 <= num < den -> loc_ok lx num den ->
  exists (M : positive) (c : Z),
    binary_round_aux 53 1024 false mx ex lx = S754_finite false M (ex + c) /\
    2 ^ 52 <= Zpos M < 2 ^ 53 /\ 0 <= c <= 1 /\
    2 * Z.abs (Zpos M * 2 ^ c * den - (mx * den + num)) <= den.
Proof.
  intros Hm He Hn Hl. unfold binary_round_aux.
  rewrite (shr_fexp_53 _ _ _ Hm) by lia.
  rewrite loc_of_shr_record_of_loc, shr_m_of_loc.
  destruct (round_nearest_even_error mx num den lx Hn Hl) as [Hr Herr].
  destruct (renormalise (round_nearest_even mx lx) ex ltac:(lia) He)
    as (M & c & Heq & HM & Hc & Hval).
  exists M, c. split; [exact Heq|]. split; [exact HM|]. split; [exact Hc|].
  rewrite Hval. exact Herr.
Qed.

Lemma binary_round_aux_54 (mx ex num den : Z) (lx : location) :
  2 ^ 53 <= mx < 2 ^ 54 -> -1075 <= ex <= 969 ->
  0 <= num < den -> loc_ok lx num den ->
  exists (M : positive) (c : Z),
    binary_round_aux 53 1024 false mx ex lx = S754_finite false M (ex + 1 + c) /\
    2 ^ 52 <= Zpos M < 2 ^ 53 /\ 0 <= c <= 1 /\
    Z.abs (Zpos M * 2 ^ c * (2 * den) - (mx * den + num)) <= den.
Proof.
  intros Hm He Hn Hl. unfold binary_round_aux.
  rewrite (shr_fexp_54 _ _ _ Hm) by lia.
  assert (Hhalf : exists (m' : Z) (l' : location) (num' : Z),
             shr_1 (shr_record_of_loc mx lx) = shr_record_of_loc m' l' /\
             2 ^ 52 <= m' < 2 ^ 53 /\ 0 <= num' < 2 * den /\
             loc_ok l' num' (2 * den) /\
             m' * (2 * den) + num' = mx * den + num).
  { destruct mx as [|[p|p|]|p]; try lia.
    - exists (Zpos p), (match lx with loc_Exact => loc_Inexact Eq | _ => loc_Inexact Gt end),
        (den + num).
      rewrite Pos2Z.inj_xI in *.
      destruct lx as [|[]]; cbn [loc_ok] in *;
        (split; [reflexivity|]); repeat split; try lia.
    - exists (Zpos p), (match lx with loc_Exact => loc_Exact | _ => loc_Inexact Lt end), num.
      rewrite Pos2Z.inj_xO in *.
      destruct lx as [|[]]; cbn [loc_ok] in *;
        (split; [reflexivity|]); repeat split; try lia. }
  destruct Hhalf as (m' & l' & num' & -> & Hm' & Hn' & Hl' & Hsum).
  rewrite loc_of_shr_record_of_loc, shr_m_of_loc.
  destruct (round_nearest_even_error m' num' (2 * den) l' Hn' Hl') as [Hr Herr].
  destruct (renormalise (round_nearest_even m' l') (ex + 1) ltac:(lia) ltac:(lia))
    as (M & c & Heq & HM & Hc & Hval).
  exists M, c. split; [exact Heq|]. split; [exact HM|]. split; [exact Hc|].
  rewrite Hval, <- Hsum. lia.
Qed.

Lemma pos_iter_xO (p k : positive) :
  Zpos (Pos.iter xO p k) = Zpos p * 2 ^ Zpos k.
Proof.
  rewrite (Pos.iter_swap_gen _ _ Zpos xO (Z.mul 2)) by reflexivity.
  change (Pos.iter (Z.mul 2) (Zpos p) k) with (Z.shiftl (Zpos p) (Zpos k)).
  apply Z.shiftl_mul_pow2. lia.
Qed.

(** An integer below [2^53] converts exactly, to a mantissa of 53
    digits. *)
Lemma f64_of_Z_normal (a : Z) :
  0 < a < 2 ^ 53 ->
  exists (m : positive) (k : Z),
    f64_of_Z a = S754_finite false m (- k) /\
    Zpos m = a * 2 ^ k /\ 2 ^ 52 <= Zpos m < 2 ^ 53 /\ 0 <= k <= 52.
Proof.
  intros Ha. destruct a as [|p|p]; try lia.
  unfold f64_of_Z, binary_normalize, binary_round.
  pose proof (digits2_bounds p) as Hd.
  set (d := Zpos (digits2_pos p)) in *.
  assert (Hd53 : 1 <= d <= 53).
  { split; [unfold d; lia|].
    destruct (Z_le_gt_dec d 53) as [H|H]; [exact H|].
    assert (2 ^ 53 <= 2 ^ (d - 1)) by (apply Z.pow_le_mono_r; lia). lia. }
  unfold fexp, emin.
  replace (Z.max (d + 0 - 53) (3 - 1024 - 53)) with (d - 53) by lia.
  unfold shl_align.
  destruct (d - 53 - 0) as [|k'|k'] eqn:Ek; try lia.
  - assert (Hp : 2 ^ 52 <= Zpos p < 2 ^ 53).
    { replace 52 with (d - 1) by lia. replace 53 with d by lia. exact Hd. }
    exists p, 0. rewrite binary_round_aux_exact; [|exact Hp | lia].
    split; [reflexivity|]. split; [simpl; lia|]. split; [exact Hp | lia].
  - assert (Hbound : 2 ^ 52 <= Zpos (Pos.iter xO p k') < 2 ^ 53).
    { rewrite pos_iter_xO.
      assert (E1 : 2 ^ 52 = 2 ^ (d - 1) * 2 ^ Zpos k')
        by (rewrite <- Z.pow_add_r by lia; f_equal; lia).
      assert (E2 : 2 ^ 53 = 2 ^ d * 2 ^ Zpos k')
        by (rewrite <- Z.pow_add_r by lia; f_equal; lia).
      assert (0 < 2 ^ Zpos k') by (apply Z.pow_pos_nonneg; lia).
      rewrite E1, E2. nia. }
    exists (Pos.iter xO p k'), (Zpos k').
    rewrite binary_round_aux_exact; [|exact Hbound | lia].
    replace (d - 53) with (- Zpos k') by lia.
    split; [reflexivity|]. split; [apply pos_iter_xO|]. split; [exact Hbound | lia].
Qed.

(** The quotient of two floats with 53-digit mantissas: again 53 digits,
    and within one part in [2^53] of the exact quotient. *)
Lemma f64_div_normal (m1 m2 : positive) (e1 e2 : Z) :
  2 ^ 52 <= Zpos m1 < 2 ^ 53 -> 2 ^ 52 <= Zpos m2 < 2 ^ 53 ->
  -400 <= e1 <= 400 -> -400 <= e2 <= 400 ->
  exists (M : positive) (t : Z),
    f64_div (S754_finite false m1 e1) (S754_finite false m2 e2) =
      S754_finite false M (e1 - e2 - 53 + t) /\
    2 ^ 52 <= Zpos M < 2 ^ 53 /\ 0 <= t <= 2 /\
    Z.abs (Zpos M * 2 ^ t * Zpos m2 - Zpos m1 * 2 ^ 53) <= Zpos m1.
Proof.
  intros H1 H2 He1 He2. unfold f64_div, SFdiv, SFdiv_core_binary.
  rewrite (Zdigits2_53 _ H1), (Zdigits2_53 _ H2).
  unfold fexp, emin.
  replace (Z.min (Z.max (53 + e1 - (53 + e2) - 53) (3 - 1024 - 53)) (e1 - e2))
    with (e1 - e2 - 53) by lia.
  replace (e1 - e2 - (e1 - e2 - 53)) with 53 by lia.
  rewrite Z.shiftl_mul_pow2 by lia.
  pose proof (Z_div_mod (Zpos m1 * 2 ^ 53) (Zpos m2) ltac:(lia)) as Hdiv.
  destruct (Z.div_eucl (Zpos m1 * 2 ^ 53) (Zpos m2)) as [q rem].
  destruct Hdiv as [Hq Hrem]. cbn [xorb].
  assert (Hqlo : 2 ^ 52 <= q) by nia.
  assert (Hqhi : q < 2 ^ 54) by nia.
  pose proof (new_location_ok (Zpos m2) rem Hrem) as Hloc.
  destruct (Z_lt_le_dec q (2 ^ 53)) as [Hlt|Hge].
  - destruct (binary_round_aux_53 q (e1 - e2 - 53) rem (Zpos m2) _ ltac:(lia)
                ltac:(lia) Hrem Hloc) as (M & c & Heq & HM & Hc & Herr).
    exists M, c. split; [exact Heq|]. split; [exact HM|]. split; [lia|].
    replace (Zpos m1 * 2 ^ 53) with (q * Zpos m2 + rem) by lia. lia.
  - destruct (binary_round_aux_54 q (e1 - e2 - 53) rem (Zpos m2) _ ltac:(lia)
                ltac:(lia) Hrem Hloc) as (M & c & Heq & HM & Hc & Herr).
    exists M, (1 + c). split; [rewrite Heq; f_equal; lia|].
    split; [exact HM|]. split; [lia|].
    assert (Hm : Zpos m2 <= Zpos m1) by nia.
    rewrite Z.pow_add_r by lia. change (2 ^ 1) with 2.
    replace (Zpos m1 * 2 ^ 53) with (q * Zpos m2 + rem) by lia.
    replace (Zpos M * (2 * 2 ^ c) * Zpos m2) with (Zpos M * 2 ^ c * (2 * Zpos m2)) by ring.
    lia.
Qed.

Lemma shr_1_m (mrs : shr_record) :
  0 <= shr_m mrs -> shr_m (shr_1 mrs) = shr_m mrs / 2.
Proof.
  destruct mrs as [m r s]. cbn [shr_m]. intros Hm.
  destruct m as [|[p|p|]|p]; try lia; cbn [shr_1 shr_m].
  - reflexivity.
  - rewrite Pos2Z.inj_xI. apply (Z.div_unique _ 2 _ 1); lia.
  - rewrite Pos2Z.inj_xO. apply (Z.div_unique _ 2 _ 0); lia.
  - reflexivity.
Qed.

Lemma iter_shr_1_m (n : positive) :
  forall mrs, 0 <= shr_m mrs ->
    shr_m (iter_pos shr_1 n mrs) = shr_m mrs / 2 ^ Zpos n.
Proof.
  assert (Hpow : forall k : positive, 0 < 2 ^ Zpos k)
    by (intros; apply Z.pow_pos_nonneg; lia).
  induction n as [n IH|n IH|]; intros mrs Hm; cbn [iter_pos].
  - assert (H1 : 0 <= shr_m (shr_1 mrs))
      by (rewrite shr_1_m by exact Hm; apply Z.div_pos; lia).
    assert (H2 : 0 <= shr_m (iter_pos shr_1 n (shr_1 mrs)))
      by (rewrite IH by exact H1; apply Z.div_pos; [exact H1 | apply Hpow]).
    rewrite (IH _ H2), (IH _ H1), (shr_1_m _ Hm).
    rewrite !Z.div_div by (try apply Hpow; lia).
    f_equal. change (Zpos n~1) with (2 * Zpos n + 1).
    replace (2 * Zpos n + 1) with (1 + Zpos n + Zpos n) by lia.
    rewrite !Z.pow_add_r by lia. change (2 ^ 1) with 2. ring.
  - assert (H1 : 0 <= shr_m (iter_pos shr_1 n mrs))
      by (rewrite IH by exact Hm; apply Z.div_pos; [exact Hm | apply Hpow]).
    rewrite (IH _ H1), (IH _ Hm).
    rewrite Z.div_div by (try apply Hpow; lia).
    f_equal. change (Zpos n~0) with (2 * Zpos n).
    replace (2 * Zpos n) with (Zpos n + Zpos n) by lia.
    rewrite Z.pow_add_r by lia. ring.
  - rewrite shr_1_m by exact Hm. reflexivity.
Qed.

Lemma round_nearest_even_range (m : Z) (l : location) :
  m <= round_nearest_even m l <= m + 1.
Proof.
  destruct l as [|[]]; cbn [round_nearest_even]; try destruct (Z.even m); lia.
Qed.

(** Every positive [int64] converts to a positive float with a mantissa of
    53 digits. *)
Lemma f64_of_Z_canonical (a : Z) :
  0 < a < 2 ^ 63 ->
  exists (m : positive) (e : Z),
    f64_of_Z a = S754_finite false m e /\
    2 ^ 52 <= Zpos m < 2 ^ 53 /\ -52 <= e <= 11.
Proof.
  intros Ha. destruct (Z_lt_le_dec a (2 ^ 53)) as [Hlt|Hge].
  - destruct (f64_of_Z_normal a ltac:(lia)) as (m & k & E & _ & Hm & Hk).
    exists m, (- k). split; [exact E|]. split; [exact Hm | lia].
  - destruct a as [|p|p]; try lia.
    unfold f64_of_Z, binary_normalize, binary_round.
    pose proof (digits2_bounds p) as Hd.
    set (d := Zpos (digits2_pos p)) in *.
    assert (Hd' : 54 <= d <= 63).
    { split.
      - destruct (Z_le_gt_dec 54 d) as [H|H]; [exact H|].
        assert (2 ^ d <= 2 ^ 53) by (apply Z.pow_le_mono_r; lia). lia.
      - destruct (Z_le_gt_dec d 63) as [H|H]; [exact H|].
        assert (2 ^ 63 <= 2 ^ (d - 1)) by (apply Z.pow_le_mono_r; lia). lia. }
    unfold fexp, emin.
    replace (Z.max (d + 0 - 53) (3 - 1024 - 53)) with (d - 53) by lia.
    unfold shl_align.
    destruct (d - 53 - 0) as [|n|n] eqn:En; try lia.
    unfold binary_round_aux, shr_fexp. cbn [Zdigits2]. fold d.
    unfold fexp, emin.
    replace (Z.max (d + 0 - 53) (3 - 1024 - 53) - 0) with (Zpos n) by lia.
    cbn [shr shr_record_of_loc].
    set (mrs := iter_pos shr_1 n _).
    assert (Hmrs : shr_m mrs = Zpos p / 2 ^ Zpos n)
      by (unfold mrs; rewrite iter_shr_1_m; cbn [shr_m]; [reflexivity | lia]).
    assert (Hq : 2 ^ 52 <= shr_m mrs < 2 ^ 53).
    { rewrite Hmrs.
      assert (E1 : 2 ^ (d - 1) = 2 ^ 52 * 2 ^ Zpos n)
        by (rewrite <- Z.pow_add_r by lia; f_equal; lia).
      assert (E2 : 2 ^ d = 2 ^ 53 * 2 ^ Zpos n)
        by (rewrite <- Z.pow_add_r by lia; f_equal; lia).
      assert (0 < 2 ^ Zpos n) by (apply Z.pow_pos_nonneg; lia).
      split.
      - apply Z.div_le_lower_bound; lia.
      - apply Z.div_lt_upper_bound; lia. }
    pose proof (round_nearest_even_range (shr_m mrs) (loc_of_shr_record mrs)) as Hr.
    destruct (renormalise (round_nearest_even (shr_m mrs) (loc_of_shr_record mrs))
                (0 + Zpos n) ltac:(lia) ltac:(lia))
      as (M & c & Heq & HM & Hc & _).
    exists M, (0 + Zpos n + c). split; [exact Heq|]. split; [exact HM | lia].
Qed.

Lemma f64_ltb_finite (M1 M2 : positive) (F1 F2 : Z) :
  F1 < F2 \/ (F1 = F2 /\ Zpos M1 < Zpos M2) ->
  f64_ltb (S754_finite false M1 F1) (S754_finite false M2 F2) = true.
Proof.
  intros H. unfold f64_ltb, SFltb, SFcompare.
  destruct H as [H|[-> H]].
  - apply Z.compare_lt_iff in H. rewrite H. reflexivity.
  - rewrite Z.compare_refl.
    change (Pos.compare_cont Eq M1 M2) with (Pos.compare M1 M2).
    apply Pos2Z.pos_lt_pos in H. apply Pos.compare_lt_iff in H. rewrite H.
    reflexivity.
Qed.

(** The quotient by a fixed positive [int64] grows strictly with a
    numerator that stays below [2^52]. *)
Lemma np_true_divide_strictly_increasing (r s1 s2 : Z) :
  0 < r < 2 ^ 63 -> 0 <= s1 -> s1 < s2 -> s2 < 2 ^ 52 ->
  f64_ltb (np_true_divide s1 r) (np_true_divide s2 r) = true.
Proof.
  intros Hr Hs1 Hlt Hs2. unfold np_true_divide.
  destruct (f64_of_Z_canonical r Hr) as (m2 & e2 & -> & Hm2b & He2).
  set (k2 := - e2) in *. replace e2 with (- k2) in * by (unfold k2; lia).
  assert (Hk2 : -11 <= k2 <= 52) by lia.
  destruct (f64_of_Z_normal s2 ltac:(lia)) as (b & kb & -> & Hb & Hbb & Hkb).
  destruct (f64_div_normal b m2 (- kb) (- k2) Hbb Hm2b ltac:(lia) ltac:(lia))
    as (M2 & t2 & -> & HM2 & Ht2 & Herr2).
  destruct (Z.eq_dec s1 0) as [->|Hs1'].
  - reflexivity.
  - destruct (f64_of_Z_normal s1 ltac:(lia)) as (a & ka & -> & Ha & Hab & Hka).
    destruct (f64_div_normal a m2 (- ka) (- k2) Hab Hm2b ltac:(lia) ltac:(lia))
      as (M1 & t1 & -> & HM1 & Ht1 & Herr1).
    apply f64_ltb_finite.
    set (P := 2 ^ ka) in *. set (Q := 2 ^ kb) in *.
    set (T1 := 2 ^ t1) in *. set (T2 := 2 ^ t2) in *.
    assert (HP : 0 < P) by (apply Z.pow_pos_nonneg; lia).
    assert (HQ : 0 < Q) by (apply Z.pow_pos_nonneg; lia).
    assert (HT1 : 0 < T1) by (apply Z.pow_pos_nonneg; lia).
    assert (HT2 : 0 < T2) by (apply Z.pow_pos_nonneg; lia).
    (* the two rounded quotients, brought to a common scale *)
    assert (Hup : Zpos M1 * T1 * Zpos m2 <= s1 * P * (2 ^ 53 + 1)) by lia.
    assert (Hdown : s2 * Q * (2 ^ 53 - 1) <= Zpos M2 * T2 * Zpos m2) by lia.
    assert (Hgap : s1 * (2 ^ 53 + 1) < s2 * (2 ^ 53 - 1)) by lia.
    assert (Hcmp : Zpos M1 * (T1 * Q) < Zpos M2 * (T2 * P)).
    { assert (Zpos M1 * T1 * Zpos m2 * Q <= s1 * P * (2 ^ 53 + 1) * Q)
        by (apply Z.mul_le_mono_nonneg_r; lia).
      assert (s2 * Q * (2 ^ 53 - 1) * P <= Zpos M2 * T2 * Zpos m2 * P)
        by (apply Z.mul_le_mono_nonneg_r; lia).
      assert (s1 * (2 ^ 53 + 1) * (P * Q) < s2 * (2 ^ 53 - 1) * (P * Q))
        by (apply Z.mul_lt_mono_pos_r; nia).
      assert (Zpos M1 * (T1 * Q) * Zpos m2 < Zpos M2 * (T2 * P) * Zpos m2) by nia.
      apply (Z.mul_lt_mono_pos_r (Zpos m2)); lia. }
    assert (E1 : T1 * Q = 2 ^ (t1 + kb)) by (unfold T1, Q; rewrite Z.pow_add_r; lia).
    assert (E2 : T2 * P = 2 ^ (t2 + ka)) by (unfold T2, P; rewrite Z.pow_add_r; lia).
    rewrite E1, E2 in Hcmp.
    destruct (Z.lt_trichotomy (t1 + kb) (t2 + ka)) as [Hu|[Hu|Hu]].
    + left. lia.
    + right. split; [lia|]. rewrite Hu in Hcmp.
      assert (0 < 2 ^ (t2 + ka)) by (apply Z.pow_pos_nonneg; lia).
      apply (Z.mul_lt_mono_pos_r (2 ^ (t2 + ka))); assumption.
    + exfalso.
      assert (E3 : 2 ^ (t1 + kb) = 2 ^ (t1 + kb - (t2 + ka)) * 2 ^ (t2 + ka))
        by (rewrite <- Z.pow_add_r by lia; f_equal; lia).
      assert (2 ^ 1 <= 2 ^ (t1 + kb - (t2 + ka))) by (apply Z.pow_le_mono_r; lia).
      assert (0 < 2 ^ (t2 + ka)) by (apply Z.pow_pos_nonneg; lia).
      rewrite E3 in Hcmp. change (2 ^ 1) with 2 in *.
      set (X := 2 ^ (t1 + kb - (t2 + ka))) in *. set (Y := 2 ^ (t2 + ka)) in *.
      assert (HX : 2 ^ 53 <= Zpos M1 * X).
      { transitivity (2 ^ 52 * X); [lia|]. apply Z.mul_le_mono_nonneg_r; lia. }
      assert (HY : 2 ^ 53 * Y <= Zpos M1 * X * Y)
        by (apply Z.mul_le_mono_nonneg_r; lia).
      assert (HZ : Zpos M2 * Y < 2 ^ 53 * Y)
        by (apply Z.mul_lt_mono_pos_r; lia).
      lia.
Qed.

Lemma wrap64_range (z : Z) : - 2 ^ 63 <= wrap64 z < 2 ^ 63.
Proof.
  unfold wrap64. pose proof (Z.mod_pos_bound (z + 2 ^ 63) (2 ^ 64) ltac:(lia)). lia.
Qed.

Lemma engineer_features_bytes_ratio (L : NumLib) (df : DataFrame) (label : Z)
  (rw1 rw2 : Z) (rate : string) (freq : float64) (f : Features) :
  engineer_features L df label rw1 rw2 rate freq = Ok (Some f) ->
  bytes_sr_ratio f = np_true_divide (sent_bytes (dropna df)) (received_bytes (dropna df)).
Proof.
  intros H.
  destruct (engineer_features_cases L label rw1 rw2 rate freq df)
    as [(_ & E)|[(_ & _ & E)|[(_ & _ & e & _ & E)|[(_ & _ & _ & _ & E)|
        (_ & _ & f' & E & _ & _ & _ & Hb & _)]]]];
    rewrite E in H; try discriminate.
  injection H as <-. exact Hb.
Qed.

(** C8 (as amended): of two windows for which a feature vector is
    returned, with the same positive [received_bytes], the one with the
    larger [sent_bytes] has the strictly larger [bytes_ratio], provided
    the sent sums are not negative and stay below [2^52]. *)
Theorem bytes_ratio_strictly_increasing :
  forall (L : NumLib) (df df' : DataFrame) (label label' : Z)
         (rolling_window_1 rolling_window_2 : Z) (resample_rate : string)
         (frequency : float64) (f f' : Features),
    engineer_features L df label rolling_window_1 rolling_window_2
                      resample_rate frequency = Ok (Some f) ->
    engineer_features L df' label' rolling_window_1 rolling_window_2
                      resample_rate frequency = Ok (Some f') ->
    received_bytes (dropna df') = received_bytes (dropna df) ->
    0 < received_bytes (dropna df) ->
    0 <= sent_bytes (dropna df) ->
    sent_bytes (dropna df) < sent_bytes (dropna df') ->
    sent_bytes (dropna df') < 2 ^ 52 ->
    f64_ltb (bytes_sr_ratio f) (bytes_sr_ratio f') = true.
Proof.
  intros L df df' label label' rw1 rw2 rate freq f f' Hf Hf' Hr Hpos Hs0 Hlt Hmax.
  rewrite (engineer_features_bytes_ratio _ _ _ _ _ _ _ _ Hf).
  rewrite (engineer_features_bytes_ratio _ _ _ _ _ _ _ _ Hf'), Hr.
  apply np_true_divide_strictly_increasing; try assumption.
  split; [exact Hpos|]. unfold received_bytes, int64_sum. apply wrap64_range.
Qed.

Lemma bytes_ratio_strictly_increasing_witness :
  exists f f',
    engineer_features plain_lib window_1_2_2 1 1000 1000 rate_500ms freq_2
      = Ok (Some f) /\
    engineer_features plain_lib window_sent_150 1 1000 1000 rate_500ms freq_2
      = Ok (Some f') /\
    sent_bytes (dropna window_1_2_2) < sent_bytes (dropna window_sent_150) /\
    f64_ltb (bytes_sr_ratio f) (bytes_sr_ratio f') = true.
Proof.
  eexists. eexists.
  assert (Hf : engineer_features plain_lib window_1_2_2 1 1000 1000 rate_500ms freq_2
               = Ok (Some ?[f])) by (vm_compute; reflexivity).
  assert (Hf' : engineer_features plain_lib window_sent_150 1 1000 1000 rate_500ms
                  freq_2 = Ok (Some ?[f'])) by (vm_compute; reflexivity).
  assert (Hlt : sent_bytes (dropna window_1_2_2) < sent_bytes (dropna window_sent_150))
    by reflexivity.
  split; [exact Hf | split; [exact Hf' | split; [exact Hlt|]]].
  apply (bytes_ratio_strictly_increasing plain_lib window_1_2_2 window_sent_150 1 1
           1000 1000 rate_500ms freq_2 _ _ Hf Hf'); try reflexivity.
  discriminate.
Defined.

(** C8, the statement as written fails: sent sums of [2^53] and
    [2^53 + 1] over the same single received byte give the same
    [bytes_ratio], because float64 cannot hold [2^53 + 1] and rounds it
    to [2^53]. *)
Lemma bytes_ratio_plateau_counterexample :
  exists f f',
    engineer_features plain_lib window_sent_2p53 1 1000 1000 rate_500ms freq_2
      = Ok (Some f) /\
    engineer_features plain_lib window_sent_2p53_1 1 1000 1000 rate_500ms freq_2
      = Ok (Some f') /\
    received_bytes (dropna window_sent_2p53) = 1 /\
    received_bytes (dropna window_sent_2p53_1) = 1 /\
    sent_bytes (dropna window_sent_2p53) < sent_bytes (dropna window_sent_2p53_1) /\
    bytes_sr_ratio f = bytes_sr_ratio f' /\
    f64_ltb (bytes_sr_ratio f) (bytes_sr_ratio f') = false.
Proof.
  eexists. eexists.
  split; [vm_compute; reflexivity|]. split; [vm_compute; reflexivity|].
  repeat split.
Qed.

(** * Further properties *)

(** ** More on the windower *)

Lemma split_sorted (file : CsvFile) (c : Z) (p : Packet) (df' : DataFrame) :
  table file = p :: df' -> time_sorted (table file) -> 0 < c ->
  time p <= time (last df' p) /\
  split file c =
  Ok (map (fun i => (streaming_label (filename file),
                     window (table file) (time p) c i))
          (seq 0 (n_bins (time p) (time (last df' p)) c))).
Proof.
  intros Ht Hs Hc.
  assert (Hspan : time p <= time (last df' p)).
  { rewrite Ht in Hs. pose proof (time_sorted_bounds df' p Hs p (in_eq _ _)). lia. }
  split; [exact Hspan|].
  rewrite (split_windows file c p df' Hc Ht), (arange_count _ _ c Hc Hspan).
  reflexivity.
Qed.

Lemma filter_all {A : Type} (f : A -> bool) (l : list A) :
  (forall x, In x l -> f x = true) -> filter f l = l.
Proof.
  induction l as [|a l IH]; intros H; [reflexivity|]. simpl.
  rewrite (H a (in_eq _ _)), IH; [reflexivity|].
  intros x Hx. apply H. now right.
Qed.

Lemma filter_none {A : Type} (f : A -> bool) (l : list A) :
  (forall x, In x l -> f x = false) -> filter f l = [].
Proof.
  induction l as [|a l IH]; intros H; [reflexivity|]. simpl.
  rewrite (H a (in_eq _ _)). apply IH. intros x Hx. apply H. now right.
Qed.

Lemma time_sorted_tail (x : Packet) (l : DataFrame) :
  time_sorted (x :: l) -> time_sorted l.
Proof.
  unfold time_sorted. destruct l as [|y l]; [reflexivity|]. simpl.
  intros H. apply andb_true_iff in H. exact (proj2 H).
Qed.

(** On a sorted table two adjacent time ranges select adjacent slices. *)
Lemma between_adjacent (l : DataFrame) (a b c : Z) :
  time_sorted l -> a <= b -> b <= c ->
  filter (between a b) l ++ filter (between b c) l = filter (between a c) l.
Proof.
  intros Hs Hab Hbc. induction l as [|x l IH]; [reflexivity|].
  pose proof (time_sorted_bounds l x Hs) as Hlow.
  specialize (IH (time_sorted_tail x l Hs)).
  assert (Eab : between a b x = (a <? time x) && (time x <=? b)) by reflexivity.
  assert (Ebc : between b c x = (b <? time x) && (time x <=? c)) by reflexivity.
  assert (Eac : between a c x = (a <? time x) && (time x <=? c)) by reflexivity.
  cbn [filter]. rewrite Eab, Ebc, Eac.
  destruct (Z.ltb_spec a (time x)); destruct (Z.leb_spec (time x) b);
    destruct (Z.ltb_spec b (time x)); destruct (Z.leb_spec (time x) c);
    cbn [andb]; try lia; try (rewrite <- IH; reflexivity).
  rewrite <- IH. rewrite (filter_none (between a b) l); [reflexivity|].
  intros q Hq. unfold between, contains. cbn [left right].
  pose proof (Hlow q (or_intror Hq)).
  destruct (Z.leb_spec (time q) b); [lia|]. apply andb_false_r.
Qed.

Lemma window_between (df : DataFrame) (t0 c : Z) (i : nat) :
  window df t0 c i = filter (between (bin_edge t0 c i) (bin_edge t0 c (S i))) df.
Proof. reflexivity. Qed.

Lemma windows_concat (df : DataFrame) (t0 c : Z) (k : nat) :
  time_sorted df -> 0 < c ->
  List.concat (map (window df t0 c) (seq 0 k)) =
  filter (between (t0 - 1) (bin_edge t0 c k)) df.
Proof.
  intros Hs Hc. induction k as [|k IH].
  - simpl. symmetry. apply filter_none. intros q _.
    unfold between, contains, bin_edge. cbn [left right].
    destruct (Z.ltb_spec (t0 - 1) (time q)); destruct (Z.leb_spec (time q) (t0 - 1 + Z.of_nat 0 * c));
      cbn [andb]; try reflexivity; lia.
  - rewrite seq_S, map_app, concat_app, IH. cbn [map List.concat Nat.add].
    rewrite app_nil_r, window_between.
    apply between_adjacent; [exact Hs | |].
    + pose proof (bin_edge_mono t0 c Hc 0 k ltac:(lia)) as H. unfold bin_edge in H at 1. lia.
    + apply (bin_edge_mono t0 c Hc). lia.
Qed.

Lemma windows_concat_all (p : Packet) (df' : DataFrame) (c : Z) :
  time_sorted (p :: df') -> 0 < c ->
  List.concat (map (window (p :: df') (time p) c)
                   (seq 0 (n_bins (time p) (time (last df' p)) c))) = p :: df'.
Proof.
  intros Hs Hc. rewrite (windows_concat _ _ _ _ Hs Hc).
  apply filter_all. intros q Hq.
  pose proof (time_sorted_bounds df' p Hs q Hq) as Hb.
  assert (Hspan : time p <= time (last df' p)) by lia.
  pose proof (last_edge_bounds (time p) (time (last df' p)) c Hc Hspan).
  unfold between, contains. cbn [left right].
  apply andb_true_iff. split; [apply Z.ltb_lt | apply Z.leb_le]; lia.
Qed.

(** X1: the windows of a sorted flow, taken in the order [split] returns
    them, are consecutive slices of the flow: concatenated they give the
    flow back, row for row. *)
Theorem split_windows_are_consecutive_slices :
  forall (file : CsvFile) (chunk_size : Z),
    table file <> [] -> time_sorted (table file) -> 0 < chunk_size ->
    exists ws, split file chunk_size = Ok ws /\
               List.concat (map snd ws) = table file.
Proof.
  intros file c Hne Hs Hc.
  destruct (table file) as [|p df'] eqn:Ht; [contradiction|].
  rewrite <- Ht in Hs.
  destruct (split_sorted file c p df' Ht Hs Hc) as [_ ->].
  eexists. split; [reflexivity|].
  rewrite map_map. cbn [snd]. rewrite Ht in *. now apply windows_concat_all.
Qed.

Lemma split_windows_are_consecutive_slices_witness :
  exists ws, split flow_0_9_10 10 = Ok ws /\
             List.concat (map snd ws) = table flow_0_9_10.
Proof.
  apply split_windows_are_consecutive_slices;
    [discriminate | reflexivity | reflexivity].
Defined.

(** X2: a chunk size larger than the time span of a sorted flow gives
    one window, the whole flow. *)
Theorem split_one_window_when_chunk_covers_flow :
  forall (file : CsvFile) (chunk_size : Z) (p : Packet) (df' : DataFrame),
    table file = p :: df' -> time_sorted (table file) ->
    time (last df' p) - time p < chunk_size ->
    split file chunk_size = Ok [(streaming_label (filename file), table file)].
Proof.
  intros file c p df' Ht Hs Hc.
  assert (Hspan0 : time p <= time (last df' p)).
  { rewrite Ht in Hs. pose proof (time_sorted_bounds df' p Hs p (in_eq _ _)). lia. }
  assert (Hc' : 0 < c) by lia.
  destruct (split_sorted file c p df' Ht Hs Hc') as [Hspan ->].
  assert (Hk : n_bins (time p) (time (last df' p)) c = 1%nat).
  { unfold n_bins.
    pose proof (cdiv_bounds (time (last df' p) - time p + 1) c Hc').
    assert (cdiv (time (last df' p) - time p + 1) c = 1) by nia. lia. }
  pose proof (windows_concat_all p df' c ltac:(rewrite <- Ht; exact Hs) Hc') as Hall.
  rewrite Hk in *. cbn [seq map List.concat] in *. rewrite app_nil_r in Hall.
  rewrite Ht. rewrite Hall. reflexivity.
Qed.

Lemma split_one_window_when_chunk_covers_flow_witness :
  split flow_0_5 6 = Ok [(streaming_label (filename flow_0_5), table flow_0_5)].
Proof.
  apply (split_one_window_when_chunk_covers_flow flow_0_5 6 _ _ eq_refl);
    reflexivity.
Defined.

(** X3: every window [split] returns holds packets of the flow only, all
    inside one bin: any two of them are less than [chunk_size] apart in
    time, and the window carries the label of the file. *)
Theorem split_window_spans_less_than_chunk :
  forall (file : CsvFile) (chunk_size : Z) (ws : list (Z * DataFrame)),
    table file <> [] -> time_sorted (table file) -> 0 < chunk_size ->
    split file chunk_size = Ok ws ->
    forall label w, In (label, w) ws ->
      label = streaming_label (filename file) /\
      (forall q, In q w -> In q (table file)) /\
      (forall q q', In q w -> In q' w -> Z.abs (time q - time q') < chunk_size).
Proof.
  intros file c ws Hne Hs Hc Hsplit label w Hin.
  destruct (table file) as [|p df'] eqn:Ht; [contradiction|].
  rewrite <- Ht in *.
  destruct (split_sorted file c p df' Ht Hs Hc) as [_ E].
  rewrite E in Hsplit. injection Hsplit as <-.
  apply in_map_iff in Hin. destruct Hin as (i & [= <- <-] & _).
  split; [reflexivity|]. split.
  - intros q Hq. apply filter_In in Hq. exact (proj1 Hq).
  - intros q q' Hq Hq'. apply filter_In in Hq, Hq'.
    destruct Hq as [_ Hq]. destruct Hq' as [_ Hq'].
    apply contains_bin in Hq, Hq'. unfold bin_edge in *. lia.
Qed.

Lemma split_window_spans_less_than_chunk_witness :
  1 = streaming_label (filename flow_0_5) /\
  Z.abs (time (packet_at 0 100 1) - time (packet_at 5 100 2)) < 6.
Proof.
  destruct (split_window_spans_less_than_chunk flow_0_5 6 [(1, table flow_0_5)]
              ltac:(discriminate) eq_refl eq_refl eq_refl 1 (table flow_0_5)
              (or_introl eq_refl)) as (H1 & _ & H3).
  split; [exact H1|]. apply H3; simpl; tauto.
Defined.

Lemma split_empty (file : CsvFile) (c : Z) :
  table file = [] -> split file c = Raise IndexError.
Proof. intros H. unfold split. now rewrite H. Qed.

Lemma split_zero_chunk (file : CsvFile) :
  table file <> [] -> split file 0 = Raise ValueError.
Proof.
  intros H. unfold split. destruct (table file) as [|p df']; [contradiction|].
  reflexivity.
Qed.

(** X4: for a sorted flow and a chunk size that is not negative, [split]
    raises exactly in two cases: [IndexError] when the table is empty,
    whatever the chunk size, and [ValueError] when the table has rows
    and the chunk size is 0 ([np.arange] refuses the zero step). *)
Theorem split_raises_iff :
  forall (file : CsvFile) (chunk_size : Z) (e : exn),
    time_sorted (table file) -> 0 <= chunk_size ->
    (split file chunk_size = Raise e <->
     (table file = [] /\ e = IndexError) \/
     (table file <> [] /\ chunk_size = 0 /\ e = ValueError)).
Proof.
  intros file c e Hs Hc. split.
  - intros H. destruct (table file) as [|p df'] eqn:Ht.
    + left. rewrite (split_empty file c Ht) in H. injection H as <-. auto.
    + right. destruct (Z.eq_dec c 0) as [->|Hne].
      * rewrite split_zero_chunk in H by (rewrite Ht; discriminate).
        injection H as <-. repeat split; discriminate.
      * rewrite <- Ht in Hs.
        destruct (split_sorted file c p df' Ht Hs ltac:(lia)) as [_ E].
        rewrite E in H. discriminate.
  - intros [[Ht ->]|(Hne & -> & ->)].
    + now apply split_empty.
    + now apply split_zero_chunk.
Qed.

Lemma split_raises_iff_witness :
  split flow_0_5 0 = Raise ValueError.
Proof.
  apply (split_raises_iff flow_0_5 0 ValueError eq_refl ltac:(lia)).
  right. repeat split. discriminate.
Defined.

(** ** The label *)

Lemma is_prefix_iff (s t : string) :
  is_prefix s t = true <-> exists post, t = (s ++ post)%string.
Proof.
  revert t. induction s as [|a s IH]; intros t; simpl.
  - split; [intros _; exists t; reflexivity | reflexivity].
  - destruct t as [|b t].
    + split; [discriminate | intros [post H]; discriminate].
    + rewrite andb_true_iff, Ascii.eqb_eq, IH. split.
      * intros [-> [post ->]]. exists post. reflexivity.
      * intros [post [= -> ->]]. split; [reflexivity | exists post; reflexivity].
Qed.

Lemma str_in_iff (s t : string) :
  str_in s t = true <-> exists pre post, t = (pre ++ s ++ post)%string.
Proof.
  induction t as [|c t IH]; simpl.
  - rewrite orb_false_r, is_prefix_iff. split.
    + intros [post H]. exists EmptyString, post. exact H.
    + intros (pre & post & H). destruct pre; [|discriminate].
      exists post. exact H.
  - rewrite orb_true_iff, is_prefix_iff, IH. split.
    + intros [[post H]|(pre & post & H)].
      * exists EmptyString, post. exact H.
      * exists (String c pre), post. simpl. now rewrite H.
    + intros (pre & post & H). destruct pre as [|c' pre].
      * left. exists post. exact H.
      * right. simpl in H. injection H as _ ->. exists pre, post. reflexivity.
Qed.

Lemma string_app_assoc (a b c : string) :
  ((a ++ b) ++ c = a ++ b ++ c)%string.
Proof. induction a as [|x a IH]; simpl; [reflexivity | now rewrite IH]. Qed.

(** X5: the label is 0 exactly for a name that has [novideo] somewhere
    in it, and 1 otherwise.  The name is the whole path [glob] returns:
    [novideo] in the directory part labels every file of it 0, and so
    does [novideo] in the file's own name under any directory. *)
Theorem streaming_label_reads_whole_path :
  forall name : string,
    (streaming_label name = 0 <->
     exists pre post, name = (pre ++ "novideo" ++ post)%string) /\
    (streaming_label name = 0 \/ streaming_label name = 1) /\
    (forall dir, streaming_label dir = 0 -> streaming_label (dir ++ name) = 0) /\
    (forall dir, streaming_label name = 0 -> streaming_label (dir ++ name) = 0).
Proof.
  assert (Hiff : forall n, streaming_label n = 0 <-> str_in "novideo" n = true).
  { intros n. unfold streaming_label. destruct (str_in "novideo" n); simpl.
    - split; reflexivity.
    - split; discriminate. }
  intros name. split; [|split; [|split]].
  - rewrite Hiff. apply str_in_iff.
  - unfold streaming_label. destruct (str_in "novideo" name); auto.
  - intros dir. rewrite !Hiff, !str_in_iff. intros (pre & post & ->).
    exists pre, (post ++ name)%string. now rewrite !string_app_assoc.
  - intros dir. rewrite !Hiff, !str_in_iff. intros (pre & post & ->).
    exists (dir ++ pre)%string, post. now rewrite !string_app_assoc.
Qed.

Lemma streaming_label_reads_whole_path_witness :
  streaming_label "data/novideo-runs/" = 0 /\
  streaming_label ("data/novideo-runs/" ++ "preprocessed-stream.csv") = 0.
Proof.
  assert (H : streaming_label "data/novideo-runs/" = 0) by reflexivity.
  split; [exact H|].
  exact (proj1 (proj2 (proj2 (streaming_label_reads_whole_path
                                "preprocessed-stream.csv"))) _ H).
Defined.

(** ** More on the streak counter *)

Lemma has_run_In (vals : list Z) (d : Z) (k : nat) :
  has_run vals d (S k) -> In d vals.
Proof.
  intros (l1 & l2 & ->). apply in_or_app. right. simpl. now left.
Qed.

Lemma has_run_count (vals : list Z) (d : Z) (k : nat) :
  has_run vals d k -> (k <= count_occ Z.eq_dec vals d)%nat.
Proof.
  intros (l1 & l2 & ->). rewrite !count_occ_app, count_occ_repeat_eq by reflexivity.
  lia.
Qed.

Lemma longest_dir_streak_max (vals : list Z) (d : Z) (n : nat) :
  has_run vals d n ->
  (forall k, has_run vals d k -> (k <= n)%nat) ->
  longest_dir_streak vals d = Z.of_nat n.
Proof.
  intros Hrun Hmax.
  pose proof (longest_dir_streak_bounds_runs vals d n Hrun).
  pose proof (Hmax _ (longest_dir_streak_has_run vals d)).
  pose proof (longest_dir_streak_nonneg vals d). lia.
Qed.

(** X6: the streak is 0 exactly when the target direction does not occur;
    it never exceeds the number of entries with the target direction,
    nor the length; and it equals the length exactly when every entry
    has the target direction. *)
Theorem longest_dir_streak_bounds :
  forall (vals : list Z) (d : Z),
    (longest_dir_streak vals d = 0 <-> ~ In d vals) /\
    0 <= longest_dir_streak vals d
      <= Z.of_nat (count_occ Z.eq_dec vals d) /\
    Z.of_nat (count_occ Z.eq_dec vals d) <= len vals /\
    (longest_dir_streak vals d = len vals <-> vals = repeat d (List.length vals)).
Proof.
  intros vals d.
  pose proof (longest_dir_streak_nonneg vals d) as Hn.
  pose proof (longest_dir_streak_has_run vals d) as Hrun.
  pose proof (has_run_count vals d _ Hrun) as Hc.
  pose proof (count_occ_bound Z.eq_dec d vals) as Hb.
  split; [|split; [|split]].
  - split.
    + intros H0 Hin.
      pose proof (longest_dir_streak_bounds_runs vals d 1 (in_has_run vals d Hin)).
      lia.
    + intros Hnot.
      destruct (Z.to_nat (longest_dir_streak vals d)) as [|k] eqn:E; [lia|].
      exfalso. apply Hnot. exact (has_run_In vals d k Hrun).
  - lia.
  - unfold len. lia.
  - unfold len. split.
    + intros H. destruct Hrun as (l1 & l2 & Hv).
      rewrite H, Nat2Z.id in Hv.
      assert (Hl : List.length vals =
                   (List.length l1 + (List.length vals + List.length l2))%nat).
      { rewrite Hv at 1. now rewrite !length_app, repeat_length. }
      destruct l1; [|simpl in Hl; lia]. destruct l2; [|simpl in Hl; lia].
      simpl in Hv. now rewrite app_nil_r in Hv.
    + intros H.
      apply (longest_dir_streak_max vals d (List.length vals)).
      * exists [], []. simpl. now rewrite app_nil_r.
      * intros k Hk. pose proof (has_run_count vals d k Hk). lia.
Qed.

Lemma rev_repeat {A : Type} (a : A) (n : nat) : rev (repeat a n) = repeat a n.
Proof.
  induction n as [|n IH]; [reflexivity|].
  simpl. rewrite IH. symmetry. apply repeat_cons.
Qed.

Lemma has_run_rev (vals : list Z) (d : Z) (k : nat) :
  has_run vals d k -> has_run (rev vals) d k.
Proof.
  intros (l1 & l2 & ->). exists (rev l2), (rev l1).
  now rewrite !rev_app_distr, rev_repeat, app_assoc.
Qed.

(** X7: the streak does not depend on the direction in which the
    sequence is read. *)
Theorem longest_dir_streak_rev :
  forall (vals : list Z) (d : Z),
    longest_dir_streak (rev vals) d = longest_dir_streak vals d.
Proof.
  intros vals d.
  pose proof (longest_dir_streak_nonneg vals d).
  rewrite <- (Z2Nat.id (longest_dir_streak vals d)) by assumption.
  apply longest_dir_streak_max.
  - apply has_run_rev, longest_dir_streak_has_run.
  - intros k Hk. apply has_run_rev in Hk. rewrite rev_involutive in Hk.
    pose proof (longest_dir_streak_bounds_runs vals d k Hk). lia.
Qed.

Lemma repeat_eq_app_inv {A : Type} (a : A) (n : nat) (l l' : list A) :
  repeat a n = l ++ l' ->
  l = repeat a (List.length l) /\ l' = repeat a (List.length l') /\
  n = (List.length l + List.length l')%nat.
Proof.
  revert n. induction l as [|x l IH]; intros n H.
  - simpl in *. subst l'. rewrite repeat_length. auto.
  - destruct n as [|n]; [discriminate|]. simpl in H. injection H as <- H.
    destruct (IH n H) as (Hl & Hl' & Hn). simpl. rewrite <- Hl. auto.
Qed.

(** X8: over a concatenation the streak is at least the streak of each
    part and at most their sum: a run is cut by the seam into at most one
    run of each part. *)
Theorem longest_dir_streak_app :
  forall (l1 l2 : list Z) (d : Z),
    Z.max (longest_dir_streak l1 d) (longest_dir_streak l2 d)
      <= longest_dir_streak (l1 ++ l2) d
      <= longest_dir_streak l1 d + longest_dir_streak l2 d.
Proof.
  intros l1 l2 d.
  pose proof (longest_dir_streak_nonneg l1 d) as H1.
  pose proof (longest_dir_streak_nonneg l2 d) as H2.
  split.
  - apply Z.max_lub.
    + rewrite <- (Z2Nat.id _ H1).
      apply longest_dir_streak_bounds_runs.
      destruct (longest_dir_streak_has_run l1 d) as (a & b & Hv).
      exists a, (b ++ l2). rewrite Hv at 1. now rewrite <- !app_assoc.
    + rewrite <- (Z2Nat.id _ H2).
      apply longest_dir_streak_bounds_runs.
      destruct (longest_dir_streak_has_run l2 d) as (a & b & Hv).
      exists (l1 ++ a), b. rewrite Hv at 1. now rewrite <- !app_assoc.
  - destruct (longest_dir_streak_has_run (l1 ++ l2) d) as (a & b & Hv).
    pose proof (longest_dir_streak_nonneg (l1 ++ l2) d) as Hn.
    set (n := Z.to_nat (longest_dir_streak (l1 ++ l2) d)) in *.
    assert (Hgoal : exists n1 n2, n = (n1 + n2)%nat /\
                      has_run l1 d n1 /\ has_run l2 d n2).
    { symmetry in Hv. apply app_eq_app in Hv.
      destruct Hv as (l & [[Ha Hl2]|[Hl1 Hr]]).
      - exists 0%nat, n. split; [reflexivity|]. split.
        + exists [], l1. reflexivity.
        + exists l, b. exact Hl2.
      - apply app_eq_app in Hr. destruct Hr as (l' & [[Hrep Hl2]|[Hl Hb]]).
        + apply repeat_eq_app_inv in Hrep. destruct Hrep as (El & El' & En).
          exists (List.length l), (List.length l'). split; [exact En|]. split.
          * exists a, []. rewrite app_nil_r, <- El. exact Hl1.
          * exists [], b. simpl. rewrite <- El'. exact Hl2.
        + exists n, 0%nat. split; [lia|]. split.
          * exists a, l'. rewrite Hl1, Hl. reflexivity.
          * exists [], l2. reflexivity. }
    destruct Hgoal as (n1 & n2 & En & Hr1 & Hr2).
    pose proof (longest_dir_streak_bounds_runs l1 d n1 Hr1).
    pose proof (longest_dir_streak_bounds_runs l2 d n2 Hr2).
    unfold n in En. lia.
Qed.

(** ** More on the rolling aggregate *)

Lemma nth_map_seq {A : Type} (f : nat -> A) (m i : nat) (d : A) :
  (i < m)%nat -> nth i (map f (seq 0 m)) d = f i.
Proof.
  intros H. rewrite (nth_indep _ d (f 0%nat)) by (now rewrite length_map, length_seq).
  rewrite (map_nth f (seq 0 m) 0%nat i), seq_nth by exact H. reflexivity.
Qed.

Lemma map_const_seq {A : Type} (f : nat -> A) (a : A) (m : nat) :
  (forall i, (i < m)%nat -> f i = a) -> map f (seq 0 m) = repeat a m.
Proof.
  intros H. induction m as [|m IH]; [reflexivity|].
  rewrite seq_S, map_app, IH by (intros; apply H; lia). simpl.
  rewrite H by lia. symmetry. apply repeat_cons.
Qed.

(** X9: [roll] raises [ValueError] on a negative width and otherwise
    returns one value per row.  Row [i] is NaN while fewer than [seconds]
    rows are there; from then on it is the aggregate of exactly the
    [seconds] rows that end at row [i].  A column with fewer rows than
    [seconds] gives NaN in every row. *)
Theorem roll_row_by_row :
  forall (col : Series) (seconds : Z) (stats : list float64 -> float64),
    (seconds < 0 -> roll col seconds stats = Raise ValueError) /\
    (0 <= seconds ->
     exists out,
       roll col seconds stats = Ok out /\
       List.length out = List.length col /\
       (forall i, (i < List.length col)%nat -> Z.of_nat i + 1 < seconds ->
          nth i out f64_zero = f64_nan) /\
       (forall i, (i < List.length col)%nat -> 1 <= seconds <= Z.of_nat i + 1 ->
          let rows := firstn (Z.to_nat seconds)
                             (skipn (i + 1 - Z.to_nat seconds) col) in
          List.length rows = Z.to_nat seconds /\
          nth i out f64_zero = stats (map snd rows)) /\
       (len col < seconds -> out = repeat f64_nan (List.length col))).
Proof.
  intros col seconds stats. unfold roll. split.
  - intros H. destruct (Z.ltb_spec seconds 0); [reflexivity | lia].
  - intros H. destruct (Z.ltb_spec seconds 0); [lia|].
    eexists. split; [reflexivity|]. split; [now rewrite length_map, length_seq|].
    split; [|split].
    + intros i Hi Hs. rewrite nth_map_seq by exact Hi. unfold count_window.
      destruct (Nat.ltb_spec (i + 1) (Z.to_nat seconds)); [reflexivity | lia].
    + intros i Hi Hs.
      set (rows := firstn (Z.to_nat seconds) (skipn (i + 1 - Z.to_nat seconds) col)).
      assert (Hlen : List.length rows = Z.to_nat seconds).
      { unfold rows. rewrite length_firstn, length_skipn. lia. }
      split; [exact Hlen|].
      rewrite nth_map_seq by exact Hi. unfold count_window.
      destruct (Nat.ltb_spec (i + 1) (Z.to_nat seconds)); [lia|].
      fold rows. unfold aggregate.
      destruct (map snd rows) eqn:E; [|reflexivity].
      apply (f_equal (@List.length _)) in E. rewrite length_map, Hlen in E.
      simpl in E. lia.
    + intros Hshort. apply map_const_seq. intros i Hi. unfold count_window, len in *.
      destruct (Nat.ltb_spec (i + 1) (Z.to_nat seconds)); [reflexivity | lia].
Qed.

Lemma roll_row_by_row_witness :
  exists out, roll delays_100s 5 plain_mean = Ok out /\
              out = repeat f64_nan (List.length delays_100s).
Proof.
  destruct (proj2 (roll_row_by_row delays_100s 5 plain_mean) ltac:(lia))
    as (out & Hroll & _ & _ & _ & Hshort).
  exists out. split; [exact Hroll|]. apply Hshort. reflexivity.
Defined.

(** ** More on the extractor *)

Lemma wrap64_small (z : Z) : - 2 ^ 63 <= z < 2 ^ 63 -> wrap64 z = z.
Proof.
  intros H. unfold wrap64. rewrite Z.mod_small by lia. lia.
Qed.

Lemma sum_positive (l : list Z) :
  l <> [] -> (forall x, In x l -> 0 < x) -> 0 < fold_right Z.add 0 l.
Proof.
  induction l as [|a l IH]; intros Hne Hpos; [contradiction|].
  simpl. pose proof (Hpos a (in_eq _ _)).
  destruct l as [|b l]; [simpl; lia|].
  assert (0 < fold_right Z.add 0 (b :: l)).
  { apply IH; [discriminate|]. intros x Hx. apply Hpos. now right. }
  lia.
Qed.

Lemma skip_check_received_bytes (w : list Row) :
  skip_check w = (received_bytes w =? 0).
Proof.
  unfold skip_check.
  destruct (Z.eqb_spec (received_bytes w) 0) as [|Hb]; [reflexivity|].
  destruct (Z.eqb_spec (received_packets w) 0) as [Hp|]; [|reflexivity].
  exfalso. apply Hb. unfold received_packets, received_bytes, len in *.
  destruct (of_dir 2 w); [reflexivity | simpl in Hp; lia].
Qed.

(** X10: the skip test is decided by the received bytes alone: with no
    received packet their sum is 0 already.  For packet sizes that are
    positive and a byte sum below [2^63] the window is skipped exactly
    when it holds no received packet. *)
Theorem skip_check_is_zero_received_bytes :
  forall w : list Row,
    skip_check w = (received_bytes w =? 0) /\
    (received_packets w = 0 -> received_bytes w = 0) /\
    ((forall r, In r w -> 0 < row_size r) ->
     fold_right Z.add 0 (map row_size (of_dir 2 w)) < 2 ^ 63 ->
     (skip_check w = true <-> received_packets w = 0)).
Proof.
  intros w.
  assert (H0 : received_packets w = 0 -> received_bytes w = 0).
  { unfold received_packets, received_bytes, len. intros H.
    destruct (of_dir 2 w); [reflexivity | simpl in H; lia]. }
  split; [|split; [exact H0|]].
  - apply skip_check_received_bytes.
  - intros Hpos Hsum. unfold skip_check. rewrite orb_true_iff, !Z.eqb_eq.
    split; [|tauto]. intros [Hb|Hp]; [|exact Hp].
    unfold received_packets, received_bytes, int64_sum, len in *.
    destruct (of_dir 2 w) as [|r rs] eqn:E; [reflexivity|]. exfalso.
    assert (Hs : 0 < fold_right Z.add 0 (map row_size (r :: rs))).
    { apply sum_positive; [discriminate|].
      intros x Hx. apply in_map_iff in Hx. destruct Hx as (q & <- & Hq).
      apply Hpos. rewrite <- E in Hq. unfold of_dir in Hq.
      apply filter_In in Hq. exact (proj1 Hq). }
    rewrite wrap64_small in Hb by lia. lia.
Qed.

Lemma skip_check_is_zero_received_bytes_witness :
  skip_check (dropna window_sent_only) = true <->
  received_packets (dropna window_sent_only) = 0.
Proof.
  apply (proj2 (proj2 (skip_check_is_zero_received_bytes (dropna window_sent_only)))).
  - intros r [<-|[<-|[]]]; reflexivity.
  - reflexivity.
Defined.

Lemma large_small_bound (d : Z) (w : list Row) :
  len (large d w) + len (small d w) <= len (of_dir d w).
Proof.
  unfold len, large, small, of_dir.
  induction w as [|r w IH]; [simpl; lia|]. simpl.
  destruct (row_dir r =? d); simpl; [|exact IH].
  destruct (Z.ltb_spec 1200 (row_size r)); destruct (Z.ltb_spec (row_size r) 200);
    simpl List.length; lia.
Qed.

Lemma of_dir_bound (d : Z) (w : list Row) : len (of_dir d w) <= len w.
Proof.
  unfold len, of_dir. pose proof (filter_length_le (fun r => row_dir r =? d) w). lia.
Qed.

(** X12: in each direction the packets counted as large and those
    counted as small are disjoint and all belong to that direction, so
    the two counts add up to at most the direction's packet count; and
    the sent and received counts add up to at most the window's row
    count. *)
Theorem large_and_small_are_disjoint :
  forall (d : Z) (w : list Row),
    len (large d w) + len (small d w) <= len (of_dir d w) /\
    (forall r, In r (large d w) -> ~ In r (small d w)) /\
    sent_packets w + received_packets w <= len w.
Proof.
  intros d w. split; [|split].
  - apply large_small_bound.
  - intros r Hl Hs. unfold large, small in *. apply filter_In in Hl, Hs.
    destruct Hl as [_ Hl]. destruct Hs as [_ Hs].
    apply andb_true_iff in Hl, Hs. destruct Hl as [_ Hl]. destruct Hs as [_ Hs].
    apply Z.ltb_lt in Hl, Hs. lia.
  - unfold sent_packets, received_packets, len, of_dir.
    induction w as [|r w IH]; [simpl; lia|]. simpl.
    destruct (Z.eqb_spec (row_dir r) 1); destruct (Z.eqb_spec (row_dir r) 2);
      simpl List.length; lia.
Qed.

(** ** More on the pipeline *)

Lemma engineer_features_vector (L : NumLib) (df : DataFrame) (label rw1 rw2 : Z)
  (rate : string) (freq : float64) (f : Features) :
  engineer_features L df label rw1 rw2 rate freq = Ok (Some f) ->
  let w := dropna df in
  let col := map (fun rx => (row_dt_time (fst rx), snd rx))
                 (dropna_delay w (ip_delay L w)) in
  skip_check w = false /\ sent_packets w <> 0 /\
  exists v r10 r60,
    df_max_prom L rate freq (tl w) = Ok v /\
    rolling_delays L col rw1 = Ok r10 /\
    rolling_delays L col rw2 = Ok r60 /\
    f = mkFeatures
          (np_true_divide (sent_bytes w) (received_bytes w))
          (f64_div (f64_of_Z (sent_packets w)) (f64_of_Z (received_packets w)))
          r10 r60
          (series_mean L (map row_size (of_dir 2 w)))
          (series_mean L (map row_size (of_dir 1 w)))
          (f64_div (f64_of_Z (len (large 1 w))) (f64_of_Z (sent_packets w)))
          (f64_div (f64_of_Z (len (small 1 w))) (f64_of_Z (sent_packets w)))
          (f64_div (f64_of_Z (len (large 2 w))) (f64_of_Z (received_packets w)))
          (f64_div (f64_of_Z (len (small 2 w))) (f64_of_Z (received_packets w)))
          (longest_dir_streak (map row_dir (tl w)) 1)
          (longest_dir_streak (map row_dir (tl w)) 2)
          v
          label.
Proof.
  intros H w col.
  destruct (skip_check w) eqn:Hs.
  { rewrite (engineer_features_skip L label rw1 rw2 rate freq df Hs) in H.
    discriminate. }
  destruct (Z.eq_dec (sent_packets w) 0) as [Hz|Hnz].
  { rewrite (engineer_features_zero_sent L label rw1 rw2 rate freq df Hs Hz) in H.
    discriminate. }
  pose proof (engineer_features_unfold L label rw1 rw2 rate freq df Hs Hnz) as E.
  cbv zeta in E. rewrite E in H.
  apply bind_Ok in H. destruct H as (v & Hv & H).
  apply bind_Ok in H. destruct H as (r10 & H10 & H).
  apply bind_Ok in H. destruct H as (r60 & H60 & H).
  injection H as <-.
  split; [reflexivity|]. split; [exact Hnz|].
  exists v, r10, r60. auto.
Qed.

Lemma mapM_In {A B : Type} (f : A -> result B) (l : list A) :
  forall bs, mapM f l = Ok bs ->
  forall b, In b bs -> exists a, In a l /\ f a = Ok b.
Proof.
  induction l as [|a l IH]; intros bs H b Hb.
  - injection H as <-. contradiction.
  - apply mapM_cons_Ok in H. destruct H as (b0 & bs' & Ha & Hl & ->).
    destruct Hb as [<-|Hb].
    + exists a. split; [now left | exact Ha].
    + destruct (IH _ Hl _ Hb) as (a' & Hin & Hfa). exists a'. split; [now right | exact Hfa].
Qed.

Lemma not_none_In {A : Type} (l : list (option A)) (a : A) :
  In a (not_none l) -> In (Some a) l.
Proof.
  induction l as [|[x|] l IH]; simpl; [tauto | | ].
  - intros [->|H]; [now left | right; auto].
  - intros H. right. auto.
Qed.

Lemma mapM_raise {A B : Type} (f : A -> result B) (l : list A) (a : A) (e : exn) :
  In a l -> f a = Raise e ->
  (forall a' e', In a' l -> f a' = Raise e' -> e' = e) ->
  mapM f l = Raise e.
Proof.
  induction l as [|x l IH]; intros Hin Ha Hall; [contradiction|].
  simpl. destruct (f x) as [b|e'] eqn:Hx.
  - destruct Hin as [->|Hin]; [congruence|].
    rewrite (IH Hin Ha); [reflexivity|].
    intros a' e' Ha' Hf. apply (Hall a' e'); [now right | exact Hf].
  - simpl. f_equal. apply (Hall x e'); [now left | exact Hx].
Qed.

Lemma split_labels (file : CsvFile) (c : Z) (ws : list (Z * DataFrame)) :
  split file c = Ok ws ->
  forall w, In w ws -> fst w = streaming_label (filename file).
Proof.
  unfold split. intros H w Hw.
  apply bind_Ok in H. destruct H as (t0 & _ & H).
  apply bind_Ok in H. destruct H as (tN & _ & H).
  apply bind_Ok in H. destruct H as (bins & _ & H).
  apply bind_Ok in H. destruct H as (binned & _ & H).
  injection H as <-. apply in_map_iff in Hw. destruct Hw as (g & <- & _).
  reflexivity.
Qed.

Lemma existsb_false_In {A : Type} (p : A -> bool) (l : list A) :
  existsb p l = false -> forall x, In x l -> p x = false.
Proof.
  intros H x Hx. destruct (p x) eqn:E; [|reflexivity].
  assert (existsb p l = true) by (apply existsb_exists; eauto). congruence.
Qed.

(** X13: every row of the matrix [create_features] returns has the 14
    entries of [cols], none of them NaN, its last entry is the label
    ([0] or [1], as a float) of one of the input files, and it is the
    feature vector of one window of that file. *)
Theorem create_features_rows :
  forall (L : NumLib) (files : list CsvFile)
         (chunk_size rolling_window_1 rolling_window_2 : Z)
         (resample_rate : string) (frequency : float64)
         (m : list (list float64)),
    create_features L files chunk_size rolling_window_1 rolling_window_2
                    resample_rate frequency = Ok m ->
    forall row, In row m ->
      List.length row = 14%nat /\
      (forall x, In x row -> is_nan x = false) /\
      exists file ws df f,
        In file files /\ split file chunk_size = Ok ws /\
        In (streaming_label (filename file), df) ws /\
        engineer_features L df (streaming_label (filename file))
          rolling_window_1 rolling_window_2 resample_rate frequency = Ok (Some f) /\
        row = feature_row f /\
        nth 13 row f64_nan = f64_of_Z (streaming_label (filename file)).
Proof.
  intros L files c rw1 rw2 rate freq m H row Hrow.
  unfold create_features in H.
  apply bind_Ok in H. destruct H as (groups & Hg & H).
  unfold fan_out_in in H.
  apply bind_Ok in H. destruct H as (results & Hres & H).
  apply bind_Ok in H. destruct H as (features & Hstack & [= <-]).
  apply np_vstack_Ok in Hstack. destruct Hstack as [_ ->].
  unfold dropna_rows in Hrow. apply filter_In in Hrow. destruct Hrow as [Hin Hnan].
  apply in_map_iff in Hin. destruct Hin as (f & <- & Hf).
  apply not_none_In in Hf.
  destruct (mapM_In _ _ _ Hres _ Hf) as ([label df] & Hw & Hrun).
  apply in_concat in Hw. destruct Hw as (ws & Hws & Hw).
  destruct (mapM_In _ _ _ Hg _ Hws) as (file & Hfile & Hsplit).
  pose proof (split_labels _ _ _ Hsplit _ Hw) as Hl. cbn [fst snd] in *. subst label.
  split; [reflexivity|]. split.
  - apply existsb_false_In. now apply negb_true_iff.
  - exists file, ws, df, f. repeat (split; [assumption|]).
    split; [reflexivity|].
    destruct (engineer_features_vector _ _ _ _ _ _ _ _ Hrun) as (_ & _ & v & r10 & r60 & _ & _ & _ & ->).
    reflexivity.
Qed.

Lemma create_features_rows_witness :
  exists m, create_features plain_lib [flow_0_5; flow_0_9_10] 10 1000 1000
                            rate_500ms freq_2 = Ok m /\
    forall row, In row m -> List.length row = 14%nat.
Proof.
  eexists. split; [vm_compute; reflexivity|].
  intros row Hrow.
  exact (proj1 (create_features_rows plain_lib [flow_0_5; flow_0_9_10] 10 1000 1000
                  rate_500ms freq_2 _ eq_refl row Hrow)).
Defined.

Lemma mapM_all_skipped (L : NumLib) (merged : list (Z * DataFrame)) (rw1 rw2 : Z)
  (rate : string) (freq : float64) :
  (forall w, In w merged -> skip_check (dropna (snd w)) = true) ->
  mapM (fun m => engineer_features L (snd m) (fst m) rw1 rw2 rate freq) merged =
  Ok (repeat None (List.length merged)).
Proof.
  induction merged as [|w merged IH]; intros H; [reflexivity|].
  apply mapM_cons_intro.
  - apply engineer_features_skip, H. now left.
  - apply IH. intros w' Hw'. apply H. now right.
Qed.

Lemma not_none_repeat_None {A : Type} (n : nat) : not_none (repeat (@None A) n) = [].
Proof. induction n; simpl; auto. Qed.

(** X14: when every window is skipped (no received bytes), and so also
    when there is no window at all, nothing reaches [np.vstack] and the
    run ends in [ValueError]; no empty matrix is written. *)
Theorem no_usable_window_raises_ValueError :
  forall (L : NumLib) (merged : list (Z * DataFrame))
         (rolling_window_1 rolling_window_2 : Z)
         (resample_rate : string) (frequency : float64),
    (forall w, In w merged -> skip_check (dropna (snd w)) = true) ->
    fan_out_in L merged rolling_window_1 rolling_window_2 resample_rate frequency =
    Raise ValueError.
Proof.
  intros L merged rw1 rw2 rate freq H. unfold fan_out_in.
  rewrite (mapM_all_skipped L merged rw1 rw2 rate freq H). cbn [bind].
  rewrite not_none_repeat_None. reflexivity.
Qed.

Lemma no_usable_window_raises_ValueError_witness :
  fan_out_in plain_lib [(1, window_sent_only); (0, window_sent_only)] 1000 1000
             rate_500ms freq_2 = Raise ValueError.
Proof.
  apply no_usable_window_raises_ValueError.
  intros w [<-|[<-|[]]]; reflexivity.
Defined.

Lemma df_max_prom_Raise (L : NumLib) (rate : string) (freq : float64)
  (w : list Row) (e : exn) :
  df_max_prom L rate freq w = Raise e <-> prominences_of L rate freq w = Raise e.
Proof.
  unfold df_max_prom. destruct (prominences_of L rate freq w); simpl;
    split; congruence.
Qed.

(** For rolling windows that are not negative, the extractor raises
    from a proportion or from the spectral step. *)
Lemma engineer_features_raises (L : NumLib) (df : DataFrame)
  (label rw1 rw2 : Z) (rate : string) (freq : float64) (e : exn) :
  0 <= rw1 -> 0 <= rw2 ->
  engineer_features L df label rw1 rw2 rate freq = Raise e ->
  skip_check (dropna df) = false /\
  ((sent_packets (dropna df) = 0 /\ e = ZeroDivisionError) \/
   (sent_packets (dropna df) <> 0 /\
    prominences_of L rate freq (tl (dropna df)) = Raise e)).
Proof.
  intros H1 H2 H.
  pose proof (Z.quot_pos rw1 1000 H1 ltac:(lia)).
  pose proof (Z.quot_pos rw2 1000 H2 ltac:(lia)).
  destruct (engineer_features_cases L label rw1 rw2 rate freq df)
    as [(_ & E)|[(Hs & Hz & E)|[(Hs & Hnz & e' & Hp & E)|[(_ & _ & _ & Hq & E)|
        (_ & _ & f' & E & _)]]]];
    rewrite E in H; try discriminate.
  - injection H as <-. split; [exact Hs|]. left. auto.
  - injection H as <-. split; [exact Hs|]. right.
    split; [exact Hnz | now apply df_max_prom_Raise].
  - lia.
Qed.

Lemma mapM_raises {A B : Type} (f : A -> result B) (l : list A) (a : A) (e : exn) :
  In a l -> f a = Raise e -> exists e', mapM f l = Raise e'.
Proof.
  induction l as [|x l IH]; intros Hin Ha; [contradiction|].
  simpl. destruct (f x) as [b|e'] eqn:Hx; [|now exists e'].
  destruct Hin as [->|Hin]; [congruence|].
  destruct (IH Hin Ha) as (e' & ->). now exists e'.
Qed.

(** X15: one window with received but no sent packets loses the whole
    matrix: wherever it stands among the windows, and whatever the others
    hold, the run ends in an exception.  The exception is
    [ZeroDivisionError] when the rolling windows are not negative and the
    spectral routines raise nothing else on the windows of the run, as
    when they return on all of them. *)
Theorem zero_sent_window_aborts_run :
  forall (L : NumLib) (merged : list (Z * DataFrame)) (w : Z * DataFrame)
         (rolling_window_1 rolling_window_2 : Z)
         (resample_rate : string) (frequency : float64),
    0 <= rolling_window_1 -> 0 <= rolling_window_2 ->
    In w merged ->
    skip_check (dropna (snd w)) = false ->
    sent_packets (dropna (snd w)) = 0 ->
    (exists e,
       fan_out_in L merged rolling_window_1 rolling_window_2 resample_rate
                  frequency = Raise e) /\
    ((forall w' e,
        In w' merged ->
        prominences_of L resample_rate frequency (tl (dropna (snd w'))) = Raise e ->
        e = ZeroDivisionError) ->
     fan_out_in L merged rolling_window_1 rolling_window_2 resample_rate frequency =
     Raise ZeroDivisionError).
Proof.
  intros L merged w rw1 rw2 rate freq H1 H2 Hin Hs Hz.
  pose proof (engineer_features_zero_sent L (fst w) rw1 rw2 rate freq (snd w) Hs Hz)
    as Hw.
  split.
  - destruct (mapM_raises
                (fun m : Z * DataFrame =>
                   engineer_features L (snd m) (fst m) rw1 rw2 rate freq)
                merged w ZeroDivisionError Hin Hw) as (e & He).
    exists e. unfold fan_out_in. rewrite He. reflexivity.
  - intros Hlib. unfold fan_out_in.
    rewrite (mapM_raise _ merged w ZeroDivisionError Hin); [reflexivity | exact Hw |].
    intros a' e' Ha' He'.
    destruct (engineer_features_raises _ _ _ _ _ _ _ _ H1 H2 He')
      as (_ & [(_ & ->)|(_ & Hp)]); [reflexivity|].
    exact (Hlib a' e' Ha' Hp).
Qed.

Lemma zero_sent_window_aborts_run_witness :
  fan_out_in plain_lib [(1, window_1_2_2); (1, window_received_only)] 1000 1000
             rate_500ms freq_2 = Raise ZeroDivisionError.
Proof.
  apply (zero_sent_window_aborts_run plain_lib _ (1, window_received_only));
    [lia | lia | right; left; reflexivity | reflexivity | reflexivity |].
  intros w' e [<-|[<-|[]]]; vm_compute; discriminate.
Defined.

Lemma split_raises_IndexError (file : CsvFile) (c : Z) (e : exn) :
  0 < c -> split file c = Raise e -> table file = [] /\ e = IndexError.
Proof.
  intros Hc H. destruct (table file) as [|p df'] eqn:Ht.
  - rewrite (split_empty file c Ht) in H. injection H as <-. auto.
  - rewrite (split_windows file c p df' Hc Ht) in H. discriminate.
Qed.

(** X16: one input file without rows stops [create_features]: for a
    positive chunk size the run ends in [IndexError], wherever the file
    stands and whatever the other files hold. *)
Theorem empty_file_aborts_create_features :
  forall (L : NumLib) (files : list CsvFile) (file : CsvFile)
         (chunk_size rolling_window_1 rolling_window_2 : Z)
         (resample_rate : string) (frequency : float64),
    0 < chunk_size ->
    In file files ->
    table file = [] ->
    create_features L files chunk_size rolling_window_1 rolling_window_2
                    resample_rate frequency = Raise IndexError.
Proof.
  intros L files file c rw1 rw2 rate freq Hc Hin Ht. unfold create_features.
  rewrite (mapM_raise _ files file IndexError Hin); [reflexivity | |].
  - apply split_empty, Ht.
  - intros a' e' _ He'. exact (proj2 (split_raises_IndexError _ _ _ Hc He')).
Qed.

Lemma empty_file_aborts_create_features_witness :
  create_features plain_lib [flow_0_5; empty_flow] 10 1000 1000 rate_500ms freq_2 =
  Raise IndexError.
Proof.
  apply (empty_file_aborts_create_features plain_lib _ empty_flow);
    [lia | right; left; reflexivity | reflexivity].
Defined.

Lemma dropna_rows_app (m1 m2 : list (list float64)) :
  dropna_rows (m1 ++ m2) = dropna_rows m1 ++ dropna_rows m2.
Proof. apply filter_app. Qed.

Lemma fan_out_in_Ok (L : NumLib) (merged : list (Z * DataFrame)) (rw1 rw2 : Z)
  (rate : string) (freq : float64) (m : list (list float64)) :
  fan_out_in L merged rw1 rw2 rate freq = Ok m ->
  exists results,
    mapM (fun w => engineer_features L (snd w) (fst w) rw1 rw2 rate freq) merged =
      Ok results /\
    not_none results <> [] /\
    m = dropna_rows (map feature_row (not_none results)).
Proof.
  unfold fan_out_in. intros H.
  apply bind_Ok in H. destruct H as (results & Hres & H).
  apply bind_Ok in H. destruct H as (features & Hstack & [= <-]).
  apply np_vstack_Ok in Hstack. destruct Hstack as [Hne ->].
  exists results. split; [exact Hres|]. split; [|reflexivity].
  intros E. apply Hne. now rewrite E.
Qed.

Lemma fan_out_in_intro (L : NumLib) (merged : list (Z * DataFrame)) (rw1 rw2 : Z)
  (rate : string) (freq : float64) (results : list (option Features)) :
  mapM (fun w => engineer_features L (snd w) (fst w) rw1 rw2 rate freq) merged =
    Ok results ->
  not_none results <> [] ->
  fan_out_in L merged rw1 rw2 rate freq =
  Ok (dropna_rows (map feature_row (not_none results))).
Proof.
  intros Hres Hne. unfold fan_out_in. rewrite Hres. cbn [bind].
  destruct (not_none results) as [|f fs]; [contradiction|]. reflexivity.
Qed.

(** X17: the matrix of a file list is the matrix of its first part
    followed by that of its second part, whenever both parts give one:
    files do not influence each other's rows. *)
Theorem create_features_app :
  forall (L : NumLib) (files1 files2 : list CsvFile)
         (chunk_size rolling_window_1 rolling_window_2 : Z)
         (resample_rate : string) (frequency : float64)
         (m1 m2 : list (list float64)),
    create_features L files1 chunk_size rolling_window_1 rolling_window_2
                    resample_rate frequency = Ok m1 ->
    create_features L files2 chunk_size rolling_window_1 rolling_window_2
                    resample_rate frequency = Ok m2 ->
    create_features L (files1 ++ files2) chunk_size rolling_window_1
                    rolling_window_2 resample_rate frequency = Ok (m1 ++ m2).
Proof.
  intros L files1 files2 c rw1 rw2 rate freq m1 m2 H1 H2.
  unfold create_features in *.
  apply bind_Ok in H1. destruct H1 as (g1 & Hg1 & H1).
  apply bind_Ok in H2. destruct H2 as (g2 & Hg2 & H2).
  rewrite mapM_app, Hg1, Hg2. cbn [bind]. rewrite concat_app.
  apply fan_out_in_Ok in H1. destruct H1 as (r1 & Hr1 & Hne1 & ->).
  apply fan_out_in_Ok in H2. destruct H2 as (r2 & Hr2 & Hne2 & ->).
  rewrite <- dropna_rows_app, <- map_app, <- not_none_app.
  apply fan_out_in_intro.
  - rewrite mapM_app, Hr1, Hr2. reflexivity.
  - rewrite not_none_app. intros E. apply app_eq_nil in E. tauto.
Qed.

Lemma create_features_app_witness :
  exists m1 m2,
    create_features plain_lib ([flow_0_5] ++ [flow_0_9_10]) 10 1000 1000
                    rate_500ms freq_2 = Ok (m1 ++ m2) /\
    List.length m1 = 1%nat /\ List.length m2 = 1%nat.
Proof.
  eexists. eexists. split.
  - apply (create_features_app plain_lib [flow_0_5] [flow_0_9_10] 10 1000 1000
             rate_500ms freq_2); vm_compute; reflexivity.
  - split; reflexivity.
Defined.

(** ** Windows too short for the rolling mean *)

Lemma roll_short (col : Series) (seconds : Z) (stats : list float64 -> float64) :
  0 <= seconds -> len col < seconds \/ seconds = 0 ->
  roll col seconds stats = Ok (repeat f64_nan (List.length col)).
Proof.
  intros H Hshort. unfold roll. destruct (Z.ltb_spec seconds 0); [lia|].
  f_equal. apply map_const_seq. intros i Hi. unfold count_window, len in *.
  destruct Hshort as [Hshort| ->].
  - destruct (Nat.ltb_spec (i + 1) (Z.to_nat seconds)); [reflexivity | lia].
  - reflexivity.
Qed.

Lemma rolling_delays_short (L : NumLib) (col : Series) (w : Z) :
  0 <= w -> len col < Z.quot w 1000 \/ w < 1000 ->
  rolling_delays L col w = Ok (series_nanmean L (repeat f64_nan (List.length col))).
Proof.
  intros Hw Hshort. unfold rolling_delays.
  rewrite roll_short; [reflexivity | apply Z.quot_pos; lia |].
  destruct Hshort as [H|H]; [now left | right].
  apply Z.quot_small. lia.
Qed.

Lemma delay_column_length (L : NumLib) (w : list Row) :
  List.length (map (fun rx : Row * float64 => (row_dt_time (fst rx), snd rx))
                   (dropna_delay w (ip_delay L w))) = List.length (tl w).
Proof.
  rewrite length_map, <- (dropna_delay_tl L w), length_map. reflexivity.
Qed.

(** The row of a window too short for one of the rolling windows holds
    a NaN. *)
Lemma short_window_nan_row (L : NumLib) (df : DataFrame) (label rw1 rw2 : Z)
  (rate : string) (freq : float64) (f : Features) :
  (forall k, is_nan (series_nanmean L (repeat f64_nan k)) = true) ->
  0 <= rw1 -> 0 <= rw2 ->
  len (tl (dropna df)) < Z.quot rw1 1000 \/ rw1 < 1000 \/
  len (tl (dropna df)) < Z.quot rw2 1000 \/ rw2 < 1000 ->
  engineer_features L df label rw1 rw2 rate freq = Ok (Some f) ->
  (is_nan (smoothed_mean_delay_10s f) = true \/
   is_nan (smoothed_mean_delay_60s f) = true) /\
  existsb is_nan (feature_row f) = true.
Proof.
  intros Hnan H1 H2 Hshort H.
  destruct (engineer_features_vector _ _ _ _ _ _ _ _ H)
    as (_ & _ & v & r10 & r60 & _ & H10 & H60 & ->).
  assert (Hor : is_nan r10 = true \/ is_nan r60 = true).
  { destruct Hshort as [Hs|[Hs|[Hs|Hs]]].
    - left. rewrite rolling_delays_short in H10
        by (try exact H1; left; unfold len; rewrite delay_column_length; exact Hs).
      injection H10 as <-. apply Hnan.
    - left. rewrite rolling_delays_short in H10 by (try exact H1; right; exact Hs).
      injection H10 as <-. apply Hnan.
    - right. rewrite rolling_delays_short in H60
        by (try exact H2; left; unfold len; rewrite delay_column_length; exact Hs).
      injection H60 as <-. apply Hnan.
    - right. rewrite rolling_delays_short in H60 by (try exact H2; right; exact Hs).
      injection H60 as <-. apply Hnan. }
  split; [exact Hor|].
  cbn [feature_row existsb bytes_sr_ratio count_sr_ratio smoothed_mean_delay_10s
       smoothed_mean_delay_60s].
  destruct Hor as [E|E]; rewrite E; rewrite ?orb_true_r; reflexivity.
Qed.

Lemma plain_nanmean_all_nan (k : nat) :
  is_nan (series_nanmean plain_lib (repeat f64_nan k)) = true.
Proof.
  cbn [series_nanmean plain_lib]. unfold plain_nanmean.
  replace (filter (fun x => negb (is_nan x)) (repeat f64_nan k)) with (@nil float64);
    [reflexivity|].
  induction k as [|k IH]; [reflexivity | exact IH].
Qed.

Lemma np_vstack_nonempty (rows : list (list float64)) :
  rows <> [] -> np_vstack rows = Ok rows.
Proof. destruct rows; [contradiction | reflexivity]. Qed.

(** X18: a window whose feature vector is returned but whose rows after
    the first are fewer than one of the rolling widths [int(w / 1000)]
    has a NaN mean delay, and [dropna] removes its row.  A run with the
    window gives the matrix of the run without it and raises what that
    run raises, with one exception: when the run without it has no usable
    window and ends in [ValueError] at [np.vstack], the run with it
    returns the empty matrix.  The mean of an all-NaN series is taken to
    be NaN, as pandas has it. *)
Theorem short_window_leaves_no_row :
  forall (L : NumLib) (df : DataFrame) (label rolling_window_1 rolling_window_2 : Z)
         (resample_rate : string) (frequency : float64) (f : Features),
    (forall k, is_nan (series_nanmean L (repeat f64_nan k)) = true) ->
    0 <= rolling_window_1 -> 0 <= rolling_window_2 ->
    engineer_features L df label rolling_window_1 rolling_window_2
                      resample_rate frequency = Ok (Some f) ->
    len (tl (dropna df)) < Z.quot rolling_window_1 1000 \/
    len (tl (dropna df)) < Z.quot rolling_window_2 1000 ->
    (is_nan (smoothed_mean_delay_10s f) = true \/
     is_nan (smoothed_mean_delay_60s f) = true) /\
    (forall before after : list (Z * DataFrame),
       let run_without :=
         fan_out_in L (before ++ after) rolling_window_1 rolling_window_2
                    resample_rate frequency in
       let run_with :=
         fan_out_in L (before ++ (label, df) :: after) rolling_window_1
                    rolling_window_2 resample_rate frequency in
       (forall m, run_without = Ok m -> run_with = Ok m) /\
       (forall e, run_with = Raise e -> run_without = Raise e) /\
       (forall m, run_with = Ok m ->
          run_without = Ok m \/ (m = [] /\ run_without = Raise ValueError)) /\
       (forall e, run_without = Raise e ->
          run_with = Raise e \/ (e = ValueError /\ run_with = Ok []))).
Proof.
  intros L df label rw1 rw2 rate freq f Hnan H1 H2 Hf Hshort.
  assert (Hshort' : len (tl (dropna df)) < Z.quot rw1 1000 \/ rw1 < 1000 \/
                    len (tl (dropna df)) < Z.quot rw2 1000 \/ rw2 < 1000) by tauto.
  destruct (short_window_nan_row L df label rw1 rw2 rate freq f Hnan H1 H2 Hshort' Hf)
    as [Hor Hrow].
  split; [exact Hor|].
  intros before after run_without run_with.
  set (F := fun w : Z * DataFrame =>
              engineer_features L (snd w) (fst w) rw1 rw2 rate freq).
  assert (Hwithout :
            run_without =
            match mapM F before, mapM F after with
            | Ok r1, Ok r2 =>
                match not_none (r1 ++ r2) with
                | [] => Raise ValueError
                | _ => Ok (dropna_rows (map feature_row (not_none (r1 ++ r2))))
                end
            | Ok _, Raise e => Raise e
            | Raise e, _ => Raise e
            end).
  { unfold run_without, fan_out_in. fold F. rewrite mapM_app.
    destruct (mapM F before) as [r1|e1]; [|reflexivity]. cbn [bind].
    destruct (mapM F after) as [r2|e2]; [|reflexivity]. cbn [bind].
    destruct (not_none (r1 ++ r2)); reflexivity. }
  assert (Hwith :
            run_with =
            match mapM F before, mapM F after with
            | Ok r1, Ok r2 =>
                Ok (dropna_rows (map feature_row (not_none (r1 ++ r2))))
            | Ok _, Raise e => Raise e
            | Raise e, _ => Raise e
            end).
  { unfold run_with, fan_out_in. fold F. rewrite mapM_app.
    destruct (mapM F before) as [r1|e1]; [|reflexivity]. cbn [bind].
    cbn [mapM]. change (F (label, df)) with
      (engineer_features L df label rw1 rw2 rate freq). rewrite Hf. cbn [bind].
    destruct (mapM F after) as [r2|e2]; [|reflexivity]. cbn [bind].
    rewrite !not_none_app. cbn [not_none].
    rewrite !map_app. cbn [map].
    rewrite np_vstack_nonempty
      by (intros E; apply app_eq_nil in E; destruct E as [_ E]; discriminate).
    cbn [bind].
    rewrite !dropna_rows_app. unfold dropna_rows at 2. cbn [filter].
    rewrite Hrow. reflexivity. }
  rewrite Hwithout, Hwith.
  destruct (mapM F before) as [r1|e1].
  2:{ repeat split; intros; try discriminate; auto. }
  destruct (mapM F after) as [r2|e2].
  2:{ repeat split; intros; try discriminate; auto. }
  destruct (not_none (r1 ++ r2)) as [|g gs] eqn:E.
  - cbn [map dropna_rows filter]. split; [discriminate|].
    split; [discriminate|]. split.
    + intros m [= <-]. right. auto.
    + intros e [= <-]. right. auto.
  - split; [auto|]. split; [discriminate|]. split; [auto | discriminate].
Qed.

Lemma short_window_leaves_no_row_witness :
  exists m,
    fan_out_in plain_lib ([(1, window_1_2_2)] ++ (1, table flow_0_5) :: [])
               2000 2000 rate_500ms freq_2 = Ok m /\
    List.length m = 1%nat.
Proof.
  eexists. split.
  - apply (proj1 (proj2 (short_window_leaves_no_row plain_lib (table flow_0_5) 1
                           2000 2000 rate_500ms freq_2 _ plain_nanmean_all_nan
                           ltac:(lia) ltac:(lia) eq_refl
                           ltac:(left; reflexivity))
                        [(1, window_1_2_2)] [])).
    vm_compute. reflexivity.
  - reflexivity.
Defined.

(** X19: with a rolling window below 1000 ms the width [int(w / 1000)]
    is 0, every mean delay is NaN and [dropna] removes every row: a run
    that does not raise returns the empty matrix. *)
Theorem subsecond_rolling_window_empties_matrix :
  forall (L : NumLib) (merged : list (Z * DataFrame))
         (rolling_window_1 rolling_window_2 : Z)
         (resample_rate : string) (frequency : float64)
         (m : list (list float64)),
    (forall k, is_nan (series_nanmean L (repeat f64_nan k)) = true) ->
    0 <= rolling_window_1 -> 0 <= rolling_window_2 ->
    rolling_window_1 < 1000 \/ rolling_window_2 < 1000 ->
    fan_out_in L merged rolling_window_1 rolling_window_2 resample_rate frequency =
      Ok m ->
    m = [].
Proof.
  intros L merged rw1 rw2 rate freq m Hnan H1 H2 Hsub Hm.
  apply fan_out_in_Ok in Hm. destruct Hm as (results & Hres & _ & ->).
  apply filter_none. intros row Hrow.
  apply in_map_iff in Hrow. destruct Hrow as (f & <- & Hf).
  apply not_none_In in Hf.
  destruct (mapM_In _ _ _ Hres _ Hf) as ([label df] & _ & Hrun).
  cbn [fst snd] in Hrun.
  rewrite (proj2 (short_window_nan_row L df label rw1 rw2 rate freq f Hnan H1 H2
                    ltac:(tauto) Hrun)).
  reflexivity.
Qed.

Lemma subsecond_rolling_window_empties_matrix_witness :
  exists m,
    fan_out_in plain_lib [(1, window_1_2_2)] 500 1000 rate_500ms freq_2 = Ok m /\
    m = [].
Proof.
  eexists. split; [vm_compute; reflexivity|].
  exact (subsecond_rolling_window_empties_matrix plain_lib [(1, window_1_2_2)] 500 1000
           rate_500ms freq_2 [] plain_nanmean_all_nan ltac:(lia) ltac:(lia)
           ltac:(left; lia) eq_refl).
Defined.

(** ** Proportions *)

Lemma f64_div_self (m : positive) (e1 e2 : Z) :
  2 ^ 52 <= Zpos m < 2 ^ 53 -> -400 <= e1 <= 400 -> e1 = e2 ->
  f64_div (S754_finite false m e1) (S754_finite false m e2) = f64_of_Z 1.
Proof.
  intros H He Heq. unfold f64_div, SFdiv, SFdiv_core_binary.
  rewrite (Zdigits2_53 _ H).
  unfold fexp, emin.
  replace (Z.min (Z.max (53 + e1 - (53 + e2) - 53) (3 - 1024 - 53)) (e1 - e2))
    with (e1 - e2 - 53) by lia.
  replace (e1 - e2 - (e1 - e2 - 53)) with 53 by lia.
  rewrite Z.shiftl_mul_pow2 by lia.
  pose proof (Z_div_mod (Zpos m * 2 ^ 53) (Zpos m) ltac:(lia)) as Hdiv.
  destruct (Z.div_eucl (Zpos m * 2 ^ 53) (Zpos m)) as [q rem].
  destruct Hdiv as [Hq Hrem]. cbn [xorb].
  set (P := 2 ^ 53) in *.
  assert (Hqv : q = P) by nia.
  assert (Hrv : rem = 0) by nia.
  subst q rem e2. replace (e1 - e1 - 53) with (-53) by lia.
  unfold new_location. destruct (Z.even (Zpos m)); vm_compute; reflexivity.
Qed.

Lemma np_true_divide_zero (b : Z) :
  0 < b < 2 ^ 63 -> np_true_divide 0 b = f64_zero.
Proof.
  intros Hb. unfold np_true_divide.
  destruct (f64_of_Z_canonical b Hb) as (m & e & -> & _). reflexivity.
Qed.

Lemma np_true_divide_self (b : Z) :
  0 < b < 2 ^ 63 -> np_true_divide b b = f64_of_Z 1.
Proof.
  intros Hb. unfold np_true_divide.
  destruct (f64_of_Z_canonical b Hb) as (m & e & -> & Hm & He).
  apply f64_div_self; [exact Hm | lia | reflexivity].
Qed.

Lemma f64_ltb_leb (x y : float64) : f64_ltb x y = true -> f64_leb x y = true.
Proof.
  unfold f64_ltb, f64_leb, SFltb, SFleb.
  destruct (SFcompare x y) as [[]|]; congruence.
Qed.

(** A count over a total that bounds it: the float64 quotient lies in
    [[0, 1]] and is 0 or 1 exactly at the two ends. *)
Lemma np_true_divide_unit (a b : Z) :
  0 <= a <= b -> 0 < b < 2 ^ 52 ->
  f64_leb f64_zero (np_true_divide a b) = true /\
  f64_leb (np_true_divide a b) (f64_of_Z 1) = true /\
  (np_true_divide a b = f64_zero <-> a = 0) /\
  (np_true_divide a b = f64_of_Z 1 <-> a = b).
Proof.
  intros Ha Hb.
  assert (Hb63 : 0 < b < 2 ^ 63) by lia.
  destruct (Z.eq_dec a 0) as [->|Hpos].
  { rewrite (np_true_divide_zero b Hb63).
    split; [reflexivity|]. split; [reflexivity|]. split; [tauto|].
    split; [discriminate | lia]. }
  destruct (Z.eq_dec a b) as [->|Hlt].
  { rewrite (np_true_divide_self b Hb63).
    split; [reflexivity|]. split; [reflexivity|].
    split; [split; [discriminate | lia] | tauto]. }
  pose proof (np_true_divide_strictly_increasing b 0 a Hb63 ltac:(lia) ltac:(lia)
                ltac:(lia)) as Hlo.
  pose proof (np_true_divide_strictly_increasing b a b Hb63 ltac:(lia) ltac:(lia)
                ltac:(lia)) as Hhi.
  rewrite (np_true_divide_zero b Hb63) in Hlo.
  rewrite (np_true_divide_self b Hb63) in Hhi.
  split; [now apply f64_ltb_leb|]. split; [now apply f64_ltb_leb|].
  split; (split; [|lia]); intros E; rewrite E in *; discriminate.
Qed.

(** X20: for a window of fewer than [2^52] rows the four proportion
    features lie in [[0, 1]] as float64 values; each is exactly 0 when no
    packet of its kind is there, exactly 1 when every packet of its
    direction is of its kind, and neither otherwise. *)
Theorem proportions_between_0_and_1 :
  forall (L : NumLib) (df : DataFrame) (label rolling_window_1 rolling_window_2 : Z)
         (resample_rate : string) (frequency : float64) (f : Features),
    engineer_features L df label rolling_window_1 rolling_window_2
                      resample_rate frequency = Ok (Some f) ->
    len (dropna df) < 2 ^ 52 ->
    forall (p : float64) (count total : Z),
      In (p, count, total)
         [ (sent_large_prop f, len (large 1 (dropna df)), sent_packets (dropna df));
           (sent_small_prop f, len (small 1 (dropna df)), sent_packets (dropna df));
           (received_large_prop f, len (large 2 (dropna df)),
            received_packets (dropna df));
           (received_small_prop f, len (small 2 (dropna df)),
            received_packets (dropna df)) ] ->
      f64_leb f64_zero p = true /\
      f64_leb p (f64_of_Z 1) = true /\
      (p = f64_zero <-> count = 0) /\
      (p = f64_of_Z 1 <-> count = total).
Proof.
  intros L df label rw1 rw2 rate freq f H Hlen p count total Hin.
  destruct (engineer_features_vector _ _ _ _ _ _ _ _ H)
    as (Hs & Hnz & v & r10 & r60 & _ & _ & _ & ->).
  destruct (skip_check_false _ Hs) as [_ Hrz].
  set (w := dropna df) in *.
  pose proof (large_small_bound 1 w) as B1.
  pose proof (large_small_bound 2 w) as B2.
  pose proof (of_dir_bound 1 w) as D1.
  pose proof (of_dir_bound 2 w) as D2.
  assert (N1 : 0 <= len (large 1 w)) by (unfold len; lia).
  assert (N2 : 0 <= len (small 1 w)) by (unfold len; lia).
  assert (N3 : 0 <= len (large 2 w)) by (unfold len; lia).
  assert (N4 : 0 <= len (small 2 w)) by (unfold len; lia).
  unfold sent_packets, received_packets in *.
  cbn [sent_large_prop sent_small_prop received_large_prop received_small_prop] in Hin.
  destruct Hin as [E|[E|[E|[E|[]]]]]; injection E as <- <- <-;
    apply np_true_divide_unit; lia.
Qed.

Lemma proportions_between_0_and_1_witness :
  exists f,
    engineer_features plain_lib window_1_2_2 1 1000 1000 rate_500ms freq_2 =
      Ok (Some f) /\
    f64_leb f64_zero (sent_large_prop f) = true /\
    f64_leb (sent_large_prop f) (f64_of_Z 1) = true.
Proof.
  eexists. split; [vm_compute; reflexivity|].
  destruct (proportions_between_0_and_1 plain_lib window_1_2_2 1 1000 1000
              rate_500ms freq_2 _ eq_refl ltac:(reflexivity)
              _ _ _ (or_introl eq_refl)) as (H0 & H1 & _).
  exact (conj H0 H1).
Defined.

(** ** The preprocessing step *)

Lemma insert_by_time_Permutation (r : RawPacket) (l : list RawPacket) :
  Permutation (r :: l) (insert_by_time r l).
Proof.
  induction l as [|x l IH]; simpl; [apply Permutation_refl|].
  destruct (raw_time r <=? raw_time x); [apply Permutation_refl|].
  eapply Permutation_trans; [apply perm_swap|]. now apply perm_skip.
Qed.

Lemma insertion_sort_Permutation (l : list RawPacket) :
  Permutation l (insertion_sort l).
Proof.
  induction l as [|r l IH]; simpl; [apply Permutation_refl|].
  eapply Permutation_trans; [apply perm_skip, IH|].
  apply insert_by_time_Permutation.
Qed.

Lemma nondecreasing_cons (a : Z) (l : list Z) :
  nondecreasing (a :: l) = true <->
  nondecreasing l = true /\ match l with [] => True | b :: _ => a <= b end.
Proof.
  destruct l as [|b l]; [simpl; tauto|].
  change (nondecreasing (a :: b :: l)) with ((a <=? b) && nondecreasing (b :: l)).
  rewrite andb_true_iff, Z.leb_le. tauto.
Qed.

Lemma insert_by_time_sorted (r : RawPacket) (l : list RawPacket) :
  nondecreasing (map raw_time l) = true ->
  nondecreasing (map raw_time (insert_by_time r l)) = true.
Proof.
  induction l as [|x l IH]; intros H; [reflexivity|].
  cbn [insert_by_time].
  destruct (Z.leb_spec (raw_time r) (raw_time x)) as [Hle|Hgt].
  - cbn [map]. apply nondecreasing_cons. split; [exact H | exact Hle].
  - cbn [map] in *. apply nondecreasing_cons in H. destruct H as [Hl Hhd].
    apply nondecreasing_cons. split; [apply IH, Hl|].
    destruct l as [|y l]; cbn [insert_by_time map]; [lia|].
    destruct (raw_time r <=? raw_time y); cbn [map] in *; lia.
Qed.

Lemma insertion_sort_sorted (l : list RawPacket) :
  nondecreasing (map raw_time (insertion_sort l)) = true.
Proof.
  induction l as [|r l IH]; [reflexivity|].
  apply insert_by_time_sorted, IH.
Qed.

Lemma nondecreasing_head_le (l : list Z) :
  forall a, nondecreasing (a :: l) = true -> forall x, In x l -> a <= x.
Proof.
  induction l as [|b l IH]; intros a H x Hx; [contradiction|].
  apply nondecreasing_cons in H. destruct H as [Hl Hab].
  destruct Hx as [<-|Hx]; [exact Hab|].
  pose proof (IH b Hl x Hx). lia.
Qed.

Lemma nondecreasing_shift (c : Z) (l : list Z) :
  nondecreasing (map (fun z => z - c) l) = nondecreasing l.
Proof.
  induction l as [|a l IH]; [reflexivity|].
  destruct l as [|b l]; [reflexivity|].
  change (((a - c <=? b - c) && nondecreasing (map (fun z => z - c) (b :: l))) =
          ((a <=? b) && nondecreasing (b :: l))).
  rewrite IH. f_equal.
  destruct (Z.leb_spec (a - c) (b - c)); destruct (Z.leb_spec a b); try reflexivity; lia.
Qed.

(** X21: the table [etl] writes is sorted by [time], holds exactly the
    packets of the raw table with no value missing, and [split] accepts
    it for every positive chunk size, cutting it into windows that
    concatenate back to the table. *)
Theorem etl_table_feeds_split :
  forall (sort_values : list RawPacket -> list RawPacket)
         (df : list RawPacket) (name : string) (chunk_size : Z),
    (forall l, Permutation l (sort_values l)) ->
    (forall l, nondecreasing (map raw_time (sort_values l)) = true) ->
    df <> [] -> 0 < chunk_size ->
    exists out ws,
      etl_table sort_values df = Some out /\
      time_sorted out /\
      Permutation (map (fun p => (time p, size p, dir p)) out)
                  (map (fun r => (raw_time r, Some (raw_size r), Some (raw_dir r))) df) /\
      List.length (dropna out) = List.length df /\
      split (mkCsvFile name out) chunk_size = Ok ws /\
      List.concat (map snd ws) = out.
Proof.
  intros sort_values df name c Hperm Hsorted Hne Hc.
  destruct df as [|first rest]; [contradiction|].
  set (df := first :: rest) in *.
  set (conv := fun r => mkPacket (raw_time r - raw_time first) (raw_time r)
                                 (Some (raw_size r)) (Some (raw_dir r))).
  set (out := map conv (sort_values df)).
  assert (Hs : time_sorted out).
  { unfold time_sorted, out. rewrite map_map. cbn [conv time]. apply Hsorted. }
  assert (Hout : exists p out', out = p :: out').
  { destruct out as [|p out'] eqn:E; [|eauto]. exfalso.
    apply map_eq_nil in E. pose proof (Hperm df) as HP. rewrite E in HP.
    apply Permutation_sym, Permutation_nil in HP. discriminate. }
  destruct Hout as (p & out' & Eout).
  destruct (split_sorted (mkCsvFile name out) c p out' Eout Hs Hc) as [_ Hsplit].
  exists out. eexists. split; [reflexivity|]. split; [exact Hs|]. split; [|split; [|split]].
  - unfold out. rewrite map_map. cbn [conv time size dir].
    apply Permutation_sym.
    exact (Permutation_map (fun r => (raw_time r, Some (raw_size r), Some (raw_dir r)))
             (Hperm df)).
  - rewrite (Permutation_length (Hperm df)).
    unfold out. generalize (sort_values df). intros l.
    induction l as [|r l IH]; [reflexivity|]. simpl. now rewrite IH.
  - exact Hsplit.
  - rewrite map_map. cbn [snd table]. rewrite Eout in *. now apply windows_concat_all.
Qed.

Lemma etl_table_feeds_split_witness :
  exists out ws,
    etl_table insertion_sort raw_5_0 = Some out /\
    split (mkCsvFile (preprocessed_name "flow.csv") out) 5 = Ok ws /\
    List.concat (map snd ws) = out.
Proof.
  destruct (etl_table_feeds_split insertion_sort raw_5_0
              (preprocessed_name "flow.csv") 5
              insertion_sort_Permutation insertion_sort_sorted
              ltac:(discriminate) ltac:(lia))
    as (out & ws & H1 & _ & _ & _ & H2 & H3).
  exists out, ws. auto.
Defined.

(** X22: [dt_time] is the packet's time less the time of the first row
    of the raw table, the row labelled [0], and not less the earliest
    time.  It grows with the rows; the first row written has a [dt_time]
    of at most 0, and of 0 exactly when no packet of the raw table is
    earlier than its first row. *)
Theorem etl_dt_time_counts_from_first_raw_row :
  forall (sort_values : list RawPacket -> list RawPacket)
         (first : RawPacket) (rest : list RawPacket),
    (forall l, Permutation l (sort_values l)) ->
    (forall l, nondecreasing (map raw_time (sort_values l)) = true) ->
    exists p out',
      etl_table sort_values (first :: rest) = Some (p :: out') /\
      (forall q, In q (p :: out') -> dt_time q = time q - raw_time first) /\
      nondecreasing (map dt_time (p :: out')) = true /\
      dt_time p <= 0 /\
      (dt_time p = 0 <-> forall r, In r rest -> raw_time first <= raw_time r).
Proof.
  intros sort_values first rest Hperm Hsorted.
  set (df := first :: rest).
  pose proof (Hperm df) as HP. pose proof (Hsorted df) as HS.
  destruct (sort_values df) as [|r0 rs] eqn:E.
  { apply Permutation_sym, Permutation_nil in HP. discriminate. }
  eexists. eexists. split.
  { unfold etl_table, df. fold df. rewrite E. reflexivity. }
  assert (Hmin : forall r, In r df -> raw_time r0 <= raw_time r).
  { intros r Hr. apply (Permutation_in _ HP) in Hr. destruct Hr as [<-|Hr]; [lia|].
    apply (nondecreasing_head_le _ _ HS). now apply in_map. }
  assert (Hr0 : In r0 df).
  { apply (Permutation_in _ (Permutation_sym HP)). now left. }
  split; [|split; [|split]].
  - intros q Hq. change (In q (map (fun r => mkPacket (raw_time r - raw_time first)
                                      (raw_time r) (Some (raw_size r)) (Some (raw_dir r)))
                                   (r0 :: rs))) in Hq.
    apply in_map_iff in Hq. destruct Hq as (r & <- & _). reflexivity.
  - change (nondecreasing
              (map dt_time
                 (map (fun r => mkPacket (raw_time r - raw_time first) (raw_time r)
                                         (Some (raw_size r)) (Some (raw_dir r)))
                      (r0 :: rs))) = true).
    rewrite map_map. cbn [dt_time].
    rewrite <- (map_map raw_time (fun z => z - raw_time first)), nondecreasing_shift.
    exact HS.
  - cbn [dt_time]. pose proof (Hmin first (in_eq _ _)). lia.
  - cbn [dt_time]. split.
    + intros H0 r Hr. pose proof (Hmin r (in_cons _ _ _ Hr)). lia.
    + intros Hall. pose proof (Hmin first (in_eq _ _)).
      destruct Hr0 as [<-|Hr0]; [lia|]. pose proof (Hall r0 Hr0). lia.
Qed.

Lemma etl_dt_time_counts_from_first_raw_row_witness :
  exists p out',
    etl_table insertion_sort raw_5_0 = Some (p :: out') /\ dt_time p <= 0.
Proof.
  destruct (etl_dt_time_counts_from_first_raw_row insertion_sort
              (mkRawPacket 5 100 2) [mkRawPacket 0 100 1; mkRawPacket 7 100 1]
              insertion_sort_Permutation insertion_sort_sorted)
    as (p & out' & H1 & _ & _ & H2 & _).
  exists p, out'. auto.
Defined.

Lemma is_prefix_app_sep (s a b : string) (c : ascii) :
  ~ In c (list_ascii_of_string s) ->
  is_prefix s (a ++ String c b) = is_prefix s a.
Proof.
  revert a. induction s as [|x s IH]; intros a Hc; [reflexivity|].
  assert (Hx : x <> c) by (intros ->; apply Hc; now left).
  assert (Hs : ~ In c (list_ascii_of_string s)) by (intros H; apply Hc; now right).
  destruct a as [|y a]; cbn [append is_prefix].
  - apply Ascii.eqb_neq in Hx. now rewrite Hx.
  - now rewrite (IH a Hs).
Qed.

Lemma str_in_app_sep (s a b : string) (c : ascii) :
  s <> EmptyString -> ~ In c (list_ascii_of_string s) ->
  str_in s (a ++ String c b) = str_in s a || str_in s b.
Proof.
  intros Hne Hc.
  assert (He : forall t, is_prefix s (String c t) = false).
  { intros t. destruct s as [|x s]; [contradiction|]. cbn [is_prefix].
    assert (Hx : x <> c) by (intros ->; apply Hc; now left).
    apply Ascii.eqb_neq in Hx. now rewrite Hx. }
  induction a as [|y a IH].
  - cbn [append]. cbn [str_in]. rewrite (He b).
    destruct s as [|x s]; [contradiction|]. reflexivity.
  - cbn [append]. cbn [str_in]. rewrite IH.
    change (String y (a ++ String c b)) with (String y a ++ String c b)%string.
    rewrite (is_prefix_app_sep s (String y a) b c Hc). now rewrite orb_assoc.
Qed.

(** X23: the prefix [preprocessed-] that [etl] puts before a file's base
    name neither adds nor hides a [novideo]: the label [split] reads from
    the path of the preprocessed file is 0 exactly when [novideo] is in
    the directory part or in the base name of the raw file. *)
Theorem preprocessed_name_keeps_label :
  forall dir basename : string,
    streaming_label (dir ++ preprocessed_name basename) =
      (if str_in "novideo" dir || str_in "novideo" basename then 0 else 1) /\
    streaming_label (preprocessed_name basename) = streaming_label basename.
Proof.
  assert (H : forall dir basename,
             str_in "novideo" (dir ++ preprocessed_name basename) =
             str_in "novideo" dir || str_in "novideo" basename).
  { intros dir basename. unfold preprocessed_name.
    change ("preprocessed-" ++ basename)%string
      with (String "p" ("reprocessed" ++ String "-" basename))%string.
    rewrite (str_in_app_sep "novideo" dir _ "p");
      [|discriminate | simpl; intuition discriminate].
    rewrite (str_in_app_sep "novideo" "reprocessed" basename "-");
      [|discriminate | simpl; intuition discriminate].
    reflexivity. }
  intros dir basename. split.
  - unfold streaming_label. rewrite H.
    destruct (str_in "novideo" dir || str_in "novideo" basename); reflexivity.
  - unfold streaming_label.
    change (preprocessed_name basename) with ("" ++ preprocessed_name basename)%string.
    rewrite H. reflexivity.
Qed.

(** ** Outcomes of the extractor *)

(** X24: for rolling windows that are not negative, the outcome of
    [engineer_features] is decided by the received bytes, the sent
    packets and the spectral routines on the rows after the first.  It
    returns [None] exactly when the received bytes sum to 0.  It raises
    exactly in two cases: [ZeroDivisionError] from the proportions when
    there are received bytes but no sent packet, and, with a sent packet,
    what resampling, [welch], the peak search or the prominences raise.
    It returns a feature vector exactly when there are received bytes and
    a sent packet and these routines return. *)
Theorem engineer_features_outcome :
  forall (L : NumLib) (df : DataFrame) (label rolling_window_1 rolling_window_2 : Z)
         (resample_rate : string) (frequency : float64),
    0 <= rolling_window_1 -> 0 <= rolling_window_2 ->
    let run := engineer_features L df label rolling_window_1 rolling_window_2
                                 resample_rate frequency in
    (run = Ok None <-> received_bytes (dropna df) = 0) /\
    (forall e,
       run = Raise e <->
       received_bytes (dropna df) <> 0 /\
       ((sent_packets (dropna df) = 0 /\ e = ZeroDivisionError) \/
        (sent_packets (dropna df) <> 0 /\
         prominences_of L resample_rate frequency (tl (dropna df)) = Raise e))) /\
    ((exists f, run = Ok (Some f)) <->
       received_bytes (dropna df) <> 0 /\ sent_packets (dropna df) <> 0 /\
       exists prominences,
         prominences_of L resample_rate frequency (tl (dropna df)) = Ok prominences).
Proof.
  intros L df label rw1 rw2 rate freq H1 H2 run.
  pose proof (Z.quot_pos rw1 1000 H1 ltac:(lia)).
  pose proof (Z.quot_pos rw2 1000 H2 ltac:(lia)).
  pose proof (skip_check_received_bytes (dropna df)) as Hskip.
  destruct (engineer_features_cases L label rw1 rw2 rate freq df)
    as [(Hs & E)|[(Hs & Hz & E)|[(Hs & Hnz & e' & Hp & E)|[(_ & _ & _ & Hq & _)|
        (Hs & Hnz & f & E & _ & _ & Hp & _)]]]];
    [| | | lia |]; fold run in E; rewrite Hs in Hskip; symmetry in Hskip;
    [apply Z.eqb_eq in Hskip | apply Z.eqb_neq in Hskip
     | apply Z.eqb_neq in Hskip | apply Z.eqb_neq in Hskip];
    rewrite E.
  - split; [tauto|]. split.
    + intros e. split; [discriminate | tauto].
    + split; [intros (f & Hf); discriminate | tauto].
  - split; [split; [discriminate | tauto]|]. split.
    + intros e. split.
      * intros [= <-]. tauto.
      * intros (_ & [(_ & ->)|(Hnz & _)]); [reflexivity | contradiction].
    + split; [intros (f & Hf); discriminate | tauto].
  - apply df_max_prom_Raise in Hp.
    split; [split; [discriminate | tauto]|]. split.
    + intros e. split.
      * intros [= <-]. tauto.
      * intros (_ & [(Hz & _)|(_ & Hp')]); [contradiction | congruence].
    + split; [intros (f & Hf); discriminate|].
      intros (_ & _ & p & Hp'). congruence.
  - destruct (df_max_prom_Ok _ _ _ _ _ Hp) as (p & Hp' & _).
    split; [split; [discriminate | tauto]|]. split.
    + intros e. split; [discriminate|].
      intros (_ & [(Hz & _)|(_ & Hr)]); [contradiction | congruence].
    + split; [intros _; eauto | intros _; eauto].
Qed.

Lemma engineer_features_outcome_witness :
  engineer_features plain_lib window_1_2_2 1 1000 1000 rate_500ms f64_zero =
  Raise ZeroDivisionError.
Proof.
  apply (proj1 (proj2 (engineer_features_outcome plain_lib window_1_2_2
                         1 1000 1000 rate_500ms f64_zero
                         ltac:(lia) ltac:(lia)))).
  split; [discriminate|]. right. split; [discriminate | reflexivity].
Defined.

Lemma count_occ_of_dir (d : Z) (w : list Row) :
  Z.of_nat (count_occ Z.eq_dec (map row_dir w) d) = len (of_dir d w).
Proof.
  unfold len, of_dir. induction w as [|r w IH]; [reflexivity|].
  cbn [map count_occ filter].
  destruct (Z.eq_dec (row_dir r) d) as [E|E].
  - apply Z.eqb_eq in E. rewrite E. cbn [List.length]. lia.
  - apply Z.eqb_neq in E. rewrite E. exact IH.
Qed.

Lemma count_occ_two (vals : list Z) (d1 d2 : Z) :
  d1 <> d2 ->
  (count_occ Z.eq_dec vals d1 + count_occ Z.eq_dec vals d2 <= List.length vals)%nat.
Proof.
  intros Hd. induction vals as [|v vals IH]; [simpl; lia|].
  cbn [count_occ List.length].
  destruct (Z.eq_dec v d1); destruct (Z.eq_dec v d2); lia.
Qed.

Lemma longest_dir_streak_count (vals : list Z) (d : Z) :
  longest_dir_streak vals d <= Z.of_nat (count_occ Z.eq_dec vals d).
Proof.
  pose proof (longest_dir_streak_nonneg vals d).
  pose proof (has_run_count vals d _ (longest_dir_streak_has_run vals d)). lia.
Qed.

(** X25: the two streak features of a window are not negative; the sent
    streak is at most the number of sent packets and the received streak
    at most the number of received packets; and together they are at
    most the number of rows less one, the first row being left out. *)
Theorem streak_features_bounded :
  forall (L : NumLib) (df : DataFrame) (label rolling_window_1 rolling_window_2 : Z)
         (resample_rate : string) (frequency : float64) (f : Features),
    engineer_features L df label rolling_window_1 rolling_window_2
                      resample_rate frequency = Ok (Some f) ->
    0 <= sent_longest_streak f <= sent_packets (dropna df) /\
    0 <= received_longest_streak f <= received_packets (dropna df) /\
    sent_longest_streak f + received_longest_streak f <= len (dropna df) - 1.
Proof.
  intros L df label rw1 rw2 rate freq f H.
  destruct (engineer_features_vector _ _ _ _ _ _ _ _ H)
    as (_ & Hnz & v & r10 & r60 & _ & _ & _ & ->).
  cbn [sent_longest_streak received_longest_streak].
  set (w := dropna df) in *.
  pose proof (longest_dir_streak_nonneg (map row_dir (tl w)) 1).
  pose proof (longest_dir_streak_nonneg (map row_dir (tl w)) 2).
  pose proof (longest_dir_streak_count (map row_dir (tl w)) 1) as C1.
  pose proof (longest_dir_streak_count (map row_dir (tl w)) 2) as C2.
  pose proof (count_occ_two (map row_dir (tl w)) 1 2 ltac:(lia)) as C12.
  rewrite length_map in C12.
  rewrite count_occ_of_dir in C1, C2.
  assert (T1 : len (of_dir 1 (tl w)) <= sent_packets w /\
               len (of_dir 2 (tl w)) <= received_packets w /\
               len (tl w) = len w - 1).
  { unfold sent_packets, received_packets, len, of_dir in *.
    destruct w as [|r w']; [simpl in Hnz; lia|].
    cbn [tl filter]. destruct (row_dir r =? 1); destruct (row_dir r =? 2);
      cbn [List.length]; lia. }
  pose proof (count_occ_of_dir 1 (tl w)) as E1.
  pose proof (count_occ_of_dir 2 (tl w)) as E2.
  unfold len in *. lia.
Qed.

Lemma streak_features_bounded_witness :
  exists f,
    engineer_features plain_lib window_1_2_2 1 1000 1000 rate_500ms freq_2 =
      Ok (Some f) /\
    sent_longest_streak f + received_longest_streak f <= len (dropna window_1_2_2) - 1.
Proof.
  eexists. split; [vm_compute; reflexivity|].
  exact (proj2 (proj2 (streak_features_bounded plain_lib window_1_2_2 1 1000 1000
                         rate_500ms freq_2 _ eq_refl))).
Defined.
